(** * FPGA manager driver for the Intel Stratix10 SoC: the buffer pump

    A shallow embedding of [drivers/fpga/stratix10-soc.c]: the pool of
    service-layer buffers, the receive callback, and the three operations
    of the FPGA manager ([s10_ops_write_init], [s10_ops_write],
    [s10_ops_write_complete]), followed by the properties of the
    natural-language specification that concern them.

    The driver talks to three collaborators that are not part of the file:
    the service layer ([stratix10_svc_send], [stratix10_svc_done]), the
    completion object of the scheduler ([reinit_completion], [complete],
    [wait_for_completion_timeout]) and the DMA mapping layer.  Every call
    into them is recorded, in program order, in a log; what they answer
    is read from a script supplied by the environment.  Notifications of
    the service layer run [s10_receive_callback] in another context; the
    embedding lets them arrive at the two places where the sequential
    flow of the pump can be overtaken: at the top of an iteration of the
    loop of [s10_ops_write] and while the pump sleeps in
    [wait_for_completion_timeout]. *)

From Stdlib Require Import ZArith Lia.
From stdpp Require Import base list.

Local Open Scope Z_scope.

(** ** Constants of the driver *)

Definition NUM_SVC_BUFS : nat := 4.

(** Modelled from the spec: [SZ_512K] comes from [<linux/sizes.h>], which
    is not in the tree; the spec gives the capacity of a buffer as
    512 KiB. *)
Definition SZ_512K : Z := 0x80000.

Definition SVC_BUF_SIZE : Z := SZ_512K.

(** Indicates buffer is in use if set. *)
Definition SVC_BUF_LOCK : Z := 0.

Definition INVALID_FIRMWARE_VERSION : Z := 0xFFFF.

(** The error numbers of [<uapi/asm-generic/errno-base.h>] and
    [<uapi/asm-generic/errno.h>]. *)
Definition EFAULT : Z := 14.
Definition EINVAL : Z := 22.
Definition ENOBUFS : Z := 105.
Definition ETIMEDOUT : Z := 110.

Definition NULL : Z := 0.

(** Modelled from the spec: the headers
    [<linux/firmware/intel/stratix10-svc-client.h>] and
    [<linux/fpga/fpga-mgr.h>] are not in the tree.  The driver uses from
    them the bit numbers of the status conditions, the bit numbers of the
    two configuration flags of the RECONFIG command, the two flag masks
    of [struct fpga_image_info], the two timeouts in milliseconds with
    [msecs_to_jiffies], and the size of
    [struct stratix10_svc_command_config_type].  They are taken as
    parameters: the embedding and the general theorems hold for every
    header. *)
Class kernel_headers := {
  SVC_STATUS_OK : Z;
  SVC_STATUS_BUFFER_SUBMITTED : Z;
  SVC_STATUS_BUFFER_DONE : Z;
  SVC_STATUS_COMPLETED : Z;
  SVC_STATUS_ERROR : Z;
  SVC_STATUS_NO_SUPPORT : Z;
  COMMAND_RECONFIG_FLAG_PARTIAL : Z;
  COMMAND_AUTHENTICATE_BITSTREAM : Z;
  FPGA_MGR_PARTIAL_RECONFIG : Z;
  FPGA_MGR_BITSTREAM_AUTHENTICATE : Z;
  SVC_RECONFIG_REQUEST_TIMEOUT_MS : Z;
  SVC_RECONFIG_BUFFER_TIMEOUT_MS : Z;
  msecs_to_jiffies : Z -> Z;
  sizeof_config_type : Z
}.

(** Modelled from the spec: a concrete header, for the closed examples.
    The status conditions are the six of the spec's taxonomy (OK,
    BUFFER_SUBMITTED, BUFFER_DONE, COMPLETED, ERROR, NO_SUPPORT), numbered
    in that order with the gap that mainline Linux leaves for BUSY between
    COMPLETED and ERROR; the flag masks are distinct single bits; a jiffy
    is 4 ms. *)
Definition mainline : kernel_headers := {|
  SVC_STATUS_OK := 0;
  SVC_STATUS_BUFFER_SUBMITTED := 1;
  SVC_STATUS_BUFFER_DONE := 2;
  SVC_STATUS_COMPLETED := 3;
  SVC_STATUS_ERROR := 5;
  SVC_STATUS_NO_SUPPORT := 6;
  COMMAND_RECONFIG_FLAG_PARTIAL := 0;
  COMMAND_AUTHENTICATE_BITSTREAM := 1;
  FPGA_MGR_PARTIAL_RECONFIG := 1;
  FPGA_MGR_BITSTREAM_AUTHENTICATE := 32;
  SVC_RECONFIG_REQUEST_TIMEOUT_MS := 300;
  SVC_RECONFIG_BUFFER_TIMEOUT_MS := 720;
  msecs_to_jiffies := fun m => (m + 3) / 4;
  sizeof_config_type := 4
|}.

(** ** Machine integers and bit operations *)

Definition BIT (nr : Z) : Z := Z.shiftl 1 nr.

(** Conversion to [int] (32 bits, two's complement) and to
    [unsigned long] / [size_t] (64 bits). *)
Definition to_int (x : Z) : Z := (x + 2 ^ 31) mod 2 ^ 32 - 2 ^ 31.
Definition to_ulong (x : Z) : Z := x mod 2 ^ 64.

Definition set_bit (nr : Z) (w : Z) : Z := Z.lor w (BIT nr).
Definition clear_bit_unlock (nr : Z) (w : Z) : Z := Z.ldiff w (BIT nr).
Definition test_and_set_bit_lock (nr : Z) (w : Z) : bool * Z :=
  (Z.testbit w nr, Z.lor w (BIT nr)).
Definition test_and_clear_bit (nr : Z) (w : Z) : bool * Z :=
  (Z.testbit w nr, Z.ldiff w (BIT nr)).

(** ** Data *)

(** [struct s10_svc_buf]: [buf] is the kernel address of the buffer
    provided by the service layer, [lock] is non-zero when the buffer is
    in use. *)
Record s10_svc_buf := mk_svc_buf {
  buf : Z;
  dma_addr : Z;
  lock : Z
}.

Definition with_lock (l : Z) (b : s10_svc_buf) : s10_svc_buf :=
  {| buf := buf b; dma_addr := dma_addr b; lock := l |}.
Definition with_dma_addr (d : Z) (b : s10_svc_buf) : s10_svc_buf :=
  {| buf := buf b; dma_addr := d; lock := lock b |}.

(** [struct s10_priv], without the handles of the channel and of the
    client (they only name the collaborators) and without the completion
    object (it belongs to the environment).  [svc_bufs] is the array of
    [NUM_SVC_BUFS] buffers. *)
Record s10_priv := mk_priv {
  svc_bufs : list s10_svc_buf;
  status : Z;
  fw_version : Z;
  is_smmu_enabled : bool
}.

Definition with_svc_bufs (bs : list s10_svc_buf) (p : s10_priv) : s10_priv :=
  {| svc_bufs := bs; status := status p; fw_version := fw_version p;
     is_smmu_enabled := is_smmu_enabled p |}.
Definition with_status (s : Z) (p : s10_priv) : s10_priv :=
  {| svc_bufs := svc_bufs p; status := s; fw_version := fw_version p;
     is_smmu_enabled := is_smmu_enabled p |}.

(** [struct stratix10_svc_cb_data]: what a notification carries. *)
Record stratix10_svc_cb_data := mk_cb_data {
  cb_status : Z;
  kaddr1 : Z;
  kaddr2 : Z;
  kaddr3 : Z;
  kaddr4 : Z
}.

Inductive stratix10_svc_command_code :=
| COMMAND_RECONFIG
| COMMAND_RECONFIG_DATA_SUBMIT
| COMMAND_RECONFIG_DATA_CLAIM
| COMMAND_RECONFIG_STATUS.

(** The payload of a message: nothing, the address of the local
    [ctype] (given by its [flags]), or the address of a buffer. *)
Inductive payload :=
| PNull
| PConfig (flags : Z)
| PBuf (kaddr : Z).

(** A call into a collaborator, with its arguments and, where the
    driver reads it, its result:
    [Send] is [stratix10_svc_send], [Done] is [stratix10_svc_done],
    [Wait] is [wait_for_completion_timeout], [Reinit] is
    [reinit_completion], [Complete] is [complete], [Warn] is the [WARN]
    of [s10_unlock_bufs].  Debug and error prints are not recorded. *)
Inductive extern_call :=
| Send (command : stratix10_svc_command_code) (data : payload)
       (payload_length : Z) (ret : Z)
| Done
| Memcpy (dst src n : Z)
| DmaMap (kaddr size dma : Z)
| DmaUnmap (dma size : Z)
| Warn (kaddr : Z)
| Reinit
| Complete
| Wait (timeout ret : Z).

(** What the environment does during one iteration of a loop of the
    driver (each iteration reads the parts it reaches):
    [irq]: the notifications that arrived while the pump was running;
    [send_ret]: the result of [stratix10_svc_send];
    [dma]: the result of [dma_map_single];
    [wake]: the notifications that arrive during the wait;
    [left]: the result of [wait_for_completion_timeout]. *)
Record turn := mk_turn {
  irq : list stratix10_svc_cb_data;
  send_ret : Z;
  dma : Z;
  wake : list stratix10_svc_cb_data;
  left : Z
}.

(** ** The monad of the driver: private data and the log of calls *)

Definition M (A : Type) : Type := s10_priv -> A * s10_priv * list extern_call.

Definition ret {A} (a : A) : M A := fun p => (a, p, []).

Definition bind {A B} (m : M A) (f : A -> M B) : M B :=
  fun p =>
    match m p with
    | (a, p1, t1) =>
        match f a p1 with
        | (b, p2, t2) => (b, p2, t1 ++ t2)
        end
    end.

Declare Scope drv_scope.
Delimit Scope drv_scope with drv.
Notation "'let*' x ':=' m 'in' k" := (bind m (fun x => k))
  (at level 10, x name, m at level 100, k at level 200, only parsing) : drv_scope.
Notation "m >> k" := (bind m (fun _ => k))
  (at level 100, k at level 200, right associativity, only parsing) : drv_scope.
Local Open Scope drv_scope.

Definition get : M s10_priv := fun p => (p, p, []).
Definition modify (f : s10_priv -> s10_priv) : M unit := fun p => (tt, f p, []).
Definition call (c : extern_call) : M unit := fun p => (tt, p, [c]).

Definition result_of {A} (r : A * s10_priv * list extern_call) : A := r.1.1.
Definition priv_of {A} (r : A * s10_priv * list extern_call) : s10_priv := r.1.2.
Definition calls_of {A} (r : A * s10_priv * list extern_call) : list extern_call := r.2.

Fixpoint for_each {A} (l : list A) (f : A -> M unit) : M unit :=
  match l with
  | [] => ret tt
  | x :: l' => f x >> for_each l' f
  end.

(** What one iteration of a loop does next: go on with the new values
    of the variables of the loop, or leave the function with a result. *)
Inductive next (S : Type) :=
| Again (s : S)
| Return (r : Z).
Arguments Again {S} s.
Arguments Return {S} r.

(** ** The driver *)

Section Driver.
Context {hdr : kernel_headers}.

Definition S10_BUFFER_TIMEOUT : Z := msecs_to_jiffies SVC_RECONFIG_BUFFER_TIMEOUT_MS.
Definition S10_RECONFIG_TIMEOUT : Z := msecs_to_jiffies SVC_RECONFIG_REQUEST_TIMEOUT_MS.

(** [s10_svc_send_msg]: hands the message to the service layer and
    returns what [stratix10_svc_send] answers ([r], from the script).
    The callback it registers is [s10_receive_callback] at every call of
    the three operations below, so that every notification of their
    scripts runs that callback. *)
Definition s10_svc_send_msg (r : Z) (command : stratix10_svc_command_code)
    (data : payload) (payload_length : Z) : M Z :=
  call (Send command data payload_length r) >>
  ret r.

(** [s10_get_unlocked_buffer_count]: how many buffers are not in locked
    state. *)
Fixpoint unlocked_count (bufs : list s10_svc_buf) : nat :=
  match bufs with
  | [] => O
  | b :: bufs' =>
      if lock b =? 0 then S (unlocked_count bufs') else unlocked_count bufs'
  end.

Definition s10_get_unlocked_buffer_count : M nat :=
  let* p := get in
  ret (unlocked_count (svc_bufs p)).

(** The loop of [s10_unlock_bufs] over the array: the first buffer
    whose address is [kaddr] is unmapped (with the SMMU) and unlocked,
    and the function returns; [None] when the loop runs to its end. *)
Fixpoint unlock_scan (smmu : bool) (kaddr : Z) (bufs : list s10_svc_buf)
    : option (list s10_svc_buf * list extern_call) :=
  match bufs with
  | [] => None
  | b :: bufs' =>
      if buf b =? kaddr then
        Some (with_lock (clear_bit_unlock SVC_BUF_LOCK (lock b)) b :: bufs',
              if smmu then [DmaUnmap (dma_addr b) SVC_BUF_SIZE] else [])
      else
        match unlock_scan smmu kaddr bufs' with
        | Some (bufs'', t) => Some (b :: bufs'', t)
        | None => None
        end
  end.

Definition s10_unlock_bufs (kaddr : Z) : M unit :=
  if kaddr =? NULL then ret tt
  else
    fun p =>
      match unlock_scan (is_smmu_enabled p) kaddr (svc_bufs p) with
      | Some (bufs', t) => (tt, with_svc_bufs bufs' p, t)
      | None => (tt, p, [Warn kaddr])
      end.

(** The loop of [s10_receive_callback] that sets the status bits:
    [n] iterations are left, [i] is the loop variable. *)
Fixpoint set_status_bits (n : nat) (i : Z) (st : Z) (w : Z) : Z :=
  match n with
  | O => w
  | S n' =>
      set_status_bits n' (i + 1) st
        (if Z.land st (Z.shiftl 1 i) =? 0 then w else set_bit i w)
  end.

Definition s10_receive_callback (data : stratix10_svc_cb_data) : M unit :=
  let st := cb_status data in
  modify (fun p =>
    with_status
      (set_status_bits (Z.to_nat (SVC_STATUS_ERROR + 1)) 0 st (status p)) p) >>
  (if Z.land st (BIT SVC_STATUS_BUFFER_DONE) =? 0 then ret tt
   else
     s10_unlock_bufs (kaddr1 data) >>
     s10_unlock_bufs (kaddr2 data) >>
     s10_unlock_bufs (kaddr3 data) >>
     s10_unlock_bufs (kaddr4 data)) >>
  call Complete.

(** The notifications [ds] run the callback one after the other. *)
Definition deliver (ds : list stratix10_svc_cb_data) : M unit :=
  for_each ds s10_receive_callback.

(** [wait_for_completion_timeout]: the notifications of [e] arrive, then
    the wait returns what the script says. *)
Definition wait_for_completion_timeout (e : turn) (timeout : Z) : M Z :=
  deliver (wake e) >>
  call (Wait timeout (left e)) >>
  ret (left e).

(** [test_and_clear_bit (nr, &priv->status)]. *)
Definition test_and_clear_status (nr : Z) : M bool :=
  fun p =>
    let '(old, w) := test_and_clear_bit nr (status p) in
    (old, with_status w p, []).

(** The part of [s10_ops_write_init] that follows the choice of the
    configuration flags, from [reinit_completion] to the end:
    [ctype_flags] is [ctype.flags]. *)
Definition s10_ops_write_init_request (e : turn) (ctype_flags : Z) : M Z :=
  call Reinit >>
  let* r := s10_svc_send_msg (send_ret e) COMMAND_RECONFIG
         (PConfig ctype_flags) sizeof_config_type in
  let* r' := (if r <? 0 then ret r
         else
           let* w := wait_for_completion_timeout e S10_RECONFIG_TIMEOUT in
           if to_int w =? 0 then ret (- ETIMEDOUT)
           else
             let* ok := test_and_clear_status SVC_STATUS_OK in
             if negb ok then ret (- ETIMEDOUT)
             else
               modify (fun p =>
                 with_svc_bufs (map (with_lock 0) (svc_bufs p)) p) >>
               ret 0) in
  (* init_done: *)
  call Done >>
  ret r'.

(** [s10_ops_write_init]: [flags] is [info->flags].  The image buffer and
    its size are not used by the function. *)
Definition s10_ops_write_init (e : turn) (flags : Z) : M Z :=
  let ctype_flags := 0 in
  if negb (Z.land flags FPGA_MGR_PARTIAL_RECONFIG =? 0) then
    s10_ops_write_init_request e
      (Z.lor ctype_flags (BIT COMMAND_RECONFIG_FLAG_PARTIAL))
  else if negb (Z.land flags FPGA_MGR_BITSTREAM_AUTHENTICATE =? 0) then
    let* p := get in
    if fw_version p =? INVALID_FIRMWARE_VERSION then ret (- EINVAL)
    else
      s10_ops_write_init_request e
        (Z.lor ctype_flags (BIT COMMAND_AUTHENTICATE_BITSTREAM))
  else
    s10_ops_write_init_request e ctype_flags.

(** The loop of [s10_send_buf] that locks a buffer that is not being
    used: the result is the value of [i] after the loop, the index of
    the buffer it locked or the length of the array. *)
Fixpoint lock_scan (i : nat) (bufs : list s10_svc_buf) : nat * list s10_svc_buf :=
  match bufs with
  | [] => (i, [])
  | b :: bufs' =>
      let '(old, w) := test_and_set_bit_lock SVC_BUF_LOCK (lock b) in
      if old then
        let '(j, bufs'') := lock_scan (S i) bufs' in
        (j, with_lock w b :: bufs'')
      else (i, with_lock w b :: bufs')
  end.

(** [priv->svc_bufs[i].f = ...] *)
Definition update_buf (i : nat) (f : s10_svc_buf -> s10_svc_buf) : M unit :=
  modify (fun p =>
    match svc_bufs p !! i with
    | Some b => with_svc_bufs (<[i := f b]> (svc_bufs p)) p
    | None => p
    end).

(** [xfer_sz = count < SVC_BUF_SIZE ? count : SVC_BUF_SIZE] *)
Definition xfer_size (count : Z) : Z :=
  if count <? SVC_BUF_SIZE then count else SVC_BUF_SIZE.

(** [s10_send_buf]: [src] is the address of the rest of the image,
    [count] its size.  Returns the number of bytes transferred or a
    negative error. *)
Definition s10_send_buf (e : turn) (src : Z) (count : Z) : M Z :=
  let* p := get in
  let '(i, bufs) := lock_scan 0 (svc_bufs p) in
  modify (with_svc_bufs bufs) >>
  if (i =? NUM_SVC_BUFS)%nat then ret (- ENOBUFS)
  else
    let xfer_sz := xfer_size count in
    let svc_buf := default NULL (buf <$> bufs !! i) in
    call (Memcpy svc_buf src xfer_sz) >>
    (if is_smmu_enabled p then
       call (DmaMap svc_buf SVC_BUF_SIZE (dma e)) >>
       update_buf i (with_dma_addr (dma e))
     else ret tt) >>
    let* r := s10_svc_send_msg (send_ret e) COMMAND_RECONFIG_DATA_SUBMIT
           (PBuf svc_buf) xfer_sz in
    if r <? 0 then
      update_buf i (fun b => with_lock (clear_bit_unlock SVC_BUF_LOCK (lock b)) b) >>
      ret r
    else ret (to_int xfer_sz).

(** The part of the loop body of [s10_ops_write] after the message has
    been sent: the wait and the tests of the status bits.  [src] and
    [count] are the two variables of the loop. *)
Definition s10_ops_write_wait (e : turn) (src count : Z) : M (next (Z * Z)) :=
  let* wait_status := wait_for_completion_timeout e S10_BUFFER_TIMEOUT in
  let* done := test_and_clear_status SVC_STATUS_BUFFER_DONE in
  if done then ret (Again (src, count))
  else
    let* submitted := test_and_clear_status SVC_STATUS_BUFFER_SUBMITTED in
    if submitted then ret (Again (src, count))
    else
      let* error := test_and_clear_status SVC_STATUS_ERROR in
      if error then ret (Return (- EFAULT))
      else if wait_status =? 0 then ret (Return (- ETIMEDOUT))
      else ret (Again (src, count)).

(** One iteration of the loop of [s10_ops_write]. *)
Definition s10_ops_write_body (e : turn) (src count : Z) : M (next (Z * Z)) :=
  deliver (irq e) >>
  call Reinit >>
  if 0 <? count then
    let* sent := s10_send_buf e src count in
    if sent <? 0 then ret (Again (src, count))
    else s10_ops_write_wait e (src + sent) (to_ulong (count - sent))
  else
    let* n := s10_get_unlocked_buffer_count in
    if (n =? NUM_SVC_BUFS)%nat then ret (Return 0)
    else
      let* r := s10_svc_send_msg (send_ret e) COMMAND_RECONFIG_DATA_CLAIM PNull 0 in
      if r <? 0 then ret (Return r)
      else s10_ops_write_wait e src count.

(** The loop of [s10_ops_write] along the script: [None] when the
    script ends while the loop is still running. *)
Fixpoint s10_ops_write_loop (script : list turn) (src count : Z) : M (option Z) :=
  match script with
  | [] => ret None
  | e :: script' =>
      let* o := s10_ops_write_body e src count in
      match o with
      | Again (src', count') => s10_ops_write_loop script' src' count'
      | Return r => ret (Some r)
      end
  end.

Definition s10_ops_write (script : list turn) (src count : Z) : M (option Z) :=
  s10_ops_write_loop script src count.

(** One iteration of the loop of [s10_ops_write_complete]; the state of
    the loop is the variable [timeout]. *)
Definition s10_ops_write_complete_body (e : turn) (timeout : Z) : M (next Z) :=
  call Reinit >>
  let* r := s10_svc_send_msg (send_ret e) COMMAND_RECONFIG_STATUS PNull 0 in
  if r <? 0 then ret (Return r)
  else
    let* w := wait_for_completion_timeout e timeout in
    let r := to_int w in
    if r =? 0 then ret (Return (- ETIMEDOUT))
    else
      (* ret is # of jiffies until timeout *)
      let timeout' := to_ulong r in
      let* completed := test_and_clear_status SVC_STATUS_COMPLETED in
      if completed then ret (Return 0)
      else
        let* error := test_and_clear_status SVC_STATUS_ERROR in
        if error then ret (Return (- EFAULT))
        else ret (Again timeout').

Fixpoint s10_ops_write_complete_loop (script : list turn) (timeout : Z)
    : M (option Z) :=
  match script with
  | [] => ret None
  | e :: script' =>
      let* o := s10_ops_write_complete_body e timeout in
      match o with
      | Again timeout' => s10_ops_write_complete_loop script' timeout'
      | Return r => ret (Some r)
      end
  end.

(** [s10_ops_write_complete]: [None] when the script ends while the loop
    is still polling. *)
Definition s10_ops_write_complete (script : list turn) : M (option Z) :=
  let* o := s10_ops_write_complete_loop script S10_RECONFIG_TIMEOUT in
  match o with
  | Some r => call Done >> ret (Some r)
  | None => ret None
  end.

End Driver.

(** ** Observations on a run *)

(** The number of calls of [stratix10_svc_done] in a log. *)
Definition done_calls (t : list extern_call) : nat :=
  length (omap (fun c => match c with Done => Some tt | _ => None end) t).

(** The messages handed to [stratix10_svc_send], accepted or not. *)
Definition sends (t : list extern_call)
    : list (stratix10_svc_command_code * payload * Z) :=
  omap (fun c => match c with
                 | Send cmd data n _ => Some (cmd, data, n)
                 | _ => None
                 end) t.

(** The lengths of the data submissions that the service layer
    accepted. *)
Definition submissions (t : list extern_call) : list Z :=
  omap (fun c => match c with
                 | Send COMMAND_RECONFIG_DATA_SUBMIT _ n r =>
                     if r <? 0 then None else Some n
                 | _ => None
                 end) t.

(** The copies into service-layer buffers. *)
Definition copies (t : list extern_call) : list (Z * Z * Z) :=
  omap (fun c => match c with
                 | Memcpy dst src n => Some (dst, src, n)
                 | _ => None
                 end) t.

(** The waits of a log, each with its timeout and its result. *)
Definition waits (t : list extern_call) : list (Z * Z) :=
  omap (fun c => match c with
                 | Wait timeout r => Some (timeout, r)
                 | _ => None
                 end) t.

(** The first wait has the budget [budget]; every later wait has as
    budget what the wait before it returned. *)
Fixpoint chained (budget : Z) (ws : list (Z * Z)) : Prop :=
  match ws with
  | [] => True
  | (timeout, r) :: ws' => timeout = budget /\ chained r ws'
  end.

(** A partial wake of the completion poll: the service layer accepts
    the request of the turn, the wait returns before its budget is used
    up, and after the notifications of the turn neither the COMPLETED nor
    the ERROR bit is pending. *)
Definition partial_wake {hdr : kernel_headers} (e : turn) (q : s10_priv) : Prop :=
  0 <= send_ret e /\ left e <> 0 /\
  Z.testbit (status (priv_of (deliver (wake e) q))) SVC_STATUS_COMPLETED = false /\
  Z.testbit (status (priv_of (deliver (wake e) q))) SVC_STATUS_ERROR = false.

(** The private data after the notifications of the turns [pre] have
    arrived, one turn after the other. *)
Definition woken {hdr : kernel_headers} (pre : list turn) (p : s10_priv) : s10_priv :=
  foldl (fun q e => priv_of (deliver (wake e) q)) p pre.

(** Every turn of [pre], from the private data [p] on, is a partial
    wake. *)
Fixpoint partial_wakes {hdr : kernel_headers} (pre : list turn) (p : s10_priv)
    : Prop :=
  match pre with
  | [] => True
  | e :: pre' => partial_wake e p /\ partial_wakes pre' (priv_of (deliver (wake e) p))
  end.

(** The calls that a notification can make. *)
Definition from_callback (c : extern_call) : Prop :=
  match c with
  | Complete | Warn _ | DmaUnmap _ _ => True
  | _ => False
  end.

Definition locked (b : s10_svc_buf) : Prop := Z.testbit (lock b) SVC_BUF_LOCK = true.
Definition free (b : s10_svc_buf) : Prop := lock b = 0.

(** The array of buffers as [s10_probe] leaves it: [NUM_SVC_BUFS]
    entries. *)
Definition pool_wf (p : s10_priv) : Prop := length (svc_bufs p) = NUM_SVC_BUFS.

(** What the release of the returned addresses [ks] does to a buffer:
    its lock bit is cleared when its address is one of them (NULL is
    not the address of a returned buffer). *)
Definition release (ks : list Z) (b : s10_svc_buf) : s10_svc_buf :=
  if existsb (fun k => negb (k =? NULL) && (buf b =? k)) ks
  then with_lock (clear_bit_unlock SVC_BUF_LOCK (lock b)) b
  else b.

(** The first [k] buffers are locked, the others are free. *)
Definition locked_prefix (k : nat) (p : s10_priv) : Prop :=
  exists pre suf,
    svc_bufs p = pre ++ suf /\ length pre = k /\
    Forall locked pre /\ Forall free suf.

(** A caller that submits one buffer after the other, with no
    notification in between: each request is the turn of the environment,
    the address of the data and its size. *)
Fixpoint s10_send_bufs (reqs : list (turn * Z * Z)) : M (list Z) :=
  match reqs with
  | [] => ret []
  | (e, src, count) :: reqs' =>
      let* r := s10_send_buf e src count in
      let* rs := s10_send_bufs reqs' in
      ret (r :: rs)
  end.

(** The cut of an input of [count] bytes into pieces of the capacity of
    a buffer: as many full pieces as fit, then the rest when [count] is
    not a multiple of the capacity. *)
Definition chunking (count : Z) : list Z :=
  replicate (Z.to_nat (count / SVC_BUF_SIZE)) SVC_BUF_SIZE ++
  (if count mod SVC_BUF_SIZE =? 0 then [] else [count mod SVC_BUF_SIZE]).

(** [s10_ops_write_init] returns before it contacts the service layer:
    authentication is requested, partial reconfiguration is not, and the
    version of the firmware is not known. *)
Definition returns_early {hdr : kernel_headers} (flags : Z) (p : s10_priv) : bool :=
  (Z.land flags FPGA_MGR_PARTIAL_RECONFIG =? 0) &&
  negb (Z.land flags FPGA_MGR_BITSTREAM_AUTHENTICATE =? 0) &&
  (fw_version p =? INVALID_FIRMWARE_VERSION).

(** The configuration flags that [s10_ops_write_init] sends: partial
    reconfiguration when it is requested, else authentication when it is
    requested, else none (full reconfiguration). *)
Definition config_flags {hdr : kernel_headers} (flags : Z) : Z :=
  if negb (Z.land flags FPGA_MGR_PARTIAL_RECONFIG =? 0)
  then BIT COMMAND_RECONFIG_FLAG_PARTIAL
  else if negb (Z.land flags FPGA_MGR_BITSTREAM_AUTHENTICATE =? 0)
  then BIT COMMAND_AUTHENTICATE_BITSTREAM
  else 0.

(** ** Concrete runs *)

Definition pool0 : list s10_svc_buf :=
  [mk_svc_buf 0x1000 0 0; mk_svc_buf 0x2000 0 0;
   mk_svc_buf 0x3000 0 0; mk_svc_buf 0x4000 0 0].

(** The private data after [s10_probe] when the firmware did not report
    its version. *)
Definition priv0 : s10_priv := mk_priv pool0 0 INVALID_FIRMWARE_VERSION false.

(** A pool in the middle of a transfer: the first two buffers are in
    flight, the status has the BUFFER_SUBMITTED bit of [mainline]
    pending. *)
Definition priv_busy : s10_priv :=
  mk_priv [mk_svc_buf 0x1000 0 1; mk_svc_buf 0x2000 0 1;
           mk_svc_buf 0x3000 0 0; mk_svc_buf 0x4000 0 0] 2 0x0102 false.

(** A pool whose four buffers are in flight. *)
Definition priv_full : s10_priv :=
  mk_priv [mk_svc_buf 0x1000 0 1; mk_svc_buf 0x2000 0 1;
           mk_svc_buf 0x3000 0 1; mk_svc_buf 0x4000 0 1] 0 0x0102 false.

(** A turn in which nothing arrives: the message is accepted and the
    wait times out. *)
Definition quiet : turn := mk_turn [] 0 0 [] 0.

(** A turn in which one notification with the status word [st] and the
    buffer address [k] wakes the pump with [j] jiffies left. *)
Definition notified (st k j : Z) : turn :=
  mk_turn [] 0 0 [mk_cb_data st k NULL NULL NULL] j.

(** A turn in which the service layer accepts the message and, while
    the pump waits, returns the buffer at address [k]. *)
Definition returned {hdr : kernel_headers} (k : Z) : turn :=
  mk_turn [] 0 0 [mk_cb_data (BIT SVC_STATUS_BUFFER_DONE) k NULL NULL NULL] 1.

(** A turn in which the service layer refuses the message with the
    error [err]. *)
Definition refused (err : Z) : turn := mk_turn [] (- err) 0 [] 0.

(** ** The life cycle of the driver: probe, remove, and the buffers *)

Definition ENOMEM : Z := 12.

Definition with_buf (k : Z) (b : s10_svc_buf) : s10_svc_buf :=
  {| buf := k; dma_addr := dma_addr b; lock := lock b |}.
Definition with_fw_version (v : Z) (p : s10_priv) : s10_priv :=
  {| svc_bufs := svc_bufs p; status := status p; fw_version := v;
     is_smmu_enabled := is_smmu_enabled p |}.

(** A pointer that a kernel function returns, or the error it encodes
    in its place: [IS_ERR] and [PTR_ERR] of [<linux/err.h>] are the case
    analysis, [err] is the value of [PTR_ERR]. *)
Inductive ptr_or_err :=
| Ptr (kaddr : Z)
| ErrPtr (err : Z).

(** A call into a collaborator during probe and remove: a call of the
    transfer path ([Svc]), [stratix10_svc_allocate_memory] with its size
    and result, [stratix10_svc_free_memory],
    [stratix10_svc_request_channel_byname] with its result,
    [stratix10_svc_free_channel], [init_completion], [fpga_mgr_register]
    with its result, [fpga_mgr_unregister], [platform_set_drvdata], and
    the [stratix10_svc_send] of the COMMAND_FIRMWARE_VERSION message (no
    payload, length 0) with its result. *)
Inductive platform_call :=
| Svc (c : extern_call)
| AllocateMemory (size : Z) (ret : ptr_or_err)
| FreeMemory (kaddr : Z)
| RequestChannel (ret : ptr_or_err)
| FreeChannel
| InitCompletion
| MgrRegister (ret : ptr_or_err)
| MgrUnregister
| SetDrvdata
| SendFirmwareVersion (ret : Z).

(** What the environment answers during [s10_probe]: whether
    [devm_kzalloc] succeeds, whether the node is compatible with
    "intel,agilex5-soc-fpga-mgr", the value of the property
    "altr,smmu_enable_quirk", the channel, the manager, the turn of the
    firmware-version request (result of the send, notifications during
    the wait, result of the wait), the memory that the notifications
    point to, and the result of the i-th allocation. *)
Record probe_env := mk_probe_env {
  kzalloc_ok : bool;
  compatible_agilex5 : bool;
  smmu_enable_quirk : bool;
  request_channel : ptr_or_err;
  mgr_register : ptr_or_err;
  version_turn : turn;
  memory : Z -> Z;
  allocate : nat -> ptr_or_err
}.

(** The loop of [s10_free_buffers]: the number of free buffers, the
    array after the loop, and the addresses handed to
    [stratix10_svc_free_memory], in the order of the calls. *)
Fixpoint free_scan (bufs : list s10_svc_buf) : nat * list s10_svc_buf * list Z :=
  match bufs with
  | [] => (O, [], [])
  | b :: bufs' =>
      let '(n, bufs'', freed) := free_scan bufs' in
      if buf b =? NULL then (S n, b :: bufs'', freed)
      else
        let '(old, w) := test_and_set_bit_lock SVC_BUF_LOCK (lock b) in
        if old then (n, with_lock w b :: bufs'', freed)
        else (S n, with_buf NULL (with_lock w b) :: bufs'', buf b :: freed)
  end.

(** [s10_free_buffers]: frees the buffers that are not in use; true
    when all buffers are freed. *)
Definition s10_free_buffers (p : s10_priv) : bool * s10_priv * list platform_call :=
  let '(num_free, bufs, freed) := free_scan (svc_bufs p) in
  ((num_free =? NUM_SVC_BUFS)%nat, with_svc_bufs bufs p, FreeMemory <$> freed).

(** The loop of [s10_remove]: the addresses it frees. *)
Fixpoint remove_scan (bufs : list s10_svc_buf) : list Z :=
  match bufs with
  | [] => []
  | b :: bufs' =>
      if buf b =? NULL then remove_scan bufs' else buf b :: remove_scan bufs'
  end.

(** [s10_remove]. *)
Definition s10_remove (p : s10_priv) : Z * s10_priv * list platform_call :=
  (0, p, (FreeMemory <$> remove_scan (svc_bufs p)) ++ [MgrUnregister; FreeChannel]).

(** The loop of [s10_probe] that allocates the buffers: [i] is the loop
    variable; the result is the error of the allocation that failed, if
    one did. *)
Fixpoint allocate_bufs (alloc : nat -> ptr_or_err) (i : nat) (bufs : list s10_svc_buf)
    : option Z * list s10_svc_buf * list platform_call :=
  match bufs with
  | [] => (None, [], [])
  | b :: bufs' =>
      match alloc i with
      | ErrPtr err => (Some err, b :: bufs', [AllocateMemory SVC_BUF_SIZE (alloc i)])
      | Ptr kbuf =>
          let '(r, bufs'', t) := allocate_bufs alloc (S i) bufs' in
          (r, with_lock 0 (with_buf kbuf b) :: bufs'',
           AllocateMemory SVC_BUF_SIZE (alloc i) :: t)
      end
  end.

Section Lifecycle.
Context {hdr : kernel_headers}.

(** [s10_fw_version_callback]: [mem] gives the [unsigned int] at an
    address; the callback reads it at [data->kaddr1] when the status is
    OK.  The warning and the error print are not recorded. *)
Definition s10_fw_version_callback (mem : Z -> Z) (data : stratix10_svc_cb_data)
    : M unit :=
  (if cb_status data =? BIT SVC_STATUS_OK then
     modify (with_fw_version (mem (kaddr1 data)))
   else if cb_status data =? BIT SVC_STATUS_NO_SUPPORT then ret tt
   else ret tt) >>
  call Complete.

(** [s10_probe]: the result, the private data when it was allocated,
    and the log. *)
Definition s10_probe (env : probe_env)
    : Z * option s10_priv * list platform_call :=
  if negb (kzalloc_ok env) then (- ENOMEM, None, [])
  else
    let priv :=
      {| svc_bufs := replicate NUM_SVC_BUFS (mk_svc_buf NULL 0 0);
         status := 0;
         fw_version := INVALID_FIRMWARE_VERSION;
         is_smmu_enabled :=
           if compatible_agilex5 env then smmu_enable_quirk env else false |} in
    let t1 := [RequestChannel (request_channel env)] in
    match request_channel env with
    | ErrPtr err => (to_int err, Some priv, t1)
    | Ptr _ =>
        let t2 := t1 ++ [InitCompletion; MgrRegister (mgr_register env)] in
        match mgr_register env with
        | ErrPtr err => (to_int err, Some priv, t2 ++ [FreeChannel])
        | Ptr _ =>
            let e := version_turn env in
            let t3 := t2 ++ [SendFirmwareVersion (send_ret e)] in
            if negb (send_ret e =? 0) then
              (send_ret e, Some priv, t3 ++ [Svc Done; FreeChannel])
            else
              let '(_, priv, tw) :=
                for_each (wake e) (s10_fw_version_callback (memory env)) priv in
              let t4 := t3 ++ (Svc <$> tw) ++ [Svc (Wait S10_RECONFIG_TIMEOUT (left e))] in
              if to_int (left e) =? 0 then
                (- ETIMEDOUT, Some priv, t4 ++ [Svc Done; FreeChannel])
              else
                let '(r, bufs, ta) := allocate_bufs (allocate env) 0 (svc_bufs priv) in
                let priv := with_svc_bufs bufs priv in
                match r with
                | Some err =>
                    let '(_, priv, tf) := s10_free_buffers priv in
                    (to_int err, Some priv, t4 ++ ta ++ tf ++ [FreeChannel])
                | None =>
                    (0, Some priv, t4 ++ ta ++ [Svc Done; SetDrvdata])
                end
        end
    end.

End Lifecycle.

(** ** Observations on the life cycle *)

(** The addresses handed to [stratix10_svc_free_memory]. *)
Definition frees (t : list platform_call) : list Z :=
  omap (fun c => match c with FreeMemory k => Some k | _ => None end) t.

(** The addresses that [stratix10_svc_allocate_memory] returned. *)
Definition allocations (t : list platform_call) : list Z :=
  omap (fun c => match c with AllocateMemory _ (Ptr k) => Some k | _ => None end) t.

(** The calls of the transfer path in a log of the life cycle. *)
Definition svc_calls (t : list platform_call) : list extern_call :=
  omap (fun c => match c with Svc c' => Some c' | _ => None end) t.

(** The number of calls of [stratix10_svc_free_channel]. *)
Definition free_channel_calls (t : list platform_call) : nat :=
  length (omap (fun c => match c with FreeChannel => Some tt | _ => None end) t).

(** The number of channels that
    [stratix10_svc_request_channel_byname] handed out. *)
Definition channels (t : list platform_call) : nat :=
  length (omap (fun c => match c with
                         | RequestChannel (Ptr _) => Some tt
                         | _ => None
                         end) t).

(** The lock word of a buffer is 0 or 1: only the lock bit is used. *)
Definition lock_word_ok (b : s10_svc_buf) : Prop := lock b = 0 \/ lock b = 1.

(** The pieces [ns] of an image read one after the other from the
    address [src]: each with the address it starts at. *)
Fixpoint pieces (src : Z) (ns : list Z) : list (Z * Z) :=
  match ns with
  | [] => []
  | n :: ns' => (src, n) :: pieces (src + n) ns'
  end.

(** The time slept in the waits [ws], each given by its timeout and by
    what was left of it. *)
Definition slept (ws : list (Z * Z)) : Z :=
  foldr (fun w acc => (w.1 - w.2) + acc) 0 ws.

(** The calls to the DMA mapping layer in a log. *)
Definition dma_calls (t : list extern_call) : list extern_call :=
  omap (fun c => match c with
                 | DmaMap _ _ _ | DmaUnmap _ _ => Some c
                 | _ => None
                 end) t.

(** An environment of [s10_probe] in which everything succeeds and the
    firmware reports the version [0x0203]. *)
Definition probe_ok : probe_env :=
  {| kzalloc_ok := true;
     compatible_agilex5 := false;
     smmu_enable_quirk := false;
     request_channel := Ptr 0xc000;
     mgr_register := Ptr 0xd000;
     version_turn := notified 1 0xe000 50;
     memory := fun _ => 0x0203;
     allocate := fun i => Ptr (0x1000 * (Z.of_nat i + 1)) |}.

(** An environment in which the third allocation fails. *)
Definition probe_enomem : probe_env :=
  {| kzalloc_ok := true;
     compatible_agilex5 := false;
     smmu_enable_quirk := false;
     request_channel := Ptr 0xc000;
     mgr_register := Ptr 0xd000;
     version_turn := notified 1 0xe000 50;
     memory := fun _ => 0x0203;
     allocate := fun i => if (i =? 2)%nat then ErrPtr (- ENOMEM)
                          else Ptr (0x1000 * (Z.of_nat i + 1)) |}.

(** An environment in which the firmware answers that it does not
    support the version request. *)
Definition probe_no_support : probe_env :=
  {| kzalloc_ok := true;
     compatible_agilex5 := false;
     smmu_enable_quirk := false;
     request_channel := Ptr 0xc000;
     mgr_register := Ptr 0xd000;
     version_turn := notified 64 NULL 50;
     memory := fun _ => 0x0203;
     allocate := fun i => Ptr (0x1000 * (Z.of_nat i + 1)) |}.

(** What [s10_ops_write] may call on a pool whose buffers are at the
    addresses [A]: a copy into one of the buffers, not longer than its
    capacity; the submission of one of the buffers with a length between 1
    and the capacity; a DATA_CLAIM request with no payload; and the calls
    of the DMA layer, of the completion and of the warning. *)
Definition write_call_ok (A : list Z) (c : extern_call) : Prop :=
  match c with
  | Memcpy dst _ n => dst ∈ A /\ 0 < n <= SVC_BUF_SIZE
  | Send COMMAND_RECONFIG_DATA_SUBMIT data n _ =>
      (exists k, data = PBuf k /\ k ∈ A) /\ 0 < n <= SVC_BUF_SIZE
  | Send COMMAND_RECONFIG_DATA_CLAIM data n _ => data = PNull /\ n = 0
  | Send _ _ _ _ => False
  | Done => False
  | _ => True
  end.

(** The number of bytes of the submissions [ns]. *)
Definition total (ns : list Z) : Z := foldr Z.add 0 ns.

(** The address a copy reads from and its length. *)
Definition read_of (c : Z * Z * Z) : Z * Z := (c.1.2, c.2).

(** ** Bits *)

Lemma testbit_BIT (n m : Z) : 0 <= n -> Z.testbit (BIT n) m = (n =? m).
Proof.
  intros Hn. unfold BIT. rewrite Z.shiftl_1_l. apply Z.pow2_bits_eqb, Hn.
Qed.

Lemma testbit_set_bit (n w m : Z) :
  0 <= n -> Z.testbit (set_bit n w) m = Z.testbit w m || (n =? m).
Proof.
  intros Hn. unfold set_bit. rewrite Z.lor_spec, testbit_BIT by exact Hn.
  reflexivity.
Qed.

Lemma testbit_clear_bit (n w m : Z) :
  0 <= n ->
  Z.testbit (clear_bit_unlock n w) m = Z.testbit w m && negb (n =? m).
Proof.
  intros Hn. unfold clear_bit_unlock.
  rewrite Z.ldiff_spec, testbit_BIT by exact Hn. reflexivity.
Qed.

Lemma land_BIT_eqb (w n : Z) :
  0 <= n -> (Z.land w (Z.shiftl 1 n) =? 0) = negb (Z.testbit w n).
Proof.
  intros Hn. fold (BIT n).
  destruct (Z.testbit w n) eqn:E; simpl.
  - apply Z.eqb_neq. intros H0.
    assert (Hb : Z.testbit (Z.land w (BIT n)) n = true).
    { rewrite Z.land_spec, testbit_BIT, E, Z.eqb_refl by exact Hn. reflexivity. }
    rewrite H0, Z.bits_0 in Hb. discriminate.
  - apply Z.eqb_eq, Z.bits_inj'. intros m _.
    rewrite Z.land_spec, testbit_BIT, Z.bits_0 by exact Hn.
    destruct (Z.eqb_spec n m) as [->|]; [rewrite E|]; auto using andb_false_r.
Qed.

Lemma set_locked_bit (w : Z) :
  Z.testbit w SVC_BUF_LOCK = true -> Z.lor w (BIT SVC_BUF_LOCK) = w.
Proof.
  intros H. apply Z.bits_inj'. intros m _.
  rewrite Z.lor_spec, testbit_BIT by (unfold SVC_BUF_LOCK; lia).
  destruct (Z.eqb_spec SVC_BUF_LOCK m) as [<-|]; [rewrite H|]; auto using orb_false_r.
Qed.

Lemma clear_set_free_bit (w : Z) :
  Z.testbit w SVC_BUF_LOCK = false ->
  clear_bit_unlock SVC_BUF_LOCK (Z.lor w (BIT SVC_BUF_LOCK)) = w.
Proof.
  intros H. apply Z.bits_inj'. intros m _.
  rewrite testbit_clear_bit, Z.lor_spec, testbit_BIT by (unfold SVC_BUF_LOCK; lia).
  destruct (Z.eqb_spec SVC_BUF_LOCK m) as [<-|]; [rewrite H|]; simpl;
    auto using andb_true_r, orb_false_r.
  rewrite orb_false_r, andb_true_r. reflexivity.
Qed.

(** ** The monad *)

Section Runs.
Context {A B : Type} (m : M A) (f : A -> M B) (p : s10_priv).

Lemma result_bind :
  result_of (bind m f p) = result_of (f (result_of (m p)) (priv_of (m p))).
Proof.
  unfold bind, result_of, priv_of. destruct (m p) as [[a p1] t1]. simpl.
  destruct (f a p1) as [[b p2] t2]. reflexivity.
Qed.

Lemma priv_bind :
  priv_of (bind m f p) = priv_of (f (result_of (m p)) (priv_of (m p))).
Proof.
  unfold bind, result_of, priv_of. destruct (m p) as [[a p1] t1]. simpl.
  destruct (f a p1) as [[b p2] t2]. reflexivity.
Qed.

Lemma calls_bind :
  calls_of (bind m f p) =
  calls_of (m p) ++ calls_of (f (result_of (m p)) (priv_of (m p))).
Proof.
  unfold bind, result_of, priv_of, calls_of. destruct (m p) as [[a p1] t1]. simpl.
  destruct (f a p1) as [[b p2] t2]. reflexivity.
Qed.

End Runs.

Lemma run_eta {A} (r : A * s10_priv * list extern_call) :
  r = (result_of r, priv_of r, calls_of r).
Proof. destruct r as [[a p] t]. reflexivity. Qed.

(** ** The buffer pool *)

Lemma unlock_scan_unknown (smmu : bool) (kaddr : Z) (bufs : list s10_svc_buf) :
  (forall b, b ∈ bufs -> buf b <> kaddr) ->
  unlock_scan smmu kaddr bufs = None.
Proof.
  induction bufs as [|b bufs IH]; intros Hno; simpl.
  - reflexivity.
  - destruct (Z.eqb_spec (buf b) kaddr) as [Heq|_].
    + exfalso. apply (Hno b); [left|exact Heq].
    + rewrite IH; [reflexivity|]. intros b' Hb'. apply Hno. right. exact Hb'.
Qed.

(** C5: a returned address that matches no buffer of the pool leaves
    the private data as it is (lock flags, buffer addresses and DMA
    mappings), unmaps and frees nothing, and the function returns: the
    only call it makes is the warning, for an address that is not NULL. *)
Theorem s10_unlock_bufs_unknown_handle (p : s10_priv) (kaddr : Z) :
  (forall b, b ∈ svc_bufs p -> buf b <> kaddr) ->
  s10_unlock_bufs kaddr p =
    (tt, p, if kaddr =? NULL then [] else [Warn kaddr]).
Proof.
  intros Hno. unfold s10_unlock_bufs.
  destruct (kaddr =? NULL); [reflexivity|].
  rewrite unlock_scan_unknown by exact Hno. reflexivity.
Qed.

Lemma s10_unlock_bufs_unknown_handle_witness :
  (forall b, b ∈ svc_bufs priv0 -> buf b <> 0x5000) /\
  s10_unlock_bufs 0x5000 priv0 = (tt, priv0, [Warn 0x5000]).
Proof.
  assert (H : forall b, b ∈ svc_bufs priv0 -> buf b <> 0x5000).
  { intros b Hb. simpl in Hb. unfold pool0 in Hb.
    repeat (apply elem_of_cons in Hb as [->|Hb]; [simpl; lia|]).
    apply elem_of_nil in Hb. destruct Hb. }
  split; [exact H|].
  exact (s10_unlock_bufs_unknown_handle priv0 0x5000 H).
Defined.

Lemma unlocked_count_locks (bs bs' : list s10_svc_buf) :
  lock <$> bs = lock <$> bs' -> unlocked_count bs = unlocked_count bs'.
Proof.
  revert bs'. induction bs as [|b bs IH]; intros [|b' bs'] H;
    try discriminate; [reflexivity|].
  simpl in H. injection H as Hl Hr. simpl. rewrite Hl, (IH bs' Hr). reflexivity.
Qed.

Lemma unlocked_count_locked (bs : list s10_svc_buf) :
  Forall locked bs -> unlocked_count bs = O.
Proof.
  induction 1 as [|b bs Hb _ IH]; simpl; [reflexivity|].
  destruct (Z.eqb_spec (lock b) 0) as [H0|_]; [|exact IH].
  unfold locked in Hb. rewrite H0, Z.bits_0 in Hb. discriminate.
Qed.

Lemma unlocked_count_free (bs : list s10_svc_buf) :
  Forall free bs -> unlocked_count bs = length bs.
Proof.
  induction 1 as [|b bs Hb _ IH]; simpl; [reflexivity|].
  unfold free in Hb. rewrite Hb. simpl. rewrite IH. reflexivity.
Qed.

Lemma with_lock_same (b : s10_svc_buf) : with_lock (lock b) b = b.
Proof. destruct b. reflexivity. Qed.

Lemma with_svc_bufs_same (p : s10_priv) : with_svc_bufs (svc_bufs p) p = p.
Proof. destruct p. reflexivity. Qed.

(** What the locking loop of [s10_send_buf] does: when every buffer is
    locked the array is left as it is and the loop runs to its end;
    otherwise the first buffer whose lock bit is clear gets it set. *)
Lemma lock_scan_all_locked (bufs : list s10_svc_buf) (i : nat) :
  Forall locked bufs -> lock_scan i bufs = ((i + length bufs)%nat, bufs).
Proof.
  intros H. revert i. induction H as [|b bufs Hb _ IH]; intros i; cbn [lock_scan].
  - f_equal. simpl. lia.
  - unfold test_and_set_bit_lock. rewrite Hb, IH.
    rewrite set_locked_bit, with_lock_same by exact Hb.
    f_equal. simpl. lia.
Qed.

Lemma lock_scan_first_free (pre suf : list s10_svc_buf) (b : s10_svc_buf) (i : nat) :
  Forall locked pre ->
  Z.testbit (lock b) SVC_BUF_LOCK = false ->
  lock_scan i (pre ++ b :: suf) =
    ((i + length pre)%nat,
     pre ++ with_lock (Z.lor (lock b) (BIT SVC_BUF_LOCK)) b :: suf).
Proof.
  intros H Hb. revert i.
  induction H as [|b' pre Hb' _ IH]; intros i; cbn [lock_scan app].
  - unfold test_and_set_bit_lock. rewrite Hb. f_equal. simpl. lia.
  - unfold test_and_set_bit_lock. rewrite Hb', IH.
    rewrite set_locked_bit, with_lock_same by exact Hb'.
    f_equal. simpl. lia.
Qed.

Lemma first_free_or_all_locked (bufs : list s10_svc_buf) :
  Forall locked bufs \/
  exists pre b suf,
    bufs = pre ++ b :: suf /\ Forall locked pre /\
    Z.testbit (lock b) SVC_BUF_LOCK = false.
Proof.
  induction bufs as [|b bufs IH].
  - left. constructor.
  - destruct (Z.testbit (lock b) SVC_BUF_LOCK) eqn:Hb.
    + destruct IH as [Hall|(pre & b' & suf & -> & Hpre & Hb')].
      * left. constructor; assumption.
      * right. exists (b :: pre), b', suf.
        split; [reflexivity|]. split; [constructor; assumption | exact Hb'].
    + right. exists [], b, bufs. split; [reflexivity|]. split; [constructor | exact Hb].
Qed.

(** [s10_send_buf] when every buffer is in use. *)
Lemma s10_send_buf_exhausted (e : turn) (src count : Z) (p : s10_priv) :
  pool_wf p -> Forall locked (svc_bufs p) ->
  s10_send_buf e src count p = (- ENOBUFS, p, []).
Proof.
  intros Hwf Hall. unfold s10_send_buf, bind, get.
  rewrite lock_scan_all_locked by exact Hall.
  unfold modify. rewrite with_svc_bufs_same.
  rewrite Hwf. simpl. reflexivity.
Qed.

Lemma insert_middle {A} (pre suf : list A) (x y : A) :
  <[length pre := x]> (pre ++ y :: suf) = pre ++ x :: suf.
Proof.
  rewrite insert_app_r_alt by lia. rewrite Nat.sub_diag. reflexivity.
Qed.

Lemma update_buf_middle (p : s10_priv) (pre suf : list s10_svc_buf)
    (b : s10_svc_buf) (f : s10_svc_buf -> s10_svc_buf) :
  svc_bufs p = pre ++ b :: suf ->
  update_buf (length pre) f p = (tt, with_svc_bufs (pre ++ f b :: suf) p, []).
Proof.
  intros H. unfold update_buf, modify.
  rewrite H, list_lookup_middle, insert_middle by reflexivity. reflexivity.
Qed.

(** [s10_send_buf] when the first free buffer is [b]. *)
Lemma s10_send_buf_acquired (e : turn) (src count : Z) (p : s10_priv)
    (pre suf : list s10_svc_buf) (b : s10_svc_buf) :
  pool_wf p ->
  svc_bufs p = pre ++ b :: suf ->
  Forall locked pre ->
  Z.testbit (lock b) SVC_BUF_LOCK = false ->
  let b1 := if is_smmu_enabled p then with_dma_addr (dma e) b else b in
  let b2 := with_lock (Z.lor (lock b) (BIT SVC_BUF_LOCK)) b1 in
  s10_send_buf e src count p =
    (if send_ret e <? 0 then send_ret e else to_int (xfer_size count),
     with_svc_bufs (pre ++ (if send_ret e <? 0 then b1 else b2) :: suf) p,
     Memcpy (buf b) src (xfer_size count)
       :: (if is_smmu_enabled p then [DmaMap (buf b) SVC_BUF_SIZE (dma e)] else [])
       ++ [Send COMMAND_RECONFIG_DATA_SUBMIT (PBuf (buf b)) (xfer_size count)
             (send_ret e)]).
Proof.
  intros Hwf Hbufs Hpre Hb b1 b2. unfold s10_send_buf, bind, get.
  rewrite Hbufs, lock_scan_first_free by assumption.
  assert (Hlt : (length pre < NUM_SVC_BUFS)%nat).
  { unfold pool_wf in Hwf. rewrite Hbufs, length_app in Hwf. simpl in Hwf. lia. }
  cbn [modify Nat.add].
  destruct (Nat.eqb_spec (length pre) NUM_SVC_BUFS) as [Heq|_]; [lia|].
  rewrite list_lookup_middle by reflexivity.
  cbn [fmap option_fmap option_map default with_lock buf].
  unfold s10_svc_send_msg, call, bind, ret.
  set (bl := with_lock (Z.lor (lock b) (BIT SVC_BUF_LOCK)) b).
  set (p1 := with_svc_bufs (pre ++ bl :: suf) p).
  assert (Hsm : is_smmu_enabled p1 = is_smmu_enabled p) by reflexivity.
  destruct (is_smmu_enabled p) eqn:Esm.
  - rewrite (update_buf_middle p1 pre suf bl) by reflexivity.
    set (p2 := with_svc_bufs _ p1).
    destruct (send_ret e <? 0).
    + rewrite (update_buf_middle p2 pre suf (with_dma_addr (dma e) bl)) by reflexivity.
      subst p2 p1 bl b1 b2. destruct b, p. unfold with_svc_bufs, with_lock, with_dma_addr.
      cbn [lock buf dma_addr svc_bufs status fw_version is_smmu_enabled app].
      rewrite clear_set_free_bit by exact Hb. reflexivity.
    + subst p2 p1 bl b1 b2. destruct b, p. reflexivity.
  - destruct (send_ret e <? 0).
    + rewrite (update_buf_middle p1 pre suf bl) by reflexivity.
      subst p1 bl b1 b2. destruct b, p. unfold with_svc_bufs, with_lock.
      cbn [lock buf dma_addr svc_bufs status fw_version is_smmu_enabled app].
      rewrite clear_set_free_bit by exact Hb. reflexivity.
    + subst p1 bl b1 b2. destruct b, p. reflexivity.
Qed.

Lemma result_ret {A} (a : A) (p : s10_priv) : result_of (ret a p) = a.
Proof. reflexivity. Qed.
Lemma priv_ret {A} (a : A) (p : s10_priv) : priv_of (ret a p) = p.
Proof. reflexivity. Qed.
Lemma calls_ret {A} (a : A) (p : s10_priv) : calls_of (ret a p) = [].
Proof. reflexivity. Qed.
Lemma result_call (c : extern_call) (p : s10_priv) : result_of (call c p) = tt.
Proof. reflexivity. Qed.
Lemma priv_call (c : extern_call) (p : s10_priv) : priv_of (call c p) = p.
Proof. reflexivity. Qed.
Lemma calls_call (c : extern_call) (p : s10_priv) : calls_of (call c p) = [c].
Proof. reflexivity. Qed.

Create Rewrite HintDb run.
#[local] Hint Rewrite @result_bind @priv_bind @calls_bind @result_ret @priv_ret
  @calls_ret result_call priv_call calls_call : run.

Lemma free_not_locked (b : s10_svc_buf) :
  free b -> Z.testbit (lock b) SVC_BUF_LOCK = false.
Proof. unfold free. intros ->. apply Z.bits_0. Qed.

Lemma locked_after_set (w : Z) :
  Z.testbit (Z.lor w (BIT SVC_BUF_LOCK)) SVC_BUF_LOCK = true.
Proof.
  rewrite Z.lor_spec, testbit_BIT by (unfold SVC_BUF_LOCK; lia).
  apply orb_true_r.
Qed.

(** C10: when the service layer refuses the message of [s10_send_buf]
    after a buffer has been locked and filled, the error of the send is
    returned and the lock word of every buffer is what it was before the
    call, so the count of unlocked buffers is the same: no buffer is
    leaked. *)
Theorem s10_send_buf_send_error_unlocks (e : turn) (src count : Z) (p : s10_priv) :
  pool_wf p ->
  ~ Forall locked (svc_bufs p) ->
  send_ret e < 0 ->
  let r := s10_send_buf e src count p in
  result_of r = send_ret e /\
  length (copies (calls_of r)) = 1%nat /\
  length (sends (calls_of r)) = 1%nat /\
  lock <$> svc_bufs (priv_of r) = lock <$> svc_bufs p /\
  unlocked_count (svc_bufs (priv_of r)) = unlocked_count (svc_bufs p).
Proof.
  intros Hwf Hsome Herr r.
  destruct (first_free_or_all_locked (svc_bufs p))
    as [Hall|(pre & b & suf & Hbufs & Hpre & Hb)]; [contradiction|].
  subst r. rewrite (s10_send_buf_acquired e src count p pre suf b) by assumption.
  apply Z.ltb_lt in Herr. rewrite Herr.
  unfold result_of, priv_of, calls_of. cbn [fst snd].
  assert (Hlocks : lock <$>
      svc_bufs (with_svc_bufs
        (pre ++ (if is_smmu_enabled p then with_dma_addr (dma e) b else b) :: suf) p)
      = lock <$> svc_bufs p).
  { rewrite Hbufs. cbn [svc_bufs with_svc_bufs]. rewrite !fmap_app, !fmap_cons.
    destruct (is_smmu_enabled p); reflexivity. }
  split; [reflexivity|].
  split; [destruct (is_smmu_enabled p); reflexivity|].
  split; [destruct (is_smmu_enabled p); reflexivity|].
  split; [exact Hlocks | apply unlocked_count_locks, Hlocks].
Qed.

Lemma s10_send_buf_send_error_unlocks_witness :
  let e := refused ENOBUFS in
  let r := s10_send_buf e 0x9000 SVC_BUF_SIZE priv0 in
  result_of r = - ENOBUFS /\
  length (copies (calls_of r)) = 1%nat /\
  length (sends (calls_of r)) = 1%nat /\
  lock <$> svc_bufs (priv_of r) = lock <$> svc_bufs priv0 /\
  unlocked_count (svc_bufs (priv_of r)) = 4%nat.
Proof.
  apply (s10_send_buf_send_error_unlocks (refused ENOBUFS) 0x9000 SVC_BUF_SIZE priv0).
  - reflexivity.
  - intros H. apply Forall_inv in H. vm_compute in H. discriminate.
  - vm_compute. reflexivity.
Defined.

Lemma s10_send_buf_next_free (e : turn) (src count : Z) (p : s10_priv) (k : nat) :
  pool_wf p -> locked_prefix k p -> (k < NUM_SVC_BUFS)%nat -> 0 <= send_ret e ->
  let r := s10_send_buf e src count p in
  result_of r = to_int (xfer_size count) /\
  length (sends (calls_of r)) = 1%nat /\
  pool_wf (priv_of r) /\ locked_prefix (S k) (priv_of r).
Proof.
  intros Hwf (pre & suf & Hbufs & Hk & Hpre & Hsuf) Hlt Hok r.
  destruct suf as [|b suf].
  { exfalso. unfold pool_wf in Hwf.
    rewrite Hbufs, length_app in Hwf. simpl in Hwf. lia. }
  apply Forall_cons in Hsuf as [Hb Hsuf].
  subst r. rewrite (s10_send_buf_acquired e src count p pre suf b)
    by auto using free_not_locked.
  assert (Hge : (send_ret e <? 0) = false) by (apply Z.ltb_ge; exact Hok).
  rewrite Hge. unfold result_of, priv_of, calls_of. cbn [fst snd].
  split; [reflexivity|].
  split; [destruct (is_smmu_enabled p); reflexivity|].
  split.
  - unfold pool_wf in *. cbn [svc_bufs with_svc_bufs].
    rewrite Hbufs in Hwf. rewrite length_app in *. exact Hwf.
  - eexists (pre ++ [_]), suf. cbn [svc_bufs with_svc_bufs].
    split; [rewrite <- app_assoc; reflexivity|].
    split; [rewrite length_app; simpl; lia|].
    split; [|exact Hsuf].
    apply Forall_app. split; [exact Hpre|].
    constructor; [|constructor].
    unfold locked. destruct (is_smmu_enabled p); apply locked_after_set.
Qed.

Lemma s10_send_bufs_lock (reqs : list (turn * Z * Z)) (p : s10_priv) (k : nat) :
  pool_wf p -> locked_prefix k p ->
  (k + length reqs <= NUM_SVC_BUFS)%nat ->
  Forall (fun req => 0 <= send_ret req.1.1) reqs ->
  let r := s10_send_bufs reqs p in
  result_of r = (fun req => to_int (xfer_size req.2)) <$> reqs /\
  length (sends (calls_of r)) = length reqs /\
  pool_wf (priv_of r) /\ locked_prefix (k + length reqs) (priv_of r).
Proof.
  revert p k. induction reqs as [|[[e src] count] reqs IH]; intros p k Hwf Hk Hle Hok.
  - simpl. rewrite Nat.add_0_r. auto.
  - apply Forall_cons in Hok as [Hok1 Hok]. simpl in Hle, Hok1.
    destruct (s10_send_buf_next_free e src count p k Hwf Hk ltac:(lia) Hok1)
      as (Hres & Hsend & Hwf1 & Hk1).
    destruct (IH (priv_of (s10_send_buf e src count p)) (S k) Hwf1 Hk1
                ltac:(lia) Hok) as (Hres2 & Hsend2 & Hwf2 & Hk2).
    cbn [s10_send_bufs]. cbv zeta.
    autorewrite with run. rewrite app_nil_r.
    split; [rewrite Hres, Hres2; reflexivity|].
    split.
    { unfold sends in *. rewrite omap_app, length_app, Hsend, Hsend2. reflexivity. }
    split; [exact Hwf2|].
    replace (k + length ((e, src, count) :: reqs))%nat
      with (S k + length reqs)%nat by (simpl; lia).
    exact Hk2.
Qed.

(** C3: from a pool of [NUM_SVC_BUFS] free buffers, after
    [NUM_SVC_BUFS] submissions that each locked a buffer and were accepted,
    with no release in between, the next [s10_send_buf] finds no free
    buffer: it returns [-ENOBUFS], copies nothing, sends nothing and leaves
    the private data as it is. *)
Theorem s10_send_buf_pool_exhausted (reqs : list (turn * Z * Z)) (e : turn)
    (src count : Z) (p : s10_priv) :
  pool_wf p ->
  Forall free (svc_bufs p) ->
  length reqs = NUM_SVC_BUFS ->
  Forall (fun req => 0 <= send_ret req.1.1) reqs ->
  let r := s10_send_bufs reqs p in
  result_of r = (fun req => to_int (xfer_size req.2)) <$> reqs /\
  length (sends (calls_of r)) = NUM_SVC_BUFS /\
  unlocked_count (svc_bufs (priv_of r)) = O /\
  s10_send_buf e src count (priv_of r) = (- ENOBUFS, priv_of r, []).
Proof.
  intros Hwf Hfree Hlen Hok r.
  assert (H0 : locked_prefix 0 p).
  { exists [], (svc_bufs p). repeat split; auto. }
  destruct (s10_send_bufs_lock reqs p 0 Hwf H0 ltac:(lia) Hok)
    as (Hres & Hsends & Hwf' & (pre & suf & Hbufs & Hpre & Hlocked & _)).
  fold r in Hres, Hsends, Hwf', Hbufs.
  assert (Hall : Forall locked (svc_bufs (priv_of r))).
  { unfold pool_wf in Hwf'. rewrite Hbufs, length_app in Hwf'.
    destruct suf; [|simpl in *; lia].
    rewrite Hbufs, app_nil_r. exact Hlocked. }
  split; [exact Hres|].
  split; [rewrite Hsends; exact Hlen|].
  split; [apply unlocked_count_locked, Hall|].
  apply s10_send_buf_exhausted; assumption.
Qed.

Lemma s10_send_buf_pool_exhausted_witness :
  let reqs := [(quiet, 0x9000, 3 * SVC_BUF_SIZE + 5); (quiet, 0x9000, SVC_BUF_SIZE);
               (quiet, 0xa000, 7); (quiet, 0xb000, 1)] in
  let r := s10_send_bufs reqs priv0 in
  result_of r = [SVC_BUF_SIZE; SVC_BUF_SIZE; 7; 1] /\
  length (sends (calls_of r)) = 4%nat /\
  unlocked_count (svc_bufs (priv_of r)) = O /\
  s10_send_buf quiet 0xc000 9 (priv_of r) = (- ENOBUFS, priv_of r, []).
Proof.
  apply (s10_send_buf_pool_exhausted
           [(quiet, 0x9000, 3 * SVC_BUF_SIZE + 5); (quiet, 0x9000, SVC_BUF_SIZE);
            (quiet, 0xa000, 7); (quiet, 0xb000, 1)] quiet 0xc000 9 priv0).
  - reflexivity.
  - repeat constructor.
  - reflexivity.
  - repeat constructor; simpl; lia.
Defined.

(** ** The receive callback *)

Lemma land_shiftl_eqb (w n : Z) :
  (Z.land w (Z.shiftl 1 n) =? 0) = negb (Z.testbit w n).
Proof.
  destruct (Z.le_gt_cases 0 n) as [Hn|Hn]; [apply land_BIT_eqb, Hn|].
  rewrite Z.testbit_neg_r by exact Hn.
  rewrite Z.shiftl_1_l, Z.pow_neg_r, Z.land_0_r by exact Hn. reflexivity.
Qed.

Lemma set_status_bits_spec (n : nat) (i st w j : Z) :
  0 <= i ->
  Z.testbit (set_status_bits n i st w) j =
  Z.testbit w j || (Z.testbit st j && (i <=? j) && (j <? i + Z.of_nat n)).
Proof.
  revert i w. induction n as [|n IH]; intros i w Hi.
  - cbn [set_status_bits].
    destruct (Z.leb_spec i j), (Z.ltb_spec j (i + Z.of_nat 0)); try lia;
      rewrite ?andb_false_r, ?orb_false_r; reflexivity.
  - cbn [set_status_bits]. rewrite IH by lia.
    rewrite land_shiftl_eqb.
    destruct (Z.eqb_spec i j) as [->|Hne].
    + destruct (Z.leb_spec (j + 1) j), (Z.leb_spec j j),
        (Z.ltb_spec j (j + Z.of_nat (S n))); try lia.
      rewrite andb_false_r, orb_false_r, !andb_true_r.
      destruct (Z.testbit st j) eqn:E; cbn [negb].
      * rewrite testbit_set_bit, Z.eqb_refl by exact Hi. reflexivity.
      * rewrite orb_false_r. reflexivity.
    + replace (Z.testbit (if negb (Z.testbit st i) then w else set_bit i w) j)
        with (Z.testbit w j).
      2:{ destruct (Z.testbit st i); cbn [negb]; [|reflexivity].
          rewrite testbit_set_bit by exact Hi.
          destruct (Z.eqb_spec i j); [contradiction|].
          rewrite orb_false_r. reflexivity. }
      destruct (Z.leb_spec (i + 1) j), (Z.leb_spec i j),
        (Z.ltb_spec j (i + 1 + Z.of_nat n)),
        (Z.ltb_spec j (i + Z.of_nat (S n))); try lia; reflexivity.
Qed.

Lemma clear_bit_twice (n w : Z) :
  clear_bit_unlock n (clear_bit_unlock n w) = clear_bit_unlock n w.
Proof.
  unfold clear_bit_unlock. apply Z.bits_inj'. intros m _.
  rewrite !Z.ldiff_spec. destruct (Z.testbit w m), (Z.testbit (BIT n) m); reflexivity.
Qed.

Lemma release_app (ks1 ks2 : list Z) (b : s10_svc_buf) :
  release ks2 (release ks1 b) = release (ks1 ++ ks2) b.
Proof.
  unfold release. rewrite existsb_app.
  destruct (existsb _ ks1) eqn:E1; cbn [with_lock buf lock orb].
  - destruct (existsb _ ks2); [|reflexivity].
    rewrite clear_bit_twice. reflexivity.
  - reflexivity.
Qed.

Lemma release_buf (ks : list Z) (b : s10_svc_buf) : buf (release ks b) = buf b.
Proof. unfold release. destruct (existsb _ ks); reflexivity. Qed.

Lemma release_other (k : Z) (bufs : list s10_svc_buf) :
  (forall b, b ∈ bufs -> buf b <> k) -> release [k] <$> bufs = bufs.
Proof.
  induction bufs as [|b bufs IH]; intros Hno; [reflexivity|].
  rewrite fmap_cons, IH by (intros b' Hb'; apply Hno; right; exact Hb').
  f_equal. unfold release. cbn [existsb].
  destruct (Z.eqb_spec (buf b) k) as [Heq|_].
  - exfalso. apply (Hno b); [left|exact Heq].
  - rewrite andb_false_r. reflexivity.
Qed.

Lemma unlock_scan_release (smmu : bool) (k : Z) (bufs : list s10_svc_buf) :
  k <> NULL -> NoDup (buf <$> bufs) ->
  match unlock_scan smmu k bufs with
  | Some (bufs', _) => bufs' = release [k] <$> bufs
  | None => bufs = release [k] <$> bufs
  end.
Proof.
  intros Hk. induction bufs as [|b bufs IH]; intros Hnd; [reflexivity|].
  rewrite fmap_cons in Hnd. apply NoDup_cons in Hnd as [Hb Hnd].
  cbn [unlock_scan]. destruct (Z.eqb_spec (buf b) k) as [Heq|Hne].
  - rewrite fmap_cons. f_equal.
    + unfold release. cbn [existsb].
      destruct (Z.eqb_spec k NULL) as [|_]; [contradiction|].
      destruct (Z.eqb_spec (buf b) k) as [_|]; [reflexivity|contradiction].
    + symmetry. apply release_other. intros b' Hb' Heq'.
      apply Hb. rewrite Heq, <- Heq'. apply list_elem_of_fmap. exists b'. auto.
  - specialize (IH Hnd).
    assert (Hrb : release [k] b = b).
    { unfold release. cbn [existsb].
      destruct (Z.eqb_spec (buf b) k) as [|_]; [contradiction|].
      rewrite andb_false_r. reflexivity. }
    destruct (unlock_scan smmu k bufs) as [[bufs' t]|];
      rewrite fmap_cons, Hrb; f_equal; exact IH.
Qed.

Lemma release_null (bufs : list s10_svc_buf) : release [NULL] <$> bufs = bufs.
Proof.
  induction bufs as [|b bufs IH]; [reflexivity|].
  rewrite fmap_cons, IH. reflexivity.
Qed.

(** The release of one returned address, on a pool whose buffers have
    distinct addresses. *)
Lemma s10_unlock_bufs_release (k : Z) (p : s10_priv) :
  NoDup (buf <$> svc_bufs p) ->
  priv_of (s10_unlock_bufs k p) = with_svc_bufs (release [k] <$> svc_bufs p) p.
Proof.
  intros Hnd. unfold s10_unlock_bufs.
  destruct (Z.eqb_spec k NULL) as [->|Hk].
  - unfold ret, priv_of. cbn [fst snd].
    rewrite release_null. symmetry. apply with_svc_bufs_same.
  - pose proof (unlock_scan_release (is_smmu_enabled p) k (svc_bufs p) Hk Hnd) as H.
    destruct (unlock_scan _ k _) as [[bufs' t]|]; unfold priv_of; cbn [fst snd].
    + rewrite H. reflexivity.
    + rewrite <- H. symmetry. apply with_svc_bufs_same.
Qed.

Lemma release_fmap_buf (ks : list Z) (bufs : list s10_svc_buf) :
  buf <$> (release ks <$> bufs) = buf <$> bufs.
Proof.
  rewrite <- list_fmap_compose. apply list_fmap_ext. intros i b _.
  apply release_buf.
Qed.

(** The calls of a release come from the callback. *)
Lemma s10_unlock_bufs_calls (k : Z) (p : s10_priv) :
  Forall from_callback (calls_of (s10_unlock_bufs k p)).
Proof.
  unfold s10_unlock_bufs. destruct (k =? NULL); [constructor|].
  assert (H : forall bufs, match unlock_scan (is_smmu_enabled p) k bufs with
                           | Some (_, t) => Forall from_callback t
                           | None => True
                           end).
  { induction bufs as [|b bufs IH]; cbn [unlock_scan]; [exact I|].
    destruct (buf b =? k).
    - destruct (is_smmu_enabled p); repeat constructor.
    - destruct (unlock_scan _ k bufs) as [[bufs' t]|]; [exact IH|exact I]. }
  specialize (H (svc_bufs p)).
  destruct (unlock_scan _ k (svc_bufs p)) as [[bufs' t]|]; unfold calls_of; cbn [snd].
  - exact H.
  - repeat constructor.
Qed.

Lemma release_release (ks1 ks2 : list Z) (bufs : list s10_svc_buf) :
  release ks2 <$> (release ks1 <$> bufs) = release (ks1 ++ ks2) <$> bufs.
Proof.
  rewrite <- list_fmap_compose. apply list_fmap_ext. intros i b _.
  apply release_app.
Qed.

Lemma priv_modify (f : s10_priv -> s10_priv) (p : s10_priv) :
  priv_of (modify f p) = f p.
Proof. reflexivity. Qed.
Lemma calls_modify (f : s10_priv -> s10_priv) (p : s10_priv) :
  calls_of (modify f p) = [].
Proof. reflexivity. Qed.
Lemma result_get (p : s10_priv) : result_of (get p) = p.
Proof. reflexivity. Qed.
Lemma priv_get (p : s10_priv) : priv_of (get p) = p.
Proof. reflexivity. Qed.
Lemma calls_get (p : s10_priv) : calls_of (get p) = [].
Proof. reflexivity. Qed.

#[local] Hint Rewrite priv_modify calls_modify result_get priv_get calls_get : run.

Section Callback.
Context {hdr : kernel_headers}.

Lemma s10_unlock_bufs_status (k : Z) (p : s10_priv) :
  status (priv_of (s10_unlock_bufs k p)) = status p.
Proof.
  unfold s10_unlock_bufs. destruct (k =? NULL); [reflexivity|].
  destruct (unlock_scan _ k _) as [[bufs' t]|]; reflexivity.
Qed.

(** The aggregated status after a notification, bit by bit. *)
Lemma s10_receive_callback_status (d : stratix10_svc_cb_data) (p : s10_priv) (j : Z) :
  Z.testbit (status (priv_of (s10_receive_callback d p))) j =
  Z.testbit (status p) j ||
    (Z.testbit (cb_status d) j && (0 <=? j) && (j <=? SVC_STATUS_ERROR)).
Proof.
  unfold s10_receive_callback. autorewrite with run.
  set (p1 := with_status _ p).
  assert (Hst : Z.testbit (status p1) j =
     Z.testbit (status p) j ||
       (Z.testbit (cb_status d) j && (0 <=? j) && (j <=? SVC_STATUS_ERROR))).
  { subst p1. cbn [status with_status].
    rewrite set_status_bits_spec by lia.
    destruct (Z.leb_spec 0 j), (Z.leb_spec j SVC_STATUS_ERROR),
      (Z.ltb_spec j (0 + Z.of_nat (Z.to_nat (SVC_STATUS_ERROR + 1))));
      try lia; destruct (Z.testbit (cb_status d) j); reflexivity. }
  clearbody p1.
  destruct (Z.land _ _ =? 0); autorewrite with run; [exact Hst|].
  rewrite !s10_unlock_bufs_status. exact Hst.
Qed.

(** A bit above [SVC_STATUS_ERROR] never reaches the aggregated status:
    with a header that numbers NO_SUPPORT after ERROR, the NO_SUPPORT
    bit of a message is dropped. *)
Lemma s10_receive_callback_above_error (d : stratix10_svc_cb_data) (p : s10_priv)
    (j : Z) :
  SVC_STATUS_ERROR < j ->
  Z.testbit (status (priv_of (s10_receive_callback d p))) j =
  Z.testbit (status p) j.
Proof.
  intros Hj. rewrite s10_receive_callback_status.
  destruct (Z.leb_spec j SVC_STATUS_ERROR); [lia|].
  rewrite andb_false_r. apply orb_false_r.
Qed.

(** C8 (as amended): the receive callback ORs into [priv->status] the
    bits of the status word of the message that are numbered from 0 to
    [SVC_STATUS_ERROR], and only them, and clears no bit; when the
    BUFFER_DONE bit is in the message it releases the buffers whose
    addresses are [kaddr1] to [kaddr4]; nothing else of the private data
    changes. *)
Theorem s10_receive_callback_aggregates (d : stratix10_svc_cb_data) (p : s10_priv) :
  NoDup (buf <$> svc_bufs p) ->
  let r := s10_receive_callback d p in
  (forall j : Z,
     Z.testbit (status (priv_of r)) j =
     Z.testbit (status p) j ||
       (Z.testbit (cb_status d) j && (0 <=? j) && (j <=? SVC_STATUS_ERROR))) /\
  svc_bufs (priv_of r) =
    (if Z.testbit (cb_status d) SVC_STATUS_BUFFER_DONE
     then release [kaddr1 d; kaddr2 d; kaddr3 d; kaddr4 d] <$> svc_bufs p
     else svc_bufs p) /\
  fw_version (priv_of r) = fw_version p /\
  is_smmu_enabled (priv_of r) = is_smmu_enabled p.
Proof.
  intros Hnd r. subst r.
  split; [intros j; apply s10_receive_callback_status|].
  unfold s10_receive_callback.
  rewrite priv_bind, priv_modify.
  set (p1 := with_status _ p).
  rewrite priv_bind, priv_call.
  unfold BIT. rewrite land_shiftl_eqb.
  destruct (Z.testbit (cb_status d) SVC_STATUS_BUFFER_DONE); cbn [negb].
  - rewrite !priv_bind.
    rewrite (s10_unlock_bufs_release (kaddr1 d) p1 Hnd).
    set (p2 := with_svc_bufs _ p1).
    assert (Hnd2 : NoDup (buf <$> svc_bufs p2)).
    { subst p2. cbn [svc_bufs with_svc_bufs]. rewrite release_fmap_buf. exact Hnd. }
    rewrite (s10_unlock_bufs_release (kaddr2 d) p2 Hnd2).
    set (p3 := with_svc_bufs _ p2).
    assert (Hnd3 : NoDup (buf <$> svc_bufs p3)).
    { subst p3. cbn [svc_bufs with_svc_bufs]. rewrite release_fmap_buf. exact Hnd2. }
    rewrite (s10_unlock_bufs_release (kaddr3 d) p3 Hnd3).
    set (p4 := with_svc_bufs _ p3).
    assert (Hnd4 : NoDup (buf <$> svc_bufs p4)).
    { subst p4. cbn [svc_bufs with_svc_bufs]. rewrite release_fmap_buf. exact Hnd3. }
    rewrite (s10_unlock_bufs_release (kaddr4 d) p4 Hnd4).
    subst p4 p3 p2. cbn [svc_bufs with_svc_bufs status fw_version is_smmu_enabled].
    rewrite !release_release. cbn [app].
    split; [reflexivity|]. split; reflexivity.
  - rewrite priv_ret. split; [reflexivity|]. split; reflexivity.
Qed.

(** The calls of the callback are the unmapping, the warning and the
    completion. *)
Lemma s10_receive_callback_calls (d : stratix10_svc_cb_data) (p : s10_priv) :
  Forall from_callback (calls_of (s10_receive_callback d p)).
Proof.
  unfold s10_receive_callback. autorewrite with run.
  apply Forall_app. split; [constructor|].
  apply Forall_app. split; [|repeat constructor].
  destruct (Z.land _ _ =? 0); [constructor|].
  autorewrite with run.
  repeat (apply Forall_app; split); apply s10_unlock_bufs_calls.
Qed.

End Callback.

Lemma s10_receive_callback_aggregates_witness :
  let d := mk_cb_data 0x64 0x1000 0x7000 NULL NULL in
  let r := @s10_receive_callback mainline d priv_busy in
  NoDup (buf <$> svc_bufs priv_busy) /\
  status (priv_of r) = 0x26 /\
  lock <$> svc_bufs (priv_of r) = [0; 1; 0; 0] /\
  calls_of r = [Warn 0x7000; Complete].
Proof.
  assert (Hnd : NoDup (buf <$> svc_bufs priv_busy)).
  { apply (bool_decide_unpack _). vm_compute. exact I. }
  split; [exact Hnd|].
  pose proof (@s10_receive_callback_aggregates mainline
                (mk_cb_data 0x64 0x1000 0x7000 NULL NULL) priv_busy Hnd) as H.
  cbv zeta in H. destruct H as (_ & Hbufs & _).
  split; [reflexivity|]. split; [rewrite Hbufs; reflexivity | reflexivity].
Defined.

(** C8, as the claim states it, fails: a message whose status word has
    the NO_SUPPORT bit leaves no trace in the aggregated status. *)
Lemma s10_receive_callback_drops_no_support :
  let d := mk_cb_data (BIT (@SVC_STATUS_NO_SUPPORT mainline)) NULL NULL NULL NULL in
  Z.testbit (cb_status d) (@SVC_STATUS_NO_SUPPORT mainline) = true /\
  Z.testbit (status (priv_of (@s10_receive_callback mainline d priv0)))
    (@SVC_STATUS_NO_SUPPORT mainline) = false /\
  status (priv_of (@s10_receive_callback mainline d priv0)) = status priv0.
Proof. vm_compute. repeat split. Qed.

(** ** Logs *)

Lemma omap_from_callback {B} (f : extern_call -> option B) (t : list extern_call) :
  (forall c, from_callback c -> f c = None) ->
  Forall from_callback t -> omap f t = [].
Proof.
  intros Hf. induction 1 as [|c t Hc _ IH]; [reflexivity|].
  cbn [omap list_omap]. rewrite (Hf c Hc). exact IH.
Qed.

Lemma done_calls_app (t1 t2 : list extern_call) :
  done_calls (t1 ++ t2) = (done_calls t1 + done_calls t2)%nat.
Proof. unfold done_calls. rewrite omap_app, length_app. reflexivity. Qed.

Lemma done_calls_callback (t : list extern_call) :
  Forall from_callback t -> done_calls t = O.
Proof.
  intros H. unfold done_calls. rewrite omap_from_callback; [reflexivity| |exact H].
  intros [] Hc; try reflexivity; destruct Hc.
Qed.

Lemma sends_app (t1 t2 : list extern_call) : sends (t1 ++ t2) = sends t1 ++ sends t2.
Proof. apply omap_app. Qed.

Lemma sends_callback (t : list extern_call) :
  Forall from_callback t -> sends t = [].
Proof.
  intros H. apply omap_from_callback; [|exact H].
  intros [] Hc; try reflexivity; destruct Hc.
Qed.

Lemma submissions_app (t1 t2 : list extern_call) :
  submissions (t1 ++ t2) = submissions t1 ++ submissions t2.
Proof. apply omap_app. Qed.

Lemma submissions_callback (t : list extern_call) :
  Forall from_callback t -> submissions t = [].
Proof.
  intros H. apply omap_from_callback; [|exact H].
  intros [] Hc; try reflexivity; destruct Hc.
Qed.

Lemma waits_app (t1 t2 : list extern_call) : waits (t1 ++ t2) = waits t1 ++ waits t2.
Proof. apply omap_app. Qed.

Lemma waits_callback (t : list extern_call) :
  Forall from_callback t -> waits t = [].
Proof.
  intros H. apply omap_from_callback; [|exact H].
  intros [] Hc; try reflexivity; destruct Hc.
Qed.

Lemma result_run {A} (a : A) (p : s10_priv) (t : list extern_call) :
  result_of (a, p, t) = a.
Proof. reflexivity. Qed.
Lemma priv_run {A} (a : A) (p : s10_priv) (t : list extern_call) :
  priv_of (a, p, t) = p.
Proof. reflexivity. Qed.
Lemma calls_run {A} (a : A) (p : s10_priv) (t : list extern_call) :
  calls_of (a, p, t) = t.
Proof. reflexivity. Qed.

#[local] Hint Rewrite @result_run @priv_run @calls_run : run.

Section Operations.
Context {hdr : kernel_headers}.

Lemma deliver_calls (ds : list stratix10_svc_cb_data) (p : s10_priv) :
  Forall from_callback (calls_of (deliver ds p)).
Proof.
  revert p. induction ds as [|d ds IH]; intros p; cbn [deliver for_each].
  - constructor.
  - rewrite calls_bind. apply Forall_app. split.
    + apply s10_receive_callback_calls.
    + apply IH.
Qed.

(** The log of a wait: the calls of the notifications, then the wait. *)
Lemma wait_for_completion_timeout_run (e : turn) (timeout : Z) (p : s10_priv) :
  wait_for_completion_timeout e timeout p =
    (left e, priv_of (deliver (wake e) p),
     calls_of (deliver (wake e) p) ++ [Wait timeout (left e)]).
Proof.
  rewrite (run_eta (wait_for_completion_timeout e timeout p)).
  unfold wait_for_completion_timeout. autorewrite with run. reflexivity.
Qed.

Lemma test_and_clear_status_run (nr : Z) (p : s10_priv) :
  test_and_clear_status nr p =
    (Z.testbit (status p) nr,
     with_status (clear_bit_unlock nr (status p)) p, []).
Proof. reflexivity. Qed.

(** The request of [s10_ops_write_init] sends one message and calls
    [stratix10_svc_done] once, at its end. *)
Lemma s10_ops_write_init_request_calls (e : turn) (c : Z) (p : s10_priv) :
  let t := calls_of (s10_ops_write_init_request e c p) in
  sends t = [(COMMAND_RECONFIG, PConfig c, sizeof_config_type)] /\
  done_calls t = 1%nat /\
  last t = Some Done.
Proof.
  cbv zeta. unfold s10_ops_write_init_request, s10_svc_send_msg.
  autorewrite with run.
  set (mid := calls_of _).
  assert (Hmid : sends mid = [] /\ done_calls mid = O).
  { subst mid. destruct (send_ret e <? 0); autorewrite with run; [split; reflexivity|].
    rewrite wait_for_completion_timeout_run. autorewrite with run.
    pose proof (deliver_calls (wake e) p) as Hcb.
    rewrite !sends_app, !done_calls_app, (sends_callback _ Hcb),
      (done_calls_callback _ Hcb).
    destruct (to_int (left e) =? 0); autorewrite with run; [split; reflexivity|].
    rewrite test_and_clear_status_run. autorewrite with run.
    destruct (Z.testbit _ SVC_STATUS_OK); cbn [negb]; autorewrite with run;
      split; reflexivity. }
  destruct Hmid as [Hs Hd].
  repeat split.
  - cbn [app]. unfold sends. cbn [omap list_omap]. fold (sends (mid ++ [Done])).
    rewrite sends_app, Hs. reflexivity.
  - change (done_calls ([Reinit; Send COMMAND_RECONFIG (PConfig c) sizeof_config_type (send_ret e)] ++ mid ++ [Done]) = 1%nat).
    rewrite !done_calls_app, Hd. reflexivity.
  - change (last ([Reinit; Send COMMAND_RECONFIG (PConfig c) sizeof_config_type (send_ret e)] ++ mid ++ [Done]) = Some Done).
    rewrite app_assoc. apply last_snoc.
Qed.

(** [s10_ops_write_init] either returns early or makes the request with
    the flags of [config_flags]. *)
Lemma s10_ops_write_init_cases (e : turn) (flags : Z) (p : s10_priv) :
  s10_ops_write_init e flags p =
    if returns_early flags p then (- EINVAL, p, [])
    else s10_ops_write_init_request e (config_flags flags) p.
Proof.
  unfold s10_ops_write_init, returns_early, config_flags.
  destruct (Z.land flags FPGA_MGR_PARTIAL_RECONFIG =? 0); cbn [negb andb].
  - destruct (Z.land flags FPGA_MGR_BITSTREAM_AUTHENTICATE =? 0); cbn [negb andb].
    + reflexivity.
    + unfold bind at 1, get.
      destruct (fw_version p =? INVALID_FIRMWARE_VERSION).
      * reflexivity.
      * rewrite Z.lor_0_l.
        destruct (s10_ops_write_init_request e _ p) as [[r p'] t]. reflexivity.
  - rewrite Z.lor_0_l. reflexivity.
Qed.

(** C2 (as amended): [s10_ops_write_init] fails with [-EINVAL], leaving
    the private data as it is and calling nothing, when authentication is
    requested without partial reconfiguration and the firmware version is
    the sentinel; in every other case, also when the flags request both
    partial reconfiguration and authentication, it sends one RECONFIG
    message, whose flags are those of [config_flags]: partial
    reconfiguration takes precedence over authentication. *)
Theorem s10_ops_write_init_validation (e : turn) (flags : Z) (p : s10_priv) :
  if returns_early flags p
  then s10_ops_write_init e flags p = (- EINVAL, p, [])
  else sends (calls_of (s10_ops_write_init e flags p)) =
         [(COMMAND_RECONFIG, PConfig (config_flags flags), sizeof_config_type)].
Proof.
  rewrite s10_ops_write_init_cases. destruct (returns_early flags p).
  - reflexivity.
  - apply s10_ops_write_init_request_calls.
Qed.

End Operations.

(** C2, as the claim states it, fails: with both the partial and the
    authentication flag, and the firmware version at the sentinel, the
    request is sent (as a partial reconfiguration) and the operation
    succeeds. *)
Lemma s10_ops_write_init_partial_and_authenticate :
  let flags := Z.lor (@FPGA_MGR_PARTIAL_RECONFIG mainline)
                     (@FPGA_MGR_BITSTREAM_AUTHENTICATE mainline) in
  let r := @s10_ops_write_init mainline (notified 1 NULL 70) flags priv0 in
  fw_version priv0 = INVALID_FIRMWARE_VERSION /\
  result_of r = 0 /\
  sends (calls_of r) = [(COMMAND_RECONFIG, PConfig 1, 4)].
Proof. vm_compute. repeat split. Qed.

(** ** The completion poll *)

Lemma clear_bit_unset (n w : Z) :
  Z.testbit w n = false -> clear_bit_unlock n w = w.
Proof.
  intros H. unfold clear_bit_unlock. apply Z.bits_inj'. intros m _.
  rewrite Z.ldiff_spec.
  destruct (Z.le_gt_cases 0 n) as [Hn|Hn].
  - rewrite testbit_BIT by exact Hn.
    destruct (Z.eqb_spec n m) as [<-|_]; [rewrite H; reflexivity|].
    apply andb_true_r.
  - unfold BIT. rewrite Z.shiftl_1_l, Z.pow_neg_r, Z.bits_0 by exact Hn.
    apply andb_true_r.
Qed.

Lemma with_status_same (p : s10_priv) : with_status (status p) p = p.
Proof. destruct p. reflexivity. Qed.

Lemma to_int_small (x : Z) : - 2 ^ 31 <= x < 2 ^ 31 -> to_int x = x.
Proof.
  intros H. unfold to_int. rewrite Z.mod_small by lia. lia.
Qed.

Lemma to_ulong_small (x : Z) : 0 <= x < 2 ^ 64 -> to_ulong x = x.
Proof. intros H. unfold to_ulong. apply Z.mod_small, H. Qed.

(** Equality of two runs up to the bracketing of their logs. *)
Ltac log_eq :=
  repeat (rewrite ?app_nil_r, <- ?app_assoc; cbn [app]); reflexivity.

Section Completion.
Context {hdr : kernel_headers}.

(** One iteration of the loop of [s10_ops_write_complete], run. *)
Lemma s10_ops_write_complete_body_run (e : turn) (timeout : Z) (p : s10_priv) :
  let t0 := [Reinit; Send COMMAND_RECONFIG_STATUS PNull 0 (send_ret e)] in
  let p1 := priv_of (deliver (wake e) p) in
  let t1 := t0 ++ calls_of (deliver (wake e) p) ++ [Wait timeout (left e)] in
  s10_ops_write_complete_body e timeout p =
    if send_ret e <? 0 then (Return (send_ret e), p, t0)
    else if to_int (left e) =? 0 then (Return (- ETIMEDOUT), p1, t1)
    else if Z.testbit (status p1) SVC_STATUS_COMPLETED
    then (Return 0,
          with_status (clear_bit_unlock SVC_STATUS_COMPLETED (status p1)) p1, t1)
    else if Z.testbit (status p1) SVC_STATUS_ERROR
    then (Return (- EFAULT),
          with_status (clear_bit_unlock SVC_STATUS_ERROR (status p1)) p1, t1)
    else (Again (to_ulong (to_int (left e))), p1, t1).
Proof.
  intros t0 p1 t1.
  rewrite (run_eta (s10_ops_write_complete_body e timeout p)).
  unfold s10_ops_write_complete_body, s10_svc_send_msg.
  autorewrite with run.
  destruct (send_ret e <? 0); autorewrite with run; [reflexivity|].
  rewrite wait_for_completion_timeout_run. autorewrite with run.
  fold p1. destruct (to_int (left e) =? 0); autorewrite with run.
  { subst t1 t0. log_eq. }
  rewrite test_and_clear_status_run. autorewrite with run.
  destruct (Z.testbit (status p1) SVC_STATUS_COMPLETED) eqn:Ec; autorewrite with run.
  { subst t1 t0. log_eq. }
  rewrite test_and_clear_status_run. autorewrite with run.
  rewrite (clear_bit_unset _ _ Ec), with_status_same.
  destruct (Z.testbit (status p1) SVC_STATUS_ERROR) eqn:Ee; autorewrite with run.
  { subst t1 t0. log_eq. }
  rewrite (clear_bit_unset _ _ Ee), with_status_same.
  subst t1 t0. log_eq.
Qed.

(** What an iteration of the poll logs: no call of
    [stratix10_svc_done], and at most one wait, with the budget it was
    given. *)
Lemma s10_ops_write_complete_body_log (e : turn) (timeout : Z) (p : s10_priv) :
  let r := s10_ops_write_complete_body e timeout p in
  done_calls (calls_of r) = O /\
  (waits (calls_of r) = [] /\ (exists x, result_of r = Return x) \/
   waits (calls_of r) = [(timeout, left e)]).
Proof.
  cbv zeta. rewrite s10_ops_write_complete_body_run.
  pose proof (deliver_calls (wake e) p) as Hcb.
  assert (Hd : done_calls
    ([Reinit; Send COMMAND_RECONFIG_STATUS PNull 0 (send_ret e)] ++
     calls_of (deliver (wake e) p) ++ [Wait timeout (left e)]) = O).
  { rewrite !done_calls_app, (done_calls_callback _ Hcb). reflexivity. }
  assert (Hw : waits
    ([Reinit; Send COMMAND_RECONFIG_STATUS PNull 0 (send_ret e)] ++
     calls_of (deliver (wake e) p) ++ [Wait timeout (left e)]) = [(timeout, left e)]).
  { rewrite !waits_app, (waits_callback _ Hcb). reflexivity. }
  destruct (send_ret e <? 0); autorewrite with run.
  { split; [reflexivity|]. left. split; [reflexivity|]. eexists. reflexivity. }
  destruct (to_int (left e) =? 0); autorewrite with run; [auto|].
  destruct (Z.testbit _ SVC_STATUS_COMPLETED); autorewrite with run; [auto|].
  destruct (Z.testbit _ SVC_STATUS_ERROR); autorewrite with run; auto.
Qed.

Lemma s10_ops_write_complete_loop_done (script : list turn) (timeout : Z)
    (p : s10_priv) :
  done_calls (calls_of (s10_ops_write_complete_loop script timeout p)) = O.
Proof.
  revert timeout p. induction script as [|e script IH]; intros timeout p.
  - reflexivity.
  - cbn [s10_ops_write_complete_loop]. rewrite calls_bind, done_calls_app.
    destruct (s10_ops_write_complete_body_log e timeout p) as [-> _].
    destruct (result_of (s10_ops_write_complete_body e timeout p)).
    + apply IH.
    + reflexivity.
Qed.

(** C1 (as amended): [s10_ops_write_complete] calls
    [stratix10_svc_done] exactly once, as its last call, whenever it
    returns (and not while its loop is still polling);
    [s10_ops_write_init] calls it exactly once, as its last call, on every
    path that contacts the service layer, and not at all on the early
    return with [-EINVAL], which calls nothing. *)
Theorem stratix10_svc_done_calls (e : turn) (flags : Z) (script : list turn)
    (p : s10_priv) :
  let init := s10_ops_write_init e flags p in
  let complete := s10_ops_write_complete script p in
  (if returns_early flags p
   then init = (- EINVAL, p, [])
   else done_calls (calls_of init) = 1%nat /\ last (calls_of init) = Some Done) /\
  match result_of complete with
  | Some _ =>
      done_calls (calls_of complete) = 1%nat /\
      last (calls_of complete) = Some Done
  | None => done_calls (calls_of complete) = O
  end.
Proof.
  cbv zeta. split.
  - rewrite s10_ops_write_init_cases. destruct (returns_early flags p).
    + reflexivity.
    + destruct (s10_ops_write_init_request_calls e (config_flags flags) p)
        as (_ & Hd & Hl). split; assumption.
  - unfold s10_ops_write_complete. rewrite result_bind, calls_bind, done_calls_app.
    rewrite s10_ops_write_complete_loop_done.
    destruct (result_of (s10_ops_write_complete_loop script S10_RECONFIG_TIMEOUT p));
      autorewrite with run.
    + split; [reflexivity|]. apply last_snoc.
    + reflexivity.
Qed.

(** Enough script gives the result: the poll returns as soon as a turn
    refuses the message or lets the wait time out. *)
Lemma s10_ops_write_complete_returns (script : list turn) (p : s10_priv) :
  Exists (fun e => send_ret e < 0 \/ to_int (left e) = 0) script ->
  is_Some (result_of (s10_ops_write_complete script p)).
Proof.
  intros Hex. unfold s10_ops_write_complete. rewrite result_bind.
  assert (H : is_Some
    (result_of (s10_ops_write_complete_loop script S10_RECONFIG_TIMEOUT p))).
  { generalize S10_RECONFIG_TIMEOUT as timeout. revert p.
    induction Hex as [e script He|e script _ IH]; intros p timeout;
      cbn [s10_ops_write_complete_loop]; rewrite result_bind.
    - rewrite s10_ops_write_complete_body_run.
      destruct (Z.ltb_spec (send_ret e) 0); autorewrite with run; [eexists; reflexivity|].
      destruct He as [He|He]; [lia|]. rewrite He. cbn [Z.eqb].
      autorewrite with run. eexists; reflexivity.
    - destruct (result_of (s10_ops_write_complete_body e timeout p)).
      + apply IH.
      + eexists. reflexivity. }
  destruct H as [r ->]. autorewrite with run. eexists. reflexivity.
Qed.

(** The waits of the poll are chained from the budget it starts with. *)
Lemma s10_ops_write_complete_loop_chained (script : list turn) (timeout : Z)
    (p : s10_priv) :
  Forall (fun e => 0 <= left e < 2 ^ 31) script ->
  chained timeout (waits (calls_of (s10_ops_write_complete_loop script timeout p))).
Proof.
  intros Hs. revert timeout p.
  induction Hs as [|e script He _ IH]; intros timeout p.
  - exact I.
  - cbn [s10_ops_write_complete_loop]. rewrite calls_bind, waits_app.
    destruct (s10_ops_write_complete_body_log e timeout p) as [_ [[Hw [x Hx]]|Hw]].
    + rewrite Hw, Hx. exact I.
    + rewrite Hw. cbn [app chained]. split; [reflexivity|].
      rewrite s10_ops_write_complete_body_run.
      destruct (send_ret e <? 0); autorewrite with run; [exact I|].
      destruct (to_int (left e) =? 0); autorewrite with run; [exact I|].
      destruct (Z.testbit _ SVC_STATUS_COMPLETED); autorewrite with run; [exact I|].
      destruct (Z.testbit _ SVC_STATUS_ERROR); autorewrite with run; [exact I|].
      rewrite to_int_small, to_ulong_small by lia. apply IH.
Qed.

(** The poll after a run of partial wakes: the turn that follows
    decides. *)
Lemma s10_ops_write_complete_loop_at (pre : list turn) (e : turn)
    (rest : list turn) (timeout : Z) (p : s10_priv) :
  Forall (fun e' => 0 <= left e' < 2 ^ 31) (pre ++ [e]) ->
  partial_wakes pre p ->
  let d := s10_ops_write_complete_loop (pre ++ e :: rest) timeout p in
  let q := woken pre p in
  let q1 := priv_of (deliver (wake e) q) in
  let st := status q1 in
  if send_ret e <? 0 then
    result_of d = Some (send_ret e) /\ priv_of d = q /\
    snd <$> waits (calls_of d) = left <$> pre
  else if left e =? 0 then
    result_of d = Some (- ETIMEDOUT) /\ priv_of d = q1 /\
    snd <$> waits (calls_of d) = left <$> (pre ++ [e])
  else if Z.testbit st SVC_STATUS_COMPLETED then
    result_of d = Some 0 /\
    priv_of d = with_status (clear_bit_unlock SVC_STATUS_COMPLETED st) q1 /\
    snd <$> waits (calls_of d) = left <$> (pre ++ [e])
  else if Z.testbit st SVC_STATUS_ERROR then
    result_of d = Some (- EFAULT) /\
    priv_of d = with_status (clear_bit_unlock SVC_STATUS_ERROR st) q1 /\
    snd <$> waits (calls_of d) = left <$> (pre ++ [e])
  else partial_wakes (pre ++ [e]) p.
Proof.
  cbv zeta. revert timeout p. induction pre as [|e0 pre IH]; intros timeout p Hr Hpre.
  - apply Forall_inv in Hr. cbn [app woken foldl partial_wakes fmap list_fmap].
    cbn [s10_ops_write_complete_loop].
    rewrite result_bind, priv_bind, calls_bind, waits_app.
    rewrite s10_ops_write_complete_body_run. cbv zeta.
    rewrite to_int_small by lia.
    pose proof (deliver_calls (wake e) p) as Hcb.
    assert (Hw : waits
      ([Reinit; Send COMMAND_RECONFIG_STATUS PNull 0 (send_ret e)] ++
       calls_of (deliver (wake e) p) ++ [Wait timeout (left e)]) =
      [(timeout, left e)]).
    { rewrite !waits_app, (waits_callback _ Hcb). reflexivity. }
    destruct (Z.ltb_spec (send_ret e) 0) as [_|Hacc]; autorewrite with run;
      [repeat split|].
    destruct (Z.eqb_spec (left e) 0) as [_|Hleft]; autorewrite with run;
      [rewrite Hw; repeat split|].
    destruct (Z.testbit _ SVC_STATUS_COMPLETED) eqn:Ec; autorewrite with run;
      [rewrite Hw; repeat split|].
    destruct (Z.testbit _ SVC_STATUS_ERROR) eqn:Ee; autorewrite with run;
      [rewrite Hw; repeat split|].
    unfold partial_wake. auto.
  - apply Forall_cons in Hr as [Hr0 Hr]. destruct Hpre as [Hw0 Hpre].
    destruct Hw0 as (Hacc & Hleft & Hc & He).
    cbn [app woken foldl fmap list_fmap partial_wakes].
    cbn [s10_ops_write_complete_loop].
    rewrite result_bind, priv_bind, calls_bind, waits_app.
    rewrite s10_ops_write_complete_body_run. cbv zeta.
    rewrite to_int_small by lia.
    pose proof (deliver_calls (wake e0) p) as Hcb.
    assert (Hw : waits
      ([Reinit; Send COMMAND_RECONFIG_STATUS PNull 0 (send_ret e0)] ++
       calls_of (deliver (wake e0) p) ++ [Wait timeout (left e0)]) =
      [(timeout, left e0)]).
    { rewrite !waits_app, (waits_callback _ Hcb). reflexivity. }
    destruct (Z.ltb_spec (send_ret e0) 0) as [|_]; [lia|].
    destruct (Z.eqb_spec (left e0) 0) as [|_]; [contradiction|].
    rewrite Hc, He. autorewrite with run. rewrite Hw. cbn [app fmap list_fmap snd].
    set (p1 := priv_of (deliver (wake e0) p)) in *.
    specialize (IH (to_ulong (left e0)) p1 Hr Hpre).
    fold (woken pre p1).
    destruct (send_ret e <? 0);
      [destruct IH as (-> & -> & ->); repeat split|].
    destruct (left e =? 0);
      [destruct IH as (-> & -> & ->); repeat split|].
    destruct (Z.testbit _ SVC_STATUS_COMPLETED);
      [destruct IH as (-> & -> & ->); repeat split|].
    destruct (Z.testbit _ SVC_STATUS_ERROR);
      [destruct IH as (-> & -> & ->); repeat split|].
    split; [unfold partial_wake; auto | exact IH].
Qed.

(** A poll that succeeds has found the COMPLETED bit after a run of
    partial wakes. *)
Lemma s10_ops_write_complete_loop_success (script : list turn) (timeout : Z)
    (p : s10_priv) :
  Forall (fun e => 0 <= left e < 2 ^ 31) script ->
  result_of (s10_ops_write_complete_loop script timeout p) = Some 0 ->
  exists pre e rest,
    script = pre ++ e :: rest /\ partial_wakes pre p /\
    0 <= send_ret e /\ left e <> 0 /\
    Z.testbit (status (priv_of (deliver (wake e) (woken pre p))))
      SVC_STATUS_COMPLETED = true.
Proof.
  intros Hr. revert timeout p.
  induction Hr as [|e script He _ IH]; intros timeout p; [discriminate|].
  cbn [s10_ops_write_complete_loop]. rewrite result_bind.
  rewrite s10_ops_write_complete_body_run. cbv zeta.
  rewrite to_int_small by lia.
  destruct (Z.ltb_spec (send_ret e) 0) as [Hneg|Hacc]; autorewrite with run;
    [intros [= H0]; lia|].
  destruct (Z.eqb_spec (left e) 0) as [_|Hleft]; autorewrite with run;
    [discriminate|].
  destruct (Z.testbit _ SVC_STATUS_COMPLETED) eqn:Ec; autorewrite with run.
  { intros _. exists [], e, script. cbn [app woken foldl partial_wakes]. auto. }
  destruct (Z.testbit _ SVC_STATUS_ERROR) eqn:Ee; autorewrite with run;
    [discriminate|].
  intros H. destruct (IH _ _ H) as (pre & e' & rest & -> & Hpre & Hrest).
  exists (e :: pre), e', rest. cbn [app woken foldl partial_wakes].
  split; [reflexivity|]. split; [|exact Hrest].
  split; [unfold partial_wake; auto | exact Hpre].
Qed.

(** The result, the private data and the waits of the operation are
    those of its loop. *)
Lemma s10_ops_write_complete_of_loop (script : list turn) (p : s10_priv) :
  let d := s10_ops_write_complete script p in
  let l := s10_ops_write_complete_loop script S10_RECONFIG_TIMEOUT p in
  result_of d = result_of l /\ priv_of d = priv_of l /\
  waits (calls_of d) = waits (calls_of l).
Proof.
  cbv zeta. unfold s10_ops_write_complete.
  rewrite result_bind, priv_bind, calls_bind, waits_app.
  destruct (result_of (s10_ops_write_complete_loop script S10_RECONFIG_TIMEOUT p));
    autorewrite with run; cbn [waits omap list_omap]; rewrite app_nil_r;
    repeat split.
Qed.

(** C7: in a run of [s10_ops_write_complete], after a run [pre] of
    partial wakes (request accepted, wait returned before its budget was
    used up, neither the COMPLETED nor the ERROR bit pending) the next
    turn [e] decides the operation: it returns the answer of the service
    layer when that refuses the request; [-ETIMEDOUT] when the wait
    returns 0, consuming no bit; 0 when the COMPLETED bit is pending,
    which it consumes; [-EFAULT] when the ERROR bit and not the COMPLETED
    bit is pending, which it consumes; and otherwise [e] is one more
    partial wake.  The first wait has the budget [S10_RECONFIG_TIMEOUT]
    and every later wait what the wait before it returned; the waits
    return what the turns up to [e] leave.  The operation returns 0
    exactly when, after a run of partial wakes, a turn whose request is
    accepted and whose wait does not time out finds the COMPLETED bit. *)
Theorem s10_ops_write_complete_polling (pre : list turn) (e : turn)
    (rest : list turn) (p : s10_priv) :
  Forall (fun e' => 0 <= left e' < 2 ^ 31) (pre ++ e :: rest) ->
  partial_wakes pre p ->
  let d := s10_ops_write_complete (pre ++ e :: rest) p in
  let q := woken pre p in
  let q1 := priv_of (deliver (wake e) q) in
  let st := status q1 in
  chained S10_RECONFIG_TIMEOUT (waits (calls_of d)) /\
  (if send_ret e <? 0 then
     result_of d = Some (send_ret e) /\ priv_of d = q /\
     snd <$> waits (calls_of d) = left <$> pre
   else if left e =? 0 then
     result_of d = Some (- ETIMEDOUT) /\ priv_of d = q1 /\
     snd <$> waits (calls_of d) = left <$> (pre ++ [e])
   else if Z.testbit st SVC_STATUS_COMPLETED then
     result_of d = Some 0 /\
     priv_of d = with_status (clear_bit_unlock SVC_STATUS_COMPLETED st) q1 /\
     snd <$> waits (calls_of d) = left <$> (pre ++ [e])
   else if Z.testbit st SVC_STATUS_ERROR then
     result_of d = Some (- EFAULT) /\
     priv_of d = with_status (clear_bit_unlock SVC_STATUS_ERROR st) q1 /\
     snd <$> waits (calls_of d) = left <$> (pre ++ [e])
   else partial_wakes (pre ++ [e]) p) /\
  (result_of d = Some 0 <->
   exists pre' e' rest',
     pre ++ e :: rest = pre' ++ e' :: rest' /\ partial_wakes pre' p /\
     0 <= send_ret e' /\ left e' <> 0 /\
     Z.testbit (status (priv_of (deliver (wake e') (woken pre' p))))
       SVC_STATUS_COMPLETED = true).
Proof.
  intros Hr Hpre. cbv zeta.
  destruct (s10_ops_write_complete_of_loop (pre ++ e :: rest) p) as (-> & -> & ->).
  split; [exact (s10_ops_write_complete_loop_chained _ _ p Hr)|].
  split.
  - apply s10_ops_write_complete_loop_at; [|exact Hpre].
    rewrite (assoc_L app pre [e] rest : pre ++ e :: rest = (pre ++ [e]) ++ rest) in Hr.
    apply Forall_app in Hr. exact (proj1 Hr).
  - split; [exact (s10_ops_write_complete_loop_success _ _ p Hr)|].
    intros (pre' & e' & rest' & Heq & Hpre' & Hacc & Hleft & Hc).
    rewrite Heq in Hr |- *.
    assert (Hr' : Forall (fun e' => 0 <= left e' < 2 ^ 31) (pre' ++ [e'])).
    { rewrite (assoc_L app pre' [e'] rest'
                 : pre' ++ e' :: rest' = (pre' ++ [e']) ++ rest') in Hr.
      apply Forall_app in Hr. exact (proj1 Hr). }
    pose proof (s10_ops_write_complete_loop_at pre' e' rest' S10_RECONFIG_TIMEOUT
                  p Hr' Hpre') as H.
    cbv zeta in H.
    destruct (Z.ltb_spec (send_ret e') 0) as [|_]; [lia|].
    destruct (Z.eqb_spec (left e') 0) as [|_]; [contradiction|].
    rewrite Hc in H. exact (proj1 H).
Qed.

End Completion.

(** C1, as the claim states it, fails: on the early return of
    [s10_ops_write_init] (authentication requested, firmware version at the
    sentinel) [stratix10_svc_done] is not called. *)
Lemma s10_ops_write_init_early_return_no_done :
  let r := @s10_ops_write_init mainline quiet
             (@FPGA_MGR_BITSTREAM_AUTHENTICATE mainline) priv0 in
  fw_version priv0 = INVALID_FIRMWARE_VERSION /\
  result_of r = - EINVAL /\
  done_calls (calls_of r) = O.
Proof. vm_compute. repeat split. Qed.

Lemma s10_ops_write_complete_polling_witness :
  let pre := [notified 1 NULL 70] in
  let e := notified 8 NULL 30 in
  let d := @s10_ops_write_complete mainline (pre ++ [e]) priv0 in
  Forall (fun e' => 0 <= left e' < 2 ^ 31) (pre ++ [e]) /\
  @partial_wakes mainline pre priv0 /\
  chained (@S10_RECONFIG_TIMEOUT mainline) (waits (calls_of d)) /\
  (result_of d = Some 0 /\
   priv_of d = mk_priv pool0 1 INVALID_FIRMWARE_VERSION false /\
   snd <$> waits (calls_of d) = [70; 30]) /\
  (result_of d = Some 0 <->
   exists pre' e' rest',
     pre ++ [e] = pre' ++ e' :: rest' /\ @partial_wakes mainline pre' priv0 /\
     0 <= send_ret e' /\ left e' <> 0 /\
     Z.testbit (status (priv_of (@deliver mainline (wake e')
                                   (@woken mainline pre' priv0))))
       (@SVC_STATUS_COMPLETED mainline) = true).
Proof.
  assert (Hr : Forall (fun e' => 0 <= left e' < 2 ^ 31)
                 ([notified 1 NULL 70] ++ [notified 8 NULL 30])).
  { repeat constructor; simpl; lia. }
  assert (Hpre : @partial_wakes mainline [notified 1 NULL 70] priv0).
  { split; [|exact I]. split; [simpl; lia|]. split; [simpl; lia|].
    split; reflexivity. }
  split; [exact Hr|]. split; [exact Hpre|].
  exact (@s10_ops_write_complete_polling mainline [notified 1 NULL 70]
           (notified 8 NULL 30) [] priv0 Hr Hpre).
Defined.

(** ** The write loop *)

Lemma unlock_scan_length (smmu : bool) (k : Z) (bufs : list s10_svc_buf) :
  match unlock_scan smmu k bufs with
  | Some (bufs', _) => length bufs' = length bufs
  | None => True
  end.
Proof.
  induction bufs as [|b bufs IH]; cbn [unlock_scan]; [exact I|].
  destruct (buf b =? k); [reflexivity|].
  destruct (unlock_scan smmu k bufs) as [[bufs' t]|]; [|exact I].
  simpl. rewrite IH. reflexivity.
Qed.

Lemma s10_unlock_bufs_wf (k : Z) (p : s10_priv) :
  pool_wf p -> pool_wf (priv_of (s10_unlock_bufs k p)).
Proof.
  intros Hwf. unfold s10_unlock_bufs. destruct (k =? NULL); [exact Hwf|].
  pose proof (unlock_scan_length (is_smmu_enabled p) k (svc_bufs p)) as H.
  destruct (unlock_scan _ k _) as [[bufs' t]|]; [|exact Hwf].
  unfold pool_wf in *. autorewrite with run. cbn [svc_bufs with_svc_bufs]. lia.
Qed.

Section Write.
Context {hdr : kernel_headers}.

Lemma s10_receive_callback_wf (d : stratix10_svc_cb_data) (p : s10_priv) :
  pool_wf p -> pool_wf (priv_of (s10_receive_callback d p)).
Proof.
  intros Hwf. unfold s10_receive_callback. autorewrite with run.
  set (p1 := with_status _ p). assert (Hwf1 : pool_wf p1) by exact Hwf.
  clearbody p1.
  destruct (Z.land _ _ =? 0); autorewrite with run; [exact Hwf1|].
  auto using s10_unlock_bufs_wf.
Qed.

Lemma deliver_wf (ds : list stratix10_svc_cb_data) (p : s10_priv) :
  pool_wf p -> pool_wf (priv_of (deliver ds p)).
Proof.
  revert p. induction ds as [|d ds IH]; intros p Hwf; cbn [deliver for_each].
  - exact Hwf.
  - rewrite priv_bind. apply IH, s10_receive_callback_wf, Hwf.
Qed.

Lemma s10_send_buf_wf (e : turn) (src count : Z) (p : s10_priv) :
  pool_wf p -> pool_wf (priv_of (s10_send_buf e src count p)).
Proof.
  intros Hwf.
  destruct (first_free_or_all_locked (svc_bufs p))
    as [Hall|(pre & b & suf & Hbufs & Hpre & Hb)].
  - rewrite s10_send_buf_exhausted by assumption. exact Hwf.
  - rewrite (s10_send_buf_acquired e src count p pre suf b) by assumption.
    autorewrite with run. unfold pool_wf in *. cbn [svc_bufs with_svc_bufs].
    rewrite Hbufs in Hwf. rewrite length_app in *. exact Hwf.
Qed.

(** What a call of [s10_send_buf] for a non-empty rest of the image
    gives: a negative result and no accepted submission, or the size of
    the transfer, which is the smaller of [count] and the capacity of a
    buffer, copied from [src] and submitted. *)
Lemma s10_send_buf_cases (e : turn) (src count : Z) (p : s10_priv) :
  pool_wf p -> 0 < count ->
  let r := s10_send_buf e src count p in
  (result_of r < 0 /\ submissions (calls_of r) = []) \/
  (result_of r = Z.min count SVC_BUF_SIZE /\
   submissions (calls_of r) = [Z.min count SVC_BUF_SIZE] /\
   exists dst, copies (calls_of r) = [(dst, src, Z.min count SVC_BUF_SIZE)]).
Proof.
  intros Hwf Hc r. subst r.
  assert (Hx : xfer_size count = Z.min count SVC_BUF_SIZE).
  { unfold xfer_size. destruct (Z.ltb_spec count SVC_BUF_SIZE); lia. }
  assert (Hpos : 0 < Z.min count SVC_BUF_SIZE <= SVC_BUF_SIZE).
  { unfold SVC_BUF_SIZE, SZ_512K in *. lia. }
  destruct (first_free_or_all_locked (svc_bufs p))
    as [Hall|(pre & b & suf & Hbufs & Hpre & Hb)].
  - rewrite s10_send_buf_exhausted by assumption. autorewrite with run.
    left. split; [unfold ENOBUFS; lia | reflexivity].
  - rewrite (s10_send_buf_acquired e src count p pre suf b) by assumption.
    autorewrite with run. rewrite Hx.
    destruct (Z.ltb_spec (send_ret e) 0) as [Hneg|Hok].
    + left. split; [exact Hneg|].
      destruct (is_smmu_enabled p); cbn [app submissions omap list_omap];
        apply Z.ltb_lt in Hneg; rewrite Hneg; reflexivity.
    + right. rewrite to_int_small
        by (unfold SVC_BUF_SIZE, SZ_512K in *; lia).
      split; [reflexivity|].
      apply Z.ltb_ge in Hok.
      split; [|exists (buf b)];
        destruct (is_smmu_enabled p); cbn [app submissions copies omap list_omap];
        rewrite ?Hok; reflexivity.
Qed.

(** The wait of the loop body of [s10_ops_write], run. *)
Lemma s10_ops_write_wait_run (e : turn) (src count : Z) (p : s10_priv) :
  let p1 := priv_of (deliver (wake e) p) in
  let t := calls_of (deliver (wake e) p) ++ [Wait S10_BUFFER_TIMEOUT (left e)] in
  s10_ops_write_wait e src count p =
    if Z.testbit (status p1) SVC_STATUS_BUFFER_DONE
    then (Again (src, count),
          with_status (clear_bit_unlock SVC_STATUS_BUFFER_DONE (status p1)) p1, t)
    else if Z.testbit (status p1) SVC_STATUS_BUFFER_SUBMITTED
    then (Again (src, count),
          with_status (clear_bit_unlock SVC_STATUS_BUFFER_SUBMITTED (status p1)) p1, t)
    else if Z.testbit (status p1) SVC_STATUS_ERROR
    then (Return (- EFAULT),
          with_status (clear_bit_unlock SVC_STATUS_ERROR (status p1)) p1, t)
    else if left e =? 0 then (Return (- ETIMEDOUT), p1, t)
    else (Again (src, count), p1, t).
Proof.
  intros p1 t.
  rewrite (run_eta (s10_ops_write_wait e src count p)).
  unfold s10_ops_write_wait. autorewrite with run.
  rewrite wait_for_completion_timeout_run. autorewrite with run. fold p1.
  rewrite test_and_clear_status_run. autorewrite with run.
  destruct (Z.testbit (status p1) SVC_STATUS_BUFFER_DONE) eqn:Ed; autorewrite with run.
  { subst t. log_eq. }
  rewrite test_and_clear_status_run. autorewrite with run.
  rewrite (clear_bit_unset _ _ Ed), with_status_same.
  destruct (Z.testbit (status p1) SVC_STATUS_BUFFER_SUBMITTED) eqn:Es;
    autorewrite with run.
  { subst t. log_eq. }
  rewrite test_and_clear_status_run. autorewrite with run.
  rewrite (clear_bit_unset _ _ Es), with_status_same.
  destruct (Z.testbit (status p1) SVC_STATUS_ERROR) eqn:Ee; autorewrite with run.
  { subst t. log_eq. }
  rewrite (clear_bit_unset _ _ Ee), with_status_same.
  destruct (left e =? 0); autorewrite with run; subst t; log_eq.
Qed.

(** What the wait of the loop body gives: the variables of the loop as
    they are, or a failure; it sends nothing and keeps the array. *)
Lemma s10_ops_write_wait_cases (e : turn) (src count : Z) (p : s10_priv) :
  let r := s10_ops_write_wait e src count p in
  (result_of r = Again (src, count) \/ result_of r = Return (- EFAULT) \/
   result_of r = Return (- ETIMEDOUT)) /\
  sends (calls_of r) = [] /\ submissions (calls_of r) = [] /\
  (pool_wf p -> pool_wf (priv_of r)).
Proof.
  cbv zeta. rewrite s10_ops_write_wait_run.
  pose proof (deliver_calls (wake e) p) as Hcb.
  pose proof (deliver_wf (wake e) p) as Hwf.
  assert (Hs : sends (calls_of (deliver (wake e) p)
                      ++ [Wait S10_BUFFER_TIMEOUT (left e)]) = []).
  { rewrite sends_app, (sends_callback _ Hcb). reflexivity. }
  assert (Hu : submissions (calls_of (deliver (wake e) p)
                      ++ [Wait S10_BUFFER_TIMEOUT (left e)]) = []).
  { rewrite submissions_app, (submissions_callback _ Hcb). reflexivity. }
  destruct (Z.testbit _ SVC_STATUS_BUFFER_DONE); autorewrite with run; [auto|].
  destruct (Z.testbit _ SVC_STATUS_BUFFER_SUBMITTED); autorewrite with run; [auto|].
  destruct (Z.testbit _ SVC_STATUS_ERROR); autorewrite with run; [auto|].
  destruct (left e =? 0); autorewrite with run; auto.
Qed.

(** One iteration of the loop of [s10_ops_write], run. *)
Lemma s10_ops_write_body_run (e : turn) (src count : Z) (p : s10_priv) :
  let p0 := priv_of (deliver (irq e) p) in
  let t0 := calls_of (deliver (irq e) p) ++ [Reinit] in
  let claim := Send COMMAND_RECONFIG_DATA_CLAIM PNull 0 (send_ret e) in
  s10_ops_write_body e src count p =
    if 0 <? count then
      let s := s10_send_buf e src count p0 in
      if result_of s <? 0 then (Again (src, count), priv_of s, t0 ++ calls_of s)
      else
        let w := s10_ops_write_wait e (src + result_of s)
                   (to_ulong (count - result_of s)) (priv_of s) in
        (result_of w, priv_of w, t0 ++ calls_of s ++ calls_of w)
    else if (unlocked_count (svc_bufs p0) =? NUM_SVC_BUFS)%nat
    then (Return 0, p0, t0)
    else if send_ret e <? 0 then (Return (send_ret e), p0, t0 ++ [claim])
    else
      let w := s10_ops_write_wait e src count p0 in
      (result_of w, priv_of w, t0 ++ claim :: calls_of w).
Proof.
  intros p0 t0 claim.
  rewrite (run_eta (s10_ops_write_body e src count p)).
  unfold s10_ops_write_body, s10_get_unlocked_buffer_count, s10_svc_send_msg.
  autorewrite with run. fold p0.
  destruct (0 <? count); autorewrite with run.
  - cbv zeta. destruct (result_of (s10_send_buf e src count p0) <? 0);
      autorewrite with run; subst t0; log_eq.
  - destruct (unlocked_count (svc_bufs p0) =? NUM_SVC_BUFS)%nat;
      autorewrite with run; [subst t0; log_eq|].
    destruct (send_ret e <? 0); autorewrite with run; subst t0 claim; log_eq.
Qed.

End Write.

Section Pump.
Context {hdr : kernel_headers}.

(** The results with which an iteration can leave [s10_ops_write]. *)
Lemma s10_ops_write_body_returns (e : turn) (src count : Z) (p : s10_priv) (r : Z) :
  result_of (s10_ops_write_body e src count p) = Return r ->
  r = 0 \/ (r = send_ret e /\ send_ret e < 0) \/ r = - EFAULT \/ r = - ETIMEDOUT.
Proof.
  rewrite s10_ops_write_body_run. cbv zeta.
  destruct (0 <? count).
  - destruct (_ <? 0); autorewrite with run; [discriminate|].
    intros H.
    destruct (s10_ops_write_wait_cases e
                (src + result_of (s10_send_buf e src count (priv_of (deliver (irq e) p))))
                (to_ulong (count - result_of (s10_send_buf e src count (priv_of (deliver (irq e) p)))))
                (priv_of (s10_send_buf e src count (priv_of (deliver (irq e) p)))))
      as [[Hr|[Hr|Hr]] _]; rewrite Hr in H; [discriminate| |]; injection H as <-; auto.
  - destruct (_ =? _)%nat; autorewrite with run; [intros [= <-]; auto|].
    destruct (Z.ltb_spec (send_ret e) 0) as [Hneg|Hok]; autorewrite with run;
      [intros [= <-]; auto|].
    intros H.
    destruct (s10_ops_write_wait_cases e src count (priv_of (deliver (irq e) p)))
      as [[Hr|[Hr|Hr]] _]; rewrite Hr in H; [discriminate| |]; injection H as <-; auto.
Qed.

(** C9: when every buffer is in use, an iteration of the streaming loop
    of [s10_ops_write] leaves the byte cursor and the remaining count as
    they are, copies and sends nothing, and the loop goes on; and
    [s10_ops_write] never returns [-ENOBUFS] unless the service layer
    itself answers [-ENOBUFS] to a message. *)
Theorem s10_ops_write_exhausted_retries (e : turn) (src count : Z) (q : s10_priv)
    (script : list turn) (src0 count0 : Z) (p : s10_priv) :
  pool_wf q -> 0 < count ->
  Forall locked (svc_bufs (priv_of (deliver (irq e) q))) ->
  Forall (fun e' => send_ret e' <> - ENOBUFS) script ->
  s10_ops_write_body e src count q =
    (Again (src, count), priv_of (deliver (irq e) q),
     calls_of (deliver (irq e) q) ++ [Reinit]) /\
  result_of (s10_ops_write script src0 count0 p) <> Some (- ENOBUFS).
Proof.
  intros Hwf Hc Hall Hs. split.
  - rewrite s10_ops_write_body_run. cbv zeta.
    apply Z.ltb_lt in Hc. rewrite Hc.
    rewrite s10_send_buf_exhausted by auto using deliver_wf.
    autorewrite with run. cbn [Z.ltb Z.compare Z.opp ENOBUFS].
    rewrite app_nil_r. reflexivity.
  - unfold s10_ops_write. clear Hwf Hc Hall. revert src0 count0 p.
    induction Hs as [|e' script He' _ IH]; intros src0 count0 p.
    + discriminate.
    + cbn [s10_ops_write_loop]. rewrite result_bind.
      destruct (result_of (s10_ops_write_body e' src0 count0 p)) as [[s c]|r] eqn:E.
      * exact (IH s c _).
      * autorewrite with run.
        apply s10_ops_write_body_returns in E.
        unfold ENOBUFS, EFAULT, ETIMEDOUT in *.
        intros [= ->]. destruct E as [E|[[E _]|[E|E]]]; lia.
Qed.

(** The drain: the loop of [s10_ops_write] once the whole image has been
    handed to buffers. *)
Lemma s10_ops_write_drain_loop (script : list turn) (src : Z) (p : s10_priv) :
  let d := s10_ops_write_loop script src 0 p in
  Forall (eq (COMMAND_RECONFIG_DATA_CLAIM, PNull, 0)) (sends (calls_of d)) /\
  (result_of d = Some 0 -> unlocked_count (svc_bufs (priv_of d)) = NUM_SVC_BUFS).
Proof.
  cbv zeta. revert p. induction script as [|e script IH]; intros p.
  - split; [constructor | discriminate].
  - cbn [s10_ops_write_loop]. rewrite result_bind, priv_bind, calls_bind, sends_app.
    rewrite s10_ops_write_body_run. cbv zeta. cbn [Z.ltb Z.compare].
    pose proof (deliver_calls (irq e) p) as Hcb.
    set (p0 := priv_of (deliver (irq e) p)).
    destruct (Nat.eqb_spec (unlocked_count (svc_bufs p0)) NUM_SVC_BUFS) as [Hall|_];
      autorewrite with run.
    { rewrite !sends_app, (sends_callback _ Hcb). split; [constructor|].
      intros _. exact Hall. }
    destruct (Z.ltb_spec (send_ret e) 0) as [Hneg|_]; autorewrite with run.
    { rewrite !sends_app, (sends_callback _ Hcb). split; [repeat constructor|].
      intros [= H0]. lia. }
    destruct (s10_ops_write_wait_cases e src 0 p0) as ([Hr|[Hr|Hr]] & Hsw & _);
      rewrite Hr; autorewrite with run;
      rewrite !sends_app, (sends_callback _ Hcb);
      change (sends (Send COMMAND_RECONFIG_DATA_CLAIM PNull 0 (send_ret e)
                     :: calls_of (s10_ops_write_wait e src 0 p0)))
        with ((COMMAND_RECONFIG_DATA_CLAIM, PNull, 0)
              :: sends (calls_of (s10_ops_write_wait e src 0 p0)));
      rewrite Hsw; cbn [app].
    + destruct (IH (priv_of (s10_ops_write_wait e src 0 p0))) as [Hf Hz].
      split; [constructor; [reflexivity | exact Hf] | exact Hz].
    + split; [repeat constructor | discriminate].
    + split; [repeat constructor | discriminate].
Qed.

(** C6: in [s10_ops_write], once all the bytes have been handed to
    buffers, the operation returns 0 at once, without a message, when every
    buffer is unlocked.  Otherwise it sends the DATA_CLAIM request, with no
    payload; it returns the answer of the service layer when that refuses
    the request; else it waits and tests the status in this order: when
    the BUFFER_DONE bit, or else the BUFFER_SUBMITTED bit, is pending it
    consumes that bit and goes round again, also when the ERROR bit is
    pending or the wait timed out; else it consumes the ERROR bit and
    returns [-EFAULT]; else it returns [-ETIMEDOUT] when the wait timed
    out; else it goes round again.  The drain sends nothing but DATA_CLAIM
    requests, and when it returns 0 every buffer is unlocked. *)
Theorem s10_ops_write_drain (e : turn) (script : list turn) (src : Z)
    (p : s10_priv) :
  let d := s10_ops_write (e :: script) src 0 p in
  let p0 := priv_of (deliver (irq e) p) in
  let t0 := calls_of (deliver (irq e) p) ++ [Reinit] in
  let t1 := t0 ++ [Send COMMAND_RECONFIG_DATA_CLAIM PNull 0 (send_ret e)] in
  let p1 := priv_of (deliver (wake e) p0) in
  let st := status p1 in
  let t2 := t1 ++ calls_of (deliver (wake e) p0)
               ++ [Wait S10_BUFFER_TIMEOUT (left e)] in
  let again q :=
    let d' := s10_ops_write script src 0 q in
    (result_of d', priv_of d', t2 ++ calls_of d') in
  d =
    (if (unlocked_count (svc_bufs p0) =? NUM_SVC_BUFS)%nat then (Some 0, p0, t0)
     else if send_ret e <? 0 then (Some (send_ret e), p0, t1)
     else if Z.testbit st SVC_STATUS_BUFFER_DONE
     then again (with_status (clear_bit_unlock SVC_STATUS_BUFFER_DONE st) p1)
     else if Z.testbit st SVC_STATUS_BUFFER_SUBMITTED
     then again (with_status (clear_bit_unlock SVC_STATUS_BUFFER_SUBMITTED st) p1)
     else if Z.testbit st SVC_STATUS_ERROR
     then (Some (- EFAULT),
           with_status (clear_bit_unlock SVC_STATUS_ERROR st) p1, t2)
     else if left e =? 0 then (Some (- ETIMEDOUT), p1, t2)
     else again p1) /\
  Forall (eq (COMMAND_RECONFIG_DATA_CLAIM, PNull, 0)) (sends (calls_of d)) /\
  (result_of d = Some 0 ->
   unlocked_count (svc_bufs (priv_of d)) = NUM_SVC_BUFS).
Proof.
  cbv zeta. split; [|exact (s10_ops_write_drain_loop (e :: script) src p)].
  rewrite (run_eta (s10_ops_write (e :: script) src 0 p)).
  unfold s10_ops_write. cbn [s10_ops_write_loop].
  rewrite result_bind, priv_bind, calls_bind.
  rewrite s10_ops_write_body_run. cbv zeta. cbn [Z.ltb Z.compare].
  set (p0 := priv_of (deliver (irq e) p)).
  destruct (unlocked_count (svc_bufs p0) =? NUM_SVC_BUFS)%nat;
    autorewrite with run; [log_eq|].
  destruct (send_ret e <? 0); autorewrite with run; [log_eq|].
  rewrite s10_ops_write_wait_run. cbv zeta.
  destruct (Z.testbit _ SVC_STATUS_BUFFER_DONE); autorewrite with run; [log_eq|].
  destruct (Z.testbit _ SVC_STATUS_BUFFER_SUBMITTED); autorewrite with run;
    [log_eq|].
  destruct (Z.testbit _ SVC_STATUS_ERROR); autorewrite with run; [log_eq|].
  destruct (left e =? 0); autorewrite with run; log_eq.
Qed.

End Pump.

(** C6, as the claim states it, fails: while [s10_ops_write] drains, a
    notification reports an error together with the return of the two
    buffers in flight, and the wait times out; the operation goes round
    again and returns 0, with the ERROR bit still pending. *)
Lemma s10_ops_write_drain_error_and_timeout_succeed :
  let d := mk_cb_data 36 0x1000 0x2000 NULL NULL in
  let r := @s10_ops_write mainline [mk_turn [] 0 0 [d] 0; quiet] 0x9000 0
             priv_busy in
  Z.testbit (cb_status d) (@SVC_STATUS_ERROR mainline) = true /\
  waits (calls_of r) = [(@S10_BUFFER_TIMEOUT mainline, 0)] /\
  result_of r = Some 0 /\
  Z.testbit (status (priv_of r)) (@SVC_STATUS_ERROR mainline) = true.
Proof. vm_compute. repeat split. Qed.

Lemma s10_ops_write_drain_witness :
  let e := notified 4 0x1000 100 in
  let script := [notified 4 0x2000 100; quiet] in
  let d := @s10_ops_write mainline (e :: script) 0x9000 0 priv_busy in
  let d' := @s10_ops_write mainline script 0x9000 0
              (mk_priv [mk_svc_buf 0x1000 0 0; mk_svc_buf 0x2000 0 1;
                        mk_svc_buf 0x3000 0 0; mk_svc_buf 0x4000 0 0]
                       2 0x0102 false) in
  d = (result_of d', priv_of d',
       [Reinit; Send COMMAND_RECONFIG_DATA_CLAIM PNull 0 0; Complete;
        Wait (@S10_BUFFER_TIMEOUT mainline) 100] ++ calls_of d') /\
  Forall (eq (COMMAND_RECONFIG_DATA_CLAIM, PNull, 0)) (sends (calls_of d)) /\
  (result_of d = Some 0 ->
   unlocked_count (svc_bufs (priv_of d)) = NUM_SVC_BUFS).
Proof.
  exact (@s10_ops_write_drain mainline (notified 4 0x1000 100)
           [notified 4 0x2000 100; quiet] 0x9000 priv_busy).
Defined.

Lemma s10_ops_write_exhausted_retries_witness :
  let r := @s10_ops_write_body mainline quiet 0x9000 10 priv_full in
  r = (Again (0x9000, 10), priv_full, [Reinit]) /\
  result_of (@s10_ops_write mainline [quiet; refused EFAULT] 0x9000 0 priv_full)
    <> Some (- ENOBUFS).
Proof.
  apply (@s10_ops_write_exhausted_retries mainline quiet 0x9000 10 priv_full
           [quiet; refused EFAULT] 0x9000 0 priv_full).
  - reflexivity.
  - lia.
  - repeat constructor.
  - repeat constructor; vm_compute; discriminate.
Defined.


(** ** The cut of the image into submissions *)

Lemma chunking_step (count : Z) :
  0 < count ->
  chunking count =
    Z.min count SVC_BUF_SIZE :: chunking (count - Z.min count SVC_BUF_SIZE).
Proof.
  intros Hc. unfold chunking.
  assert (Hsz : 0 < SVC_BUF_SIZE) by (unfold SVC_BUF_SIZE, SZ_512K; lia).
  destruct (Z.lt_ge_cases count SVC_BUF_SIZE) as [Hlt|Hge].
  - rewrite Z.min_l, Z.sub_diag by lia.
    rewrite Z.div_small, Z.mod_small by lia.
    rewrite Zdiv_0_l, Zmod_0_l.
    destruct (Z.eqb_spec count 0); [lia|]. reflexivity.
  - rewrite Z.min_r by lia.
    assert (Hd : count / SVC_BUF_SIZE = (count - SVC_BUF_SIZE) / SVC_BUF_SIZE + 1).
    { rewrite <- Z.div_add by lia. f_equal. lia. }
    assert (Hm : count mod SVC_BUF_SIZE = (count - SVC_BUF_SIZE) mod SVC_BUF_SIZE).
    { rewrite <- (Z.mod_add (count - SVC_BUF_SIZE) 1) by lia. f_equal. lia. }
    rewrite Hd, Hm.
    rewrite Z2Nat.inj_add by (try apply Z.div_pos; lia).
    rewrite Nat.add_comm. reflexivity.
Qed.

Lemma chunking_full (n : nat) :
  chunking (Z.of_nat n * SVC_BUF_SIZE) = replicate n SVC_BUF_SIZE.
Proof.
  unfold chunking.
  assert (Hsz : 0 < SVC_BUF_SIZE) by (unfold SVC_BUF_SIZE, SZ_512K; lia).
  rewrite Z.div_mul, Z.mod_mul, Nat2Z.id by lia.
  apply app_nil_r.
Qed.

Lemma chunking_one_more : chunking (SVC_BUF_SIZE + 1) = [SVC_BUF_SIZE; 1].
Proof. reflexivity. Qed.

Lemma submissions_no_data (t : list extern_call) :
  Forall (eq (COMMAND_RECONFIG_DATA_CLAIM, PNull, 0)) (sends t) ->
  submissions t = [].
Proof.
  induction t as [|c t IH]; intros H; [reflexivity|].
  destruct c; cbn [sends submissions omap list_omap] in *; auto.
  apply Forall_cons in H as [Hc H]. injection Hc as <- <- <-.
  apply IH, H.
Qed.

Section Streaming.
Context {hdr : kernel_headers}.

(** When [s10_ops_write] succeeds, the submissions that the service layer
    accepted are the cut of the image into pieces of the capacity of a
    buffer. *)
Lemma s10_ops_write_loop_submissions (script : list turn) (src count : Z)
    (p : s10_priv) :
  pool_wf p -> 0 <= count < 2 ^ 64 ->
  result_of (s10_ops_write_loop script src count p) = Some 0 ->
  submissions (calls_of (s10_ops_write_loop script src count p)) = chunking count.
Proof.
  revert src count p. induction script as [|e script IH]; intros src count p Hwf Hc.
  - discriminate.
  - destruct (Z.ltb_spec 0 count) as [Hpos|Hzero].
    2:{ assert (count = 0) as -> by lia. intros _.
        apply submissions_no_data, s10_ops_write_drain_loop. }
    cbn [s10_ops_write_loop].
    rewrite result_bind, calls_bind, submissions_app.
    rewrite s10_ops_write_body_run. cbv zeta.
    apply Z.ltb_lt in Hpos. rewrite Hpos. apply Z.ltb_lt in Hpos.
    pose proof (deliver_calls (irq e) p) as Hcb.
    pose proof (deliver_wf (irq e) p Hwf) as Hwf0.
    set (p0 := priv_of (deliver (irq e) p)) in *.
    pose proof (s10_send_buf_wf e src count p0 Hwf0) as Hwf1.
    destruct (s10_send_buf_cases e src count p0 Hwf0 Hpos)
      as [[Hneg Hsub]|(Hres & Hsub & _)].
    + apply Z.ltb_lt in Hneg. rewrite Hneg. autorewrite with run.
      rewrite !submissions_app, (submissions_callback _ Hcb), Hsub.
      cbn [app submissions omap list_omap]. apply IH; assumption.
    + assert (Hmin : 0 < Z.min count SVC_BUF_SIZE <= count).
      { unfold SVC_BUF_SIZE, SZ_512K. lia. }
      assert (Hge : (result_of (s10_send_buf e src count p0) <? 0) = false).
      { apply Z.ltb_ge. lia. }
      rewrite Hge, Hres, to_ulong_small by lia.
      set (s := s10_send_buf e src count p0) in *.
      destruct (s10_ops_write_wait_cases e (src + Z.min count SVC_BUF_SIZE)
                  (count - Z.min count SVC_BUF_SIZE) (priv_of s))
        as ([Hr|[Hr|Hr]] & _ & Hsw & Hwf2);
        autorewrite with run; rewrite Hr; autorewrite with run;
        [|discriminate|discriminate].
      intros Hz.
      rewrite !submissions_app, (submissions_callback _ Hcb), Hsub, Hsw.
      cbn [app submissions omap list_omap].
      assert (Hrange : 0 <= count - Z.min count SVC_BUF_SIZE < 2 ^ 64) by lia.
      rewrite (IH _ _ _ (Hwf2 Hwf1) Hrange Hz).
      symmetry. apply chunking_step, Hpos.
Qed.

(** C4: for a non-empty rest of the image of [count] bytes, a call of
    [s10_send_buf] that does not fail copies, submits and returns
    min(count, SVC_BUF_SIZE) bytes, which is more than 0; so a run of
    [s10_ops_write] that succeeds on an image of n times the capacity
    made n submissions of the capacity each, and on an image of the
    capacity plus one byte a submission of the capacity followed by a
    submission of 1 byte. *)
Theorem s10_send_buf_transfers (e : turn) (src count : Z) (p : s10_priv)
    (script : list turn) (n : nat) :
  pool_wf p -> 0 < count ->
  (let r := s10_send_buf e src count p in
   0 <= result_of r ->
   result_of r = Z.min count SVC_BUF_SIZE /\ 0 < result_of r /\
   submissions (calls_of r) = [result_of r] /\
   exists dst, copies (calls_of r) = [(dst, src, result_of r)]) /\
  (let w := s10_ops_write script src (Z.of_nat n * SVC_BUF_SIZE) p in
   Z.of_nat n * SVC_BUF_SIZE < 2 ^ 64 ->
   result_of w = Some 0 ->
   submissions (calls_of w) = replicate n SVC_BUF_SIZE) /\
  (let w := s10_ops_write script src (SVC_BUF_SIZE + 1) p in
   result_of w = Some 0 ->
   submissions (calls_of w) = [SVC_BUF_SIZE; 1]).
Proof.
  intros Hwf Hc. split; [|split]; cbv zeta.
  - intros Hok.
    destruct (s10_send_buf_cases e src count p Hwf Hc)
      as [[Hneg _]|(Hres & Hsub & Hcp)]; [lia|].
    rewrite Hres. split; [reflexivity|].
    split; [unfold SVC_BUF_SIZE, SZ_512K; lia|]. split; assumption.
  - intros Hn Hz. unfold s10_ops_write in *.
    rewrite s10_ops_write_loop_submissions; auto using chunking_full.
    unfold SVC_BUF_SIZE, SZ_512K in *. lia.
  - intros Hz. unfold s10_ops_write in *.
    rewrite s10_ops_write_loop_submissions; auto using chunking_one_more.
    unfold SVC_BUF_SIZE, SZ_512K. lia.
Qed.

End Streaming.

Lemma s10_send_buf_transfers_witness :
  let returned := notified 4 0x1000 100 in
  let r := s10_send_buf quiet 0x9000 (SVC_BUF_SIZE + 1) priv0 in
  let w4 := @s10_ops_write mainline
              [returned; returned; returned; returned; quiet]
              0x9000 (4 * SVC_BUF_SIZE) priv0 in
  let w1 := @s10_ops_write mainline [returned; returned; quiet]
              0x9000 (SVC_BUF_SIZE + 1) priv0 in
  (result_of r = SVC_BUF_SIZE /\ 0 < result_of r /\
   submissions (calls_of r) = [result_of r] /\
   exists dst, copies (calls_of r) = [(dst, 0x9000, result_of r)]) /\
  (result_of w4 = Some 0 /\
   submissions (calls_of w4) =
     [SVC_BUF_SIZE; SVC_BUF_SIZE; SVC_BUF_SIZE; SVC_BUF_SIZE]) /\
  (result_of w1 = Some 0 /\ submissions (calls_of w1) = [SVC_BUF_SIZE; 1]).
Proof.
  cbv zeta.
  destruct (@s10_send_buf_transfers mainline quiet 0x9000 (SVC_BUF_SIZE + 1) priv0
              [notified 4 0x1000 100; notified 4 0x1000 100; notified 4 0x1000 100;
               notified 4 0x1000 100; quiet] 4
              eq_refl eq_refl) as (H1 & H4 & _).
  destruct (@s10_send_buf_transfers mainline quiet 0x9000 (SVC_BUF_SIZE + 1) priv0
              [notified 4 0x1000 100; notified 4 0x1000 100; quiet] 4
              eq_refl eq_refl) as (_ & _ & H2).
  split; [apply H1; vm_compute; discriminate|].
  split; (split; [reflexivity|]).
  - apply H4; reflexivity.
  - apply H2; reflexivity.
Defined.

(** ** A cooperative service layer *)

Section Cooperative.
Context {hdr : kernel_headers}.

Lemma s10_unlock_bufs_head (k : Z) (p : s10_priv) (b : s10_svc_buf)
    (rest : list s10_svc_buf) :
  svc_bufs p = b :: rest -> buf b = k -> k <> NULL ->
  priv_of (s10_unlock_bufs k p) =
    with_svc_bufs (with_lock (clear_bit_unlock SVC_BUF_LOCK (lock b)) b :: rest) p.
Proof.
  intros Hbufs Hk Hnn. unfold s10_unlock_bufs.
  destruct (Z.eqb_spec k NULL) as [|_]; [contradiction|].
  rewrite Hbufs. cbn [unlock_scan].
  destruct (Z.eqb_spec (buf b) k) as [_|]; [|contradiction].
  reflexivity.
Qed.

Lemma s10_unlock_bufs_null (p : s10_priv) : priv_of (s10_unlock_bufs NULL p) = p.
Proof. reflexivity. Qed.

(** The notification of [returned k] on a pool whose first buffer is
    at [k]: the buffer is unlocked and the BUFFER_DONE bit is pending. *)
Lemma s10_receive_callback_returned (k : Z) (p : s10_priv) (b : s10_svc_buf)
    (rest : list s10_svc_buf) :
  0 <= SVC_STATUS_BUFFER_DONE <= SVC_STATUS_ERROR ->
  svc_bufs p = b :: rest -> buf b = k -> k <> NULL ->
  let p' := priv_of (s10_receive_callback
                       (mk_cb_data (BIT SVC_STATUS_BUFFER_DONE) k NULL NULL NULL) p) in
  svc_bufs p' = with_lock (clear_bit_unlock SVC_BUF_LOCK (lock b)) b :: rest /\
  Z.testbit (status p') SVC_STATUS_BUFFER_DONE = true.
Proof.
  intros Hbit Hbufs Hk Hnn. cbv zeta. unfold s10_receive_callback.
  cbn [cb_status kaddr1 kaddr2 kaddr3 kaddr4].
  assert (Hd : Z.testbit (BIT SVC_STATUS_BUFFER_DONE) SVC_STATUS_BUFFER_DONE = true).
  { rewrite testbit_BIT, Z.eqb_refl by lia. reflexivity. }
  assert (Hland : (Z.land (BIT SVC_STATUS_BUFFER_DONE)
                     (BIT SVC_STATUS_BUFFER_DONE) =? 0) = false).
  { change (BIT SVC_STATUS_BUFFER_DONE) with (Z.shiftl 1 SVC_STATUS_BUFFER_DONE) at 2.
    rewrite land_shiftl_eqb, Hd. reflexivity. }
  rewrite Hland. autorewrite with run.
  set (p1 := with_status _ p).
  assert (Hst : Z.testbit (status p1) SVC_STATUS_BUFFER_DONE = true).
  { subst p1. cbn [status with_status]. rewrite set_status_bits_spec, Hd by lia.
    destruct (Z.leb_spec 0 SVC_STATUS_BUFFER_DONE),
      (Z.ltb_spec SVC_STATUS_BUFFER_DONE
         (0 + Z.of_nat (Z.to_nat (SVC_STATUS_ERROR + 1)))); lia. }
  assert (Hb1 : svc_bufs p1 = b :: rest) by exact Hbufs.
  clearbody p1.
  rewrite !s10_unlock_bufs_null.
  rewrite (s10_unlock_bufs_head k p1 b rest Hb1 Hk Hnn).
  split; [reflexivity | exact Hst].
Qed.

(** One turn of a cooperative run: the first buffer takes a full piece
    of the image and comes back free. *)
Lemma s10_ops_write_body_returned (src count : Z) (p : s10_priv)
    (b : s10_svc_buf) (rest : list s10_svc_buf) :
  0 <= SVC_STATUS_BUFFER_DONE <= SVC_STATUS_ERROR ->
  pool_wf p -> svc_bufs p = b :: rest -> free b -> buf b <> NULL ->
  SVC_BUF_SIZE <= count < 2 ^ 64 ->
  let r := s10_ops_write_body (returned (buf b)) src count p in
  result_of r = Again (src + SVC_BUF_SIZE, count - SVC_BUF_SIZE) /\
  pool_wf (priv_of r) /\
  exists b', svc_bufs (priv_of r) = b' :: rest /\ free b' /\ buf b' = buf b.
Proof.
  intros Hbit Hwf Hbufs Hfree Hnn Hc. cbv zeta.
  assert (Hsz : SVC_BUF_SIZE = 524288) by reflexivity.
  rewrite s10_ops_write_body_run. cbv zeta.
  cbn [irq returned deliver for_each]. autorewrite with run.
  destruct (Z.ltb_spec 0 count) as [_|]; [|lia].
  rewrite (s10_send_buf_acquired (returned (buf b)) src count p [] rest b)
    by auto using free_not_locked.
  cbn [send_ret returned Z.ltb Z.compare dma app]. autorewrite with run.
  assert (Hx : xfer_size count = SVC_BUF_SIZE).
  { unfold xfer_size. destruct (Z.ltb_spec count SVC_BUF_SIZE); [lia|reflexivity]. }
  rewrite Hx, to_int_small by (rewrite Hsz; lia).
  destruct (Z.ltb_spec SVC_BUF_SIZE 0) as [|_]; [lia|].
  rewrite to_ulong_small by lia.
  set (b1 := if is_smmu_enabled p then with_dma_addr 0 b else b).
  set (b2 := with_lock (Z.lor (lock b) (BIT SVC_BUF_LOCK)) b1).
  set (p1 := with_svc_bufs (b2 :: rest) p).
  assert (Hb1 : buf b1 = buf b /\ lock b1 = lock b).
  { subst b1. destruct (is_smmu_enabled p); split; reflexivity. }
  rewrite s10_ops_write_wait_run. cbv zeta.
  cbn [wake returned deliver for_each]. autorewrite with run.
  destruct (s10_receive_callback_returned (buf b) p1 b2 rest Hbit eq_refl
              (proj1 Hb1) Hnn) as [Hbufs' Hst].
  cbv zeta in Hbufs', Hst. rewrite Hst. autorewrite with run.
  split; [reflexivity|]. cbn [svc_bufs with_status].
  split.
  - unfold pool_wf in *. cbn [svc_bufs with_status]. rewrite Hbufs'.
    rewrite Hbufs in Hwf. exact Hwf.
  - eexists. split; [exact Hbufs'|].
    destruct Hb1 as [Hb Hl]. subst b2. unfold free.
    cbn [lock with_lock buf dma_addr].
    rewrite clear_set_free_bit by (apply free_not_locked, Hfree).
    split; [exact Hfree | exact Hb].
Qed.

(** Enough script gives the result: when the service layer returns every
    buffer while the pump waits, [s10_ops_write] hands an image of [n]
    times the capacity of a buffer to the service layer in [n] turns, in
    [n] submissions of the capacity each, and returns 0 in the turn that
    follows. *)
Lemma s10_ops_write_cooperative (n : nat) (src : Z) (p : s10_priv)
    (b : s10_svc_buf) (rest : list s10_svc_buf) :
  0 <= SVC_STATUS_BUFFER_DONE <= SVC_STATUS_ERROR ->
  pool_wf p -> Forall free (svc_bufs p) ->
  svc_bufs p = b :: rest -> buf b <> NULL ->
  Z.of_nat n * SVC_BUF_SIZE < 2 ^ 64 ->
  let w := s10_ops_write (replicate n (returned (buf b)) ++ [quiet]) src
             (Z.of_nat n * SVC_BUF_SIZE) p in
  result_of w = Some 0 /\
  submissions (calls_of w) = replicate n SVC_BUF_SIZE.
Proof.
  intros Hbit Hwf Hfree Hbufs Hnn Hn. cbv zeta.
  assert (Hsz : SVC_BUF_SIZE = 524288) by reflexivity.
  assert (Hres : result_of
            (s10_ops_write (replicate n (returned (buf b)) ++ [quiet]) src
               (Z.of_nat n * SVC_BUF_SIZE) p) = Some 0).
  { unfold s10_ops_write.
    remember (buf b) as k eqn:Hk. symmetry in Hk.
    revert src p b Hwf Hfree Hbufs Hk Hn.
    induction n as [|n IH]; intros src p b Hwf Hfree Hbufs Hk Hn.
    - cbn [replicate app s10_ops_write_loop]. rewrite result_bind.
      rewrite s10_ops_write_body_run. cbv zeta.
      cbn [irq quiet deliver for_each Z.of_nat Z.mul Z.ltb Z.compare].
      autorewrite with run.
      rewrite (unlocked_count_free _ Hfree), Hwf, Nat.eqb_refl.
      autorewrite with run. reflexivity.
    - cbn [replicate app s10_ops_write_loop]. rewrite result_bind.
      rewrite Hbufs in Hfree. apply Forall_cons in Hfree as [Hb Hfree].
      rewrite <- Hk in Hnn.
      destruct (s10_ops_write_body_returned src (Z.of_nat (S n) * SVC_BUF_SIZE)
                  p b rest Hbit Hwf Hbufs Hb Hnn ltac:(lia))
        as (Hr & Hwf' & b' & Hbufs' & Hb' & Hk').
      rewrite Hk in Hr, Hwf', Hbufs', Hk'. rewrite Hr.
      replace (Z.of_nat (S n) * SVC_BUF_SIZE - SVC_BUF_SIZE)
        with (Z.of_nat n * SVC_BUF_SIZE) by lia.
      apply (IH _ _ b').
      + exact Hwf'.
      + rewrite Hbufs'. constructor; assumption.
      + exact Hbufs'.
      + exact Hk'.
      + lia. }
  split; [exact Hres|].
  unfold s10_ops_write in *.
  rewrite s10_ops_write_loop_submissions by (auto; lia).
  apply chunking_full.
Qed.

End Cooperative.

(** ** Concrete runs of the three operations *)

(** A full reconfiguration that the firmware accepts: the locks are
    reset, the channel is released once. *)
Example write_init_accepted :
  @s10_ops_write_init mainline (notified 1 NULL 70) 0 priv_busy =
    (0, mk_priv pool0 2 0x0102 false,
     [Reinit; Send COMMAND_RECONFIG (PConfig 0) 4 0; Complete; Wait 75 70; Done]).
Proof. reflexivity. Qed.

(** An authenticated reconfiguration with a known firmware version. *)
Example write_init_authenticate :
  sends (calls_of (@s10_ops_write_init mainline (notified 1 NULL 70) 32 priv_busy))
    = [(COMMAND_RECONFIG, PConfig 2, 4)].
Proof. reflexivity. Qed.

(** The request times out: the channel is still released. *)
Example write_init_timeout :
  @s10_ops_write_init mainline quiet 1 priv0 =
    (- ETIMEDOUT, priv0,
     [Reinit; Send COMMAND_RECONFIG (PConfig 1) 4 0; Wait 75 0; Done]).
Proof. reflexivity. Qed.

(** The drain of two buffers in flight: two DATA_CLAIM requests, then
    the turn that finds every buffer unlocked. *)
Example write_drain :
  let r := @s10_ops_write mainline
             [notified 4 0x1000 100; notified 4 0x2000 100; quiet] 0x9000 0
             priv_busy in
  result_of r = Some 0 /\
  sends (calls_of r) =
    [(COMMAND_RECONFIG_DATA_CLAIM, PNull, 0); (COMMAND_RECONFIG_DATA_CLAIM, PNull, 0)] /\
  unlocked_count (svc_bufs (priv_of r)) = NUM_SVC_BUFS.
Proof. vm_compute. repeat split. Qed.

(** The remote reports an error while the pump drains. *)
Example write_drain_error :
  result_of (@s10_ops_write mainline [notified 32 NULL 100] 0x9000 0 priv_full)
    = Some (- EFAULT).
Proof. reflexivity. Qed.

(** With every buffer in flight and no notification the streaming loop
    does not return: it is still retrying when the script ends. *)
Example write_spins :
  @s10_ops_write mainline [quiet; quiet; quiet] 0x9000 10 priv_full =
    (None, priv_full, [Reinit; Reinit; Reinit]).
Proof. reflexivity. Qed.

(** The poll for completion: the remote answers, then reports an error;
    the budget of the second wait is what the first one left. *)
Example write_complete_error :
  @s10_ops_write_complete mainline [notified 1 NULL 40; notified 32 NULL 10] priv0 =
    (Some (- EFAULT), mk_priv pool0 1 INVALID_FIRMWARE_VERSION false,
     [Reinit; Send COMMAND_RECONFIG_STATUS PNull 0 0; Complete; Wait 75 40;
      Reinit; Send COMMAND_RECONFIG_STATUS PNull 0 0; Complete; Wait 40 10;
      Done]).
Proof. reflexivity. Qed.

(** ** Invariants of the three operations *)

(** A property [I] of the private data and a property [P] of the calls
    that the steps of the transfer path keep are kept by the three
    operations. *)
Section Invariant.
Context {hdr : kernel_headers}.
Variable I : s10_priv -> Prop.
Variable P : extern_call -> Prop.

#[local] Abbreviation kept r := (I (priv_of r) /\ Forall P (calls_of r)).

Hypothesis I_status : forall p s, I p -> I (with_status s p).
Hypothesis I_unlock : forall k p, I p -> kept (s10_unlock_bufs k p).
Hypothesis I_send :
  forall e src count p, I p -> 0 < count -> kept (s10_send_buf e src count p).
Hypothesis I_reset :
  forall p, I p -> I (with_svc_bufs (map (with_lock 0) (svc_bufs p)) p).
Hypothesis P_reinit : P Reinit.
Hypothesis P_complete : P Complete.
Hypothesis P_done : P Done.
Hypothesis P_wait : forall timeout r, P (Wait timeout r).
Hypothesis P_claim : forall r, P (Send COMMAND_RECONFIG_DATA_CLAIM PNull 0 r).
Hypothesis P_status : forall r, P (Send COMMAND_RECONFIG_STATUS PNull 0 r).
Hypothesis P_reconfig :
  forall c n r, P (Send COMMAND_RECONFIG (PConfig c) n r).

Lemma kept_bind {A B} (m : M A) (f : A -> M B) (p : s10_priv) :
  kept (m p) -> (forall a p1, I p1 -> kept (f a p1)) -> kept (bind m f p).
Proof.
  intros [Hi Hp] Hf. rewrite priv_bind, calls_bind.
  destruct (Hf (result_of (m p)) (priv_of (m p)) Hi) as [Hi' Hp'].
  split; [exact Hi' | apply Forall_app; split; assumption].
Qed.

Lemma kept_ret {A} (a : A) (p : s10_priv) : I p -> kept (ret a p).
Proof. intros Hi. split; [exact Hi | constructor]. Qed.

Lemma kept_call (c : extern_call) (p : s10_priv) : I p -> P c -> kept (call c p).
Proof. intros Hi Hc. split; [exact Hi | repeat constructor; exact Hc]. Qed.

Lemma s10_receive_callback_kept (d : stratix10_svc_cb_data) (p : s10_priv) :
  I p -> kept (s10_receive_callback d p).
Proof.
  intros Hi. unfold s10_receive_callback.
  apply kept_bind; [split; [apply I_status, Hi | constructor]|].
  intros _ p1 H1. apply kept_bind; [|intros; apply kept_call; auto].
  destruct (Z.land _ _ =? 0); [apply kept_ret, H1|].
  repeat (apply kept_bind; [apply I_unlock; assumption | intros _ ? ?]).
  apply I_unlock. assumption.
Qed.

Lemma deliver_kept (ds : list stratix10_svc_cb_data) (p : s10_priv) :
  I p -> kept (deliver ds p).
Proof.
  revert p. induction ds as [|d ds IH]; intros p Hi; cbn [deliver for_each].
  - apply kept_ret, Hi.
  - apply kept_bind; [apply s10_receive_callback_kept, Hi|].
    intros _ p1 H1. apply IH, H1.
Qed.

Lemma wait_for_completion_timeout_kept (e : turn) (timeout : Z) (p : s10_priv) :
  I p -> kept (wait_for_completion_timeout e timeout p).
Proof.
  intros Hi. unfold wait_for_completion_timeout.
  apply kept_bind; [apply deliver_kept, Hi|]. intros _ p1 H1.
  apply kept_bind; [apply kept_call; auto|]. intros _ p2 H2.
  apply kept_ret, H2.
Qed.

Lemma test_and_clear_status_kept (nr : Z) (p : s10_priv) :
  I p -> kept (test_and_clear_status nr p).
Proof.
  intros Hi. rewrite test_and_clear_status_run. autorewrite with run.
  split; [apply I_status, Hi | constructor].
Qed.

Lemma s10_ops_write_wait_kept (e : turn) (src count : Z) (p : s10_priv) :
  I p -> kept (s10_ops_write_wait e src count p).
Proof.
  intros Hi. unfold s10_ops_write_wait.
  apply kept_bind; [apply wait_for_completion_timeout_kept, Hi|]. intros w p1 H1.
  apply kept_bind; [apply test_and_clear_status_kept, H1|]. intros [] p2 H2;
    [apply kept_ret, H2|].
  apply kept_bind; [apply test_and_clear_status_kept, H2|]. intros [] p3 H3;
    [apply kept_ret, H3|].
  apply kept_bind; [apply test_and_clear_status_kept, H3|]. intros [] p4 H4;
    [apply kept_ret, H4|].
  destruct (w =? 0); apply kept_ret, H4.
Qed.

Lemma s10_ops_write_body_kept (e : turn) (src count : Z) (p : s10_priv) :
  I p -> kept (s10_ops_write_body e src count p).
Proof.
  intros Hi. unfold s10_ops_write_body.
  apply kept_bind; [apply deliver_kept, Hi|]. intros _ p1 H1.
  apply kept_bind; [apply kept_call; auto|]. intros _ p2 H2.
  destruct (Z.ltb_spec 0 count) as [Hc|_].
  - apply kept_bind; [apply I_send; assumption|]. intros sent p3 H3.
    destruct (sent <? 0); [apply kept_ret, H3 | apply s10_ops_write_wait_kept, H3].
  - unfold s10_get_unlocked_buffer_count.
    apply kept_bind; [apply kept_bind; [split; [exact H2|constructor]|];
                      intros; apply kept_ret; assumption|].
    intros n p3 H3. destruct (n =? NUM_SVC_BUFS)%nat; [apply kept_ret, H3|].
    unfold s10_svc_send_msg.
    apply kept_bind;
      [apply kept_bind; [apply kept_call; auto | intros; apply kept_ret; assumption]|].
    intros r p4 H4.
    destruct (r <? 0); [apply kept_ret, H4 | apply s10_ops_write_wait_kept, H4].
Qed.

Lemma s10_ops_write_kept (script : list turn) (src count : Z) (p : s10_priv) :
  I p -> kept (s10_ops_write script src count p).
Proof.
  unfold s10_ops_write. revert src count p.
  induction script as [|e script IH]; intros src count p Hi;
    cbn [s10_ops_write_loop].
  - apply kept_ret, Hi.
  - apply kept_bind; [apply s10_ops_write_body_kept, Hi|].
    intros [[s c]|r] p1 H1; [apply IH, H1 | apply kept_ret, H1].
Qed.

Lemma s10_ops_write_complete_kept (script : list turn) (p : s10_priv) :
  I p -> kept (s10_ops_write_complete script p).
Proof.
  intros Hi. unfold s10_ops_write_complete.
  apply kept_bind.
  - generalize S10_RECONFIG_TIMEOUT as timeout. revert p Hi.
    induction script as [|e script IH]; intros p Hi timeout;
      cbn [s10_ops_write_complete_loop].
    + apply kept_ret, Hi.
    + apply kept_bind; [|intros [t'|r] p1 H1; [apply IH, H1 | apply kept_ret, H1]].
      unfold s10_ops_write_complete_body, s10_svc_send_msg.
      apply kept_bind; [apply kept_call; auto|]. intros _ p1 H1.
      apply kept_bind;
        [apply kept_bind; [apply kept_call; auto | intros; apply kept_ret; assumption]|].
      intros r p2 H2. destruct (r <? 0); [apply kept_ret, H2|].
      apply kept_bind; [apply wait_for_completion_timeout_kept, H2|].
      intros w p3 H3. cbv zeta. destruct (to_int w =? 0); [apply kept_ret, H3|].
      apply kept_bind; [apply test_and_clear_status_kept, H3|]. intros [] p4 H4;
        [apply kept_ret, H4|].
      apply kept_bind; [apply test_and_clear_status_kept, H4|]. intros [] p5 H5;
        apply kept_ret, H5.
  - intros [r|] p1 H1; [|apply kept_ret, H1].
    apply kept_bind; [apply kept_call; auto | intros; apply kept_ret; assumption].
Qed.

Lemma s10_ops_write_init_kept (e : turn) (flags : Z) (p : s10_priv) :
  I p -> kept (s10_ops_write_init e flags p).
Proof.
  intros Hi. rewrite s10_ops_write_init_cases.
  destruct (returns_early flags p); [split; [exact Hi | constructor]|].
  unfold s10_ops_write_init_request, s10_svc_send_msg.
  apply kept_bind; [apply kept_call; auto|]. intros _ p1 H1.
  apply kept_bind;
    [apply kept_bind; [apply kept_call; auto | intros; apply kept_ret; assumption]|].
  intros r p2 H2.
  apply kept_bind.
  - destruct (r <? 0); [apply kept_ret, H2|].
    apply kept_bind; [apply wait_for_completion_timeout_kept, H2|].
    intros w p3 H3. destruct (to_int w =? 0); [apply kept_ret, H3|].
    apply kept_bind; [apply test_and_clear_status_kept, H3|].
    intros [] p4 H4; cbn [negb]; [|apply kept_ret, H4].
    apply kept_bind; [split; [apply I_reset, H4 | constructor]|].
    intros; apply kept_ret; assumption.
  - intros r' p3 H3.
    apply kept_bind; [apply kept_call; auto | intros; apply kept_ret; assumption].
Qed.

End Invariant.

(** ** What the transfer path keeps *)

Lemma unlock_scan_bufs (smmu : bool) (k : Z) (bufs : list s10_svc_buf) :
  match unlock_scan smmu k bufs with
  | Some (bufs', _) => buf <$> bufs' = buf <$> bufs
  | None => True
  end.
Proof.
  induction bufs as [|b bufs IH]; cbn [unlock_scan]; [exact I|].
  destruct (buf b =? k); [reflexivity|].
  destruct (unlock_scan smmu k bufs) as [[bufs' t]|]; [|exact I].
  rewrite !fmap_cons, IH. reflexivity.
Qed.

Lemma lock_scan_bufs (bufs : list s10_svc_buf) (i : nat) :
  buf <$> (lock_scan i bufs).2 = buf <$> bufs.
Proof.
  revert i. induction bufs as [|b bufs IH]; intros i; cbn [lock_scan]; [reflexivity|].
  unfold test_and_set_bit_lock.
  destruct (Z.testbit (lock b) SVC_BUF_LOCK).
  - specialize (IH (S i)). destruct (lock_scan (S i) bufs) as [j bufs''].
    cbn [snd] in *. rewrite !fmap_cons, IH. reflexivity.
  - reflexivity.
Qed.

(** The private data [p'] is [p] with other lock words, DMA addresses
    and status bits: the array has the same buffers at the same
    addresses. *)
#[local] Abbreviation same_buffers p p' :=
  (buf <$> svc_bufs p' = buf <$> svc_bufs p /\
   fw_version p' = fw_version p /\
   is_smmu_enabled p' = is_smmu_enabled p).

Lemma s10_unlock_bufs_same_buffers (k : Z) (p : s10_priv) :
  same_buffers p (priv_of (s10_unlock_bufs k p)).
Proof.
  unfold s10_unlock_bufs. destruct (k =? NULL); [auto|].
  pose proof (unlock_scan_bufs (is_smmu_enabled p) k (svc_bufs p)) as H.
  destruct (unlock_scan _ k _) as [[bufs' t]|]; autorewrite with run; auto.
Qed.

Lemma update_buf_same_buffers (i : nat) (f : s10_svc_buf -> s10_svc_buf)
    (p : s10_priv) :
  (forall b, buf (f b) = buf b) ->
  same_buffers p (priv_of (update_buf i f p)).
Proof.
  intros Hf. unfold update_buf. autorewrite with run.
  destruct (svc_bufs p !! i) as [b|] eqn:E; [|auto].
  cbn [svc_bufs with_svc_bufs fw_version is_smmu_enabled].
  split; [|auto]. rewrite list_fmap_insert, Hf.
  apply list_insert_id. rewrite list_lookup_fmap, E. reflexivity.
Qed.

Lemma update_buf_same_buffers_from (i : nat) (f : s10_svc_buf -> s10_svc_buf)
    (q : s10_priv) (A : list Z) (v : Z) (s : bool) :
  (forall b, buf (f b) = buf b) ->
  buf <$> svc_bufs q = A /\ fw_version q = v /\ is_smmu_enabled q = s ->
  buf <$> svc_bufs (priv_of (update_buf i f q)) = A /\
  fw_version (priv_of (update_buf i f q)) = v /\
  is_smmu_enabled (priv_of (update_buf i f q)) = s.
Proof.
  intros Hf (Ha & Hb & Hc).
  destruct (update_buf_same_buffers i f q Hf) as (Ha' & Hb' & Hc').
  repeat split; congruence.
Qed.

Lemma s10_send_buf_same_buffers (e : turn) (src count : Z) (p : s10_priv) :
  same_buffers p (priv_of (s10_send_buf e src count p)).
Proof.
  unfold s10_send_buf. rewrite priv_bind. autorewrite with run.
  pose proof (lock_scan_bufs (svc_bufs p) 0) as Hscan.
  destruct (lock_scan 0 (svc_bufs p)) as [i bufs]. cbn [snd] in Hscan.
  rewrite priv_bind. autorewrite with run.
  set (p1 := with_svc_bufs bufs p).
  assert (H1 : same_buffers p p1) by (subst p1; auto).
  clearbody p1. unfold s10_svc_send_msg.
  destruct (i =? NUM_SVC_BUFS)%nat; autorewrite with run; [exact H1|].
  destruct (is_smmu_enabled p), (send_ret e <? 0); autorewrite with run;
    repeat (apply update_buf_same_buffers_from; [reflexivity|]); exact H1.
Qed.

Section Kept.
Context {hdr : kernel_headers}.

(** X1: the three operations never change the set of buffers: the array
    keeps its length and every buffer its address; they change neither
    the cached firmware version nor the SMMU setting. *)
Theorem operations_keep_buffers (e : turn) (flags : Z) (script : list turn)
    (src count : Z) (p : s10_priv) :
  same_buffers p (priv_of (s10_ops_write_init e flags p)) /\
  same_buffers p (priv_of (s10_ops_write script src count p)) /\
  same_buffers p (priv_of (s10_ops_write_complete script p)).
Proof.
  set (I := fun p' : s10_priv => same_buffers p p').
  assert (I0 : I p) by (subst I; cbv beta; auto).
  assert (Hst : forall q s, I q -> I (with_status s q)) by (intros q s H; exact H).
  assert (Hun : forall k q, I q ->
            I (priv_of (s10_unlock_bufs k q)) /\
            Forall (fun _ => True) (calls_of (s10_unlock_bufs k q))).
  { intros k q (Ha & Hb & Hc). split; [|apply Forall_true; auto].
    destruct (s10_unlock_bufs_same_buffers k q) as (Ha' & Hb' & Hc').
    subst I. cbv beta. repeat split; congruence. }
  assert (Hse : forall e' s c q, I q -> 0 < c ->
            I (priv_of (s10_send_buf e' s c q)) /\
            Forall (fun _ => True) (calls_of (s10_send_buf e' s c q))).
  { intros e' s c q (Ha & Hb & Hc) _. split; [|apply Forall_true; auto].
    destruct (s10_send_buf_same_buffers e' s c q) as (Ha' & Hb' & Hc').
    subst I. cbv beta. repeat split; congruence. }
  assert (Hre : forall q, I q -> I (with_svc_bufs (map (with_lock 0) (svc_bufs q)) q)).
  { intros q (Ha & Hb & Hc). subst I. cbv beta.
    cbn [svc_bufs with_svc_bufs fw_version is_smmu_enabled].
    repeat split; try assumption. rewrite <- Ha.
    change (map (with_lock 0) (svc_bufs q)) with (with_lock 0 <$> svc_bufs q).
    rewrite <- list_fmap_compose. reflexivity. }
  split; [|split].
  - apply (s10_ops_write_init_kept I (fun _ => True)); auto.
  - apply (s10_ops_write_kept I (fun _ => True)); auto.
  - apply (s10_ops_write_complete_kept I (fun _ => True)); auto.
Qed.

End Kept.

Lemma lock_word_ok_clear (b : s10_svc_buf) :
  lock_word_ok b ->
  lock_word_ok (with_lock (clear_bit_unlock SVC_BUF_LOCK (lock b)) b).
Proof. intros [H|H]; left; cbn [lock with_lock]; rewrite H; reflexivity. Qed.

Lemma lock_word_ok_set (b : s10_svc_buf) :
  lock_word_ok b -> lock_word_ok (with_lock (Z.lor (lock b) (BIT SVC_BUF_LOCK)) b).
Proof. intros [H|H]; right; cbn [lock with_lock]; rewrite H; reflexivity. Qed.

Lemma lock_word_ok_free (b : s10_svc_buf) :
  lock_word_ok b -> (free b <-> ~ locked b).
Proof.
  unfold free, locked. intros [H|H]; rewrite H; split; intros H';
    try discriminate; try reflexivity.
  exfalso. apply H'. reflexivity.
Qed.

Lemma unlock_scan_lock_words (smmu : bool) (k : Z) (bufs : list s10_svc_buf) :
  Forall lock_word_ok bufs ->
  match unlock_scan smmu k bufs with
  | Some (bufs', _) => Forall lock_word_ok bufs'
  | None => True
  end.
Proof.
  induction 1 as [|b bufs Hb Hbufs IH]; cbn [unlock_scan]; [exact I|].
  destruct (buf b =? k).
  - constructor; [apply lock_word_ok_clear, Hb | exact Hbufs].
  - destruct (unlock_scan smmu k bufs) as [[bufs' t]|]; [|exact I].
    constructor; assumption.
Qed.

Lemma lock_scan_lock_words (bufs : list s10_svc_buf) (i : nat) :
  Forall lock_word_ok bufs -> Forall lock_word_ok (lock_scan i bufs).2.
Proof.
  intros H. revert i. induction H as [|b bufs Hb Hbufs IH]; intros i;
    cbn [lock_scan]; [constructor|].
  unfold test_and_set_bit_lock.
  destruct (Z.testbit (lock b) SVC_BUF_LOCK).
  - specialize (IH (S i)). destruct (lock_scan (S i) bufs) as [j bufs''].
    cbn [snd] in *. constructor; [apply lock_word_ok_set, Hb | exact IH].
  - cbn [snd]. constructor; [apply lock_word_ok_set, Hb | exact Hbufs].
Qed.

Lemma update_buf_lock_words (i : nat) (f : s10_svc_buf -> s10_svc_buf)
    (p : s10_priv) :
  (forall b, lock_word_ok b -> lock_word_ok (f b)) ->
  Forall lock_word_ok (svc_bufs p) ->
  Forall lock_word_ok (svc_bufs (priv_of (update_buf i f p))).
Proof.
  intros Hf H. unfold update_buf. autorewrite with run.
  destruct (svc_bufs p !! i) as [b|] eqn:E; [|exact H].
  cbn [svc_bufs with_svc_bufs]. apply Forall_insert; [exact H|].
  apply Hf. eapply Forall_lookup_1; eassumption.
Qed.

Lemma s10_send_buf_lock_words (e : turn) (src count : Z) (p : s10_priv) :
  Forall lock_word_ok (svc_bufs p) ->
  Forall lock_word_ok (svc_bufs (priv_of (s10_send_buf e src count p))).
Proof.
  intros H. unfold s10_send_buf. rewrite priv_bind. autorewrite with run.
  pose proof (lock_scan_lock_words (svc_bufs p) 0 H) as Hscan.
  destruct (lock_scan 0 (svc_bufs p)) as [i bufs]. cbn [snd] in Hscan.
  rewrite priv_bind. autorewrite with run.
  set (p1 := with_svc_bufs bufs p).
  assert (H1 : Forall lock_word_ok (svc_bufs p1)) by exact Hscan.
  clearbody p1. unfold s10_svc_send_msg.
  destruct (i =? NUM_SVC_BUFS)%nat; autorewrite with run; [exact H1|].
  destruct (is_smmu_enabled p), (send_ret e <? 0); autorewrite with run;
    repeat (apply update_buf_lock_words;
            [first [exact lock_word_ok_clear | intros b Hb; exact Hb]|]);
    exact H1.
Qed.

Lemma s10_unlock_bufs_lock_words (k : Z) (p : s10_priv) :
  Forall lock_word_ok (svc_bufs p) ->
  Forall lock_word_ok (svc_bufs (priv_of (s10_unlock_bufs k p))).
Proof.
  intros H. unfold s10_unlock_bufs. destruct (k =? NULL); [exact H|].
  pose proof (unlock_scan_lock_words (is_smmu_enabled p) k (svc_bufs p) H) as Hs.
  destruct (unlock_scan _ k _) as [[bufs' t]|]; autorewrite with run; assumption.
Qed.

Lemma omap_nil_Forall {A B} (f : A -> option B) (l : list A) :
  Forall (fun x => f x = None) l -> omap f l = [].
Proof.
  induction 1 as [|x l Hx _ IH]; [reflexivity|].
  cbn [omap list_omap]. rewrite Hx. exact IH.
Qed.

Lemma unlock_scan_no_smmu (k : Z) (bufs : list s10_svc_buf) :
  match unlock_scan false k bufs with
  | Some (_, t) => t = []
  | None => True
  end.
Proof.
  induction bufs as [|b bufs IH]; cbn [unlock_scan]; [exact I|].
  destruct (buf b =? k); [reflexivity|].
  destruct (unlock_scan false k bufs) as [[bufs' t]|]; [exact IH | exact I].
Qed.

Section KeptMore.
Context {hdr : kernel_headers}.

(** X2: when the lock word of every buffer is 0 or 1, it stays so through
    the three operations; for such a word the test of the whole word by
    [s10_get_unlocked_buffer_count] and the test of the lock bit by
    [s10_send_buf] agree. *)
Theorem operations_keep_lock_words (e : turn) (flags : Z) (script : list turn)
    (src count : Z) (p : s10_priv) :
  Forall lock_word_ok (svc_bufs p) ->
  let ok q := Forall (fun b => lock_word_ok b /\ (free b <-> ~ locked b)) (svc_bufs q) in
  ok (priv_of (s10_ops_write_init e flags p)) /\
  ok (priv_of (s10_ops_write script src count p)) /\
  ok (priv_of (s10_ops_write_complete script p)).
Proof.
  intros H0 ok.
  set (I := fun q : s10_priv => Forall lock_word_ok (svc_bufs q)).
  assert (Hok : forall q, I q -> ok q).
  { intros q Hq. subst ok I. cbv beta in *. eapply Forall_impl; [exact Hq|].
    intros b Hb. split; [exact Hb | apply lock_word_ok_free, Hb]. }
  assert (Hst : forall q s, I q -> I (with_status s q)) by (intros q s H; exact H).
  assert (Hun : forall k q, I q ->
            I (priv_of (s10_unlock_bufs k q)) /\
            Forall (fun _ => True) (calls_of (s10_unlock_bufs k q))).
  { intros k q Hq. split; [apply s10_unlock_bufs_lock_words, Hq|].
    apply Forall_true. auto. }
  assert (Hse : forall e' s c q, I q -> 0 < c ->
            I (priv_of (s10_send_buf e' s c q)) /\
            Forall (fun _ => True) (calls_of (s10_send_buf e' s c q))).
  { intros e' s c q Hq _. split; [apply s10_send_buf_lock_words, Hq|].
    apply Forall_true. auto. }
  assert (Hre : forall q, I q -> I (with_svc_bufs (map (with_lock 0) (svc_bufs q)) q)).
  { intros q _. subst I. cbv beta. cbn [svc_bufs with_svc_bufs].
    apply Forall_fmap, Forall_true. intros b. left. reflexivity. }
  split; [|split]; apply Hok.
  - apply (s10_ops_write_init_kept I (fun _ => True)); auto.
  - apply (s10_ops_write_kept I (fun _ => True)); auto.
  - apply (s10_ops_write_complete_kept I (fun _ => True)); auto.
Qed.

(** X4: [s10_ops_write] copies only into buffers of the pool and never more
    than a buffer holds; it submits only buffers of the pool, with a
    length between 1 and the capacity, so that it never sends a
    zero-length submission; its only other message is the DATA_CLAIM
    request without payload; and it never calls [stratix10_svc_done]. *)
Theorem s10_ops_write_calls_ok (script : list turn) (src count : Z) (p : s10_priv) :
  pool_wf p ->
  Forall (write_call_ok (buf <$> svc_bufs p))
    (calls_of (s10_ops_write script src count p)).
Proof.
  intros Hwf.
  set (A := buf <$> svc_bufs p).
  set (I := fun q : s10_priv => pool_wf q /\ buf <$> svc_bufs q = A).
  assert (I0 : I p) by (split; [exact Hwf | reflexivity]).
  assert (Hst : forall q s, I q -> I (with_status s q)) by (intros q s H; exact H).
  assert (Hun : forall k q, I q ->
            I (priv_of (s10_unlock_bufs k q)) /\
            Forall (write_call_ok A) (calls_of (s10_unlock_bufs k q))).
  { intros k q [Hq HA]. split.
    - split; [apply s10_unlock_bufs_wf, Hq|].
      destruct (s10_unlock_bufs_same_buffers k q) as (Ha & _). congruence.
    - eapply Forall_impl; [apply s10_unlock_bufs_calls|].
      intros [] Hc; try destruct Hc; exact Logic.I. }
  assert (Hse : forall e s c q, I q -> 0 < c ->
            I (priv_of (s10_send_buf e s c q)) /\
            Forall (write_call_ok A) (calls_of (s10_send_buf e s c q))).
  { intros e s c q [Hq HA] Hc. split.
    - split; [apply s10_send_buf_wf, Hq|].
      destruct (s10_send_buf_same_buffers e s c q) as (Ha & _). congruence.
    - destruct (first_free_or_all_locked (svc_bufs q))
        as [Hall|(pre & b & suf & Hbufs & Hpre & Hb)].
      + rewrite s10_send_buf_exhausted by assumption. constructor.
      + rewrite (s10_send_buf_acquired e s c q pre suf b) by assumption.
        autorewrite with run.
        assert (Hx : 0 < xfer_size c <= SVC_BUF_SIZE).
        { unfold xfer_size, SVC_BUF_SIZE, SZ_512K in *.
          destruct (Z.ltb_spec c 524288); lia. }
        assert (Hin : buf b ∈ A).
        { rewrite <- HA, Hbufs, fmap_app, fmap_cons.
          apply elem_of_app. right. left. }
        constructor; [split; assumption|].
        apply Forall_app. split.
        { destruct (is_smmu_enabled q); repeat constructor. }
        constructor; [|constructor].
        cbn [write_call_ok]. split; [exists (buf b); auto | exact Hx]. }
  apply (s10_ops_write_kept I (write_call_ok A)); cbn [write_call_ok]; auto.
Qed.

(** X3: without the SMMU quirk none of the three operations calls the DMA
    mapping layer. *)
Theorem operations_no_dma_without_smmu (e : turn) (flags : Z) (script : list turn)
    (src count : Z) (p : s10_priv) :
  is_smmu_enabled p = false ->
  dma_calls (calls_of (s10_ops_write_init e flags p)) = [] /\
  dma_calls (calls_of (s10_ops_write script src count p)) = [] /\
  dma_calls (calls_of (s10_ops_write_complete script p)) = [].
Proof.
  intros H0.
  set (I := fun q : s10_priv => is_smmu_enabled q = false).
  set (P := fun c : extern_call =>
              match c with DmaMap _ _ _ | DmaUnmap _ _ => False | _ => True end).
  assert (HP : forall t, Forall P t -> dma_calls t = []).
  { intros t Ht. apply omap_nil_Forall. eapply Forall_impl; [exact Ht|].
    intros [] Hc; try reflexivity; destruct Hc. }
  assert (Hst : forall q s, I q -> I (with_status s q)) by (intros q s H; exact H).
  assert (Hun : forall k q, I q ->
            I (priv_of (s10_unlock_bufs k q)) /\ Forall P (calls_of (s10_unlock_bufs k q))).
  { intros k q Hq. split.
    - destruct (s10_unlock_bufs_same_buffers k q) as (_ & _ & Hs).
      subst I. cbv beta in *. congruence.
    - unfold s10_unlock_bufs. destruct (k =? NULL); [constructor|].
      subst I. cbv beta in Hq. rewrite Hq.
      pose proof (unlock_scan_no_smmu k (svc_bufs q)) as Hs.
      destruct (unlock_scan false k (svc_bufs q)) as [[bufs' t]|];
        autorewrite with run; [subst t; constructor | repeat constructor]. }
  assert (Hse : forall e' s c q, I q -> 0 < c ->
            I (priv_of (s10_send_buf e' s c q)) /\
            Forall P (calls_of (s10_send_buf e' s c q))).
  { intros e' s c q Hq _. split.
    - destruct (s10_send_buf_same_buffers e' s c q) as (_ & _ & Hs).
      subst I. cbv beta in *. congruence.
    - subst I. cbv beta in Hq. unfold s10_send_buf, s10_svc_send_msg.
      rewrite calls_bind. autorewrite with run. rewrite Hq.
      destruct (lock_scan 0 (svc_bufs q)) as [i bufs].
      rewrite calls_bind. autorewrite with run.
      destruct (i =? NUM_SVC_BUFS)%nat; autorewrite with run; [constructor|].
      destruct (send_ret e' <? 0); autorewrite with run; repeat constructor. }
  assert (Hre : forall q, I q -> I (with_svc_bufs (map (with_lock 0) (svc_bufs q)) q))
    by (intros q H; exact H).
  split; [|split]; apply HP.
  - apply (s10_ops_write_init_kept I P); subst P; cbv beta; auto; intros; exact Logic.I.
  - apply (s10_ops_write_kept I P); subst P; cbv beta; auto; intros; exact Logic.I.
  - apply (s10_ops_write_complete_kept I P); subst P; cbv beta; auto; intros; exact Logic.I.
Qed.

End KeptMore.

(** ** Release of a buffer *)

Lemma unlock_scan_first (smmu : bool) (pre suf : list s10_svc_buf) (b : s10_svc_buf) :
  (forall b', b' ∈ pre -> buf b' <> buf b) ->
  unlock_scan smmu (buf b) (pre ++ b :: suf) =
    Some (pre ++ with_lock (clear_bit_unlock SVC_BUF_LOCK (lock b)) b :: suf,
          if smmu then [DmaUnmap (dma_addr b) SVC_BUF_SIZE] else []).
Proof.
  induction pre as [|b' pre IH]; intros Hpre; cbn [unlock_scan app].
  - rewrite Z.eqb_refl. reflexivity.
  - destruct (Z.eqb_spec (buf b') (buf b)) as [Heq|_].
    + exfalso. apply (Hpre b'); [left | exact Heq].
    + rewrite IH; [reflexivity|]. intros b'' Hb''. apply Hpre. right. exact Hb''.
Qed.

Lemma s10_unlock_bufs_first_match (p : s10_priv) (pre suf : list s10_svc_buf)
    (b : s10_svc_buf) :
  svc_bufs p = pre ++ b :: suf ->
  buf b <> NULL ->
  (forall b', b' ∈ pre -> buf b' <> buf b) ->
  s10_unlock_bufs (buf b) p =
    (tt,
     with_svc_bufs
       (pre ++ with_lock (clear_bit_unlock SVC_BUF_LOCK (lock b)) b :: suf) p,
     if is_smmu_enabled p then [DmaUnmap (dma_addr b) SVC_BUF_SIZE] else []).
Proof.
  intros Hbufs Hnn Hpre. unfold s10_unlock_bufs.
  destruct (Z.eqb_spec (buf b) NULL) as [|_]; [contradiction|].
  rewrite Hbufs, unlock_scan_first by exact Hpre. reflexivity.
Qed.

(** X5: the release of a returned address that is not NULL clears the lock
    bit of the first buffer of the pool that has this address and of no
    other, changes nothing else, logs no warning, and with the SMMU
    unmaps the whole buffer at its DMA address. *)
Theorem s10_unlock_bufs_known_handle (p : s10_priv) (pre suf : list s10_svc_buf)
    (b : s10_svc_buf) :
  svc_bufs p = pre ++ b :: suf ->
  buf b <> NULL ->
  (forall b', b' ∈ pre -> buf b' <> buf b) ->
  s10_unlock_bufs (buf b) p =
    (tt,
     with_svc_bufs
       (pre ++ with_lock (clear_bit_unlock SVC_BUF_LOCK (lock b)) b :: suf) p,
     if is_smmu_enabled p then [DmaUnmap (dma_addr b) SVC_BUF_SIZE] else []).
Proof.
  intros Hbufs Hnn Hpre. unfold s10_unlock_bufs.
  rewrite (proj2 (Z.eqb_neq _ _) Hnn), Hbufs.
  rewrite (unlock_scan_first (is_smmu_enabled p) pre suf b Hpre).
  reflexivity.
Qed.

Lemma s10_unlock_bufs_known_handle_witness :
  s10_unlock_bufs 0x2000 priv_busy =
    (tt,
     mk_priv [mk_svc_buf 0x1000 0 1; mk_svc_buf 0x2000 0 0;
              mk_svc_buf 0x3000 0 0; mk_svc_buf 0x4000 0 0] 2 0x0102 false,
     []).
Proof.
  apply (s10_unlock_bufs_known_handle priv_busy [mk_svc_buf 0x1000 0 1]
           [mk_svc_buf 0x3000 0 0; mk_svc_buf 0x4000 0 0] (mk_svc_buf 0x2000 0 1)).
  - reflexivity.
  - discriminate.
  - intros b' Hb'. apply list_elem_of_singleton in Hb'. subst b'. discriminate.
Defined.

(** X7: on a pool of [NUM_SVC_BUFS] buffers with distinct addresses, none
    NULL and not all locked, a submission that the service layer accepts
    locks one buffer and hands its address to the service layer; the
    release of that address gives every buffer the lock word it had
    before the submission. *)
Theorem s10_send_buf_release_round_trip (e : turn) (src count : Z) (p : s10_priv) :
  pool_wf p ->
  NoDup (buf <$> svc_bufs p) ->
  Forall (fun b => buf b <> NULL) (svc_bufs p) ->
  ~ Forall locked (svc_bufs p) ->
  0 <= send_ret e ->
  let r := s10_send_buf e src count p in
  exists k,
    sends (calls_of r) = [(COMMAND_RECONFIG_DATA_SUBMIT, PBuf k, xfer_size count)] /\
    (exists b', b' ∈ svc_bufs (priv_of r) /\ buf b' = k /\ locked b') /\
    lock <$> svc_bufs (priv_of (s10_unlock_bufs k (priv_of r))) = lock <$> svc_bufs p.
Proof.
  intros Hwf Hnd Hnn Hsome Hok r.
  destruct (first_free_or_all_locked (svc_bufs p))
    as [Hall|(pre & b & suf & Hbufs & Hpre & Hb)]; [contradiction|].
  exists (buf b). subst r.
  rewrite (s10_send_buf_acquired e src count p pre suf b) by assumption.
  assert (Hge : (send_ret e <? 0) = false) by (apply Z.ltb_ge; exact Hok).
  rewrite Hge. autorewrite with run.
  set (b1 := if is_smmu_enabled p then with_dma_addr (dma e) b else b).
  set (b2 := with_lock (Z.lor (lock b) (BIT SVC_BUF_LOCK)) b1).
  assert (Hb1 : buf b1 = buf b /\ lock b1 = lock b).
  { subst b1. destruct (is_smmu_enabled p); split; reflexivity. }
  destruct Hb1 as [Hb1 Hl1].
  split; [destruct (is_smmu_enabled p); reflexivity|].
  split.
  - exists b2. cbn [svc_bufs with_svc_bufs].
    split; [apply elem_of_app; right; left|].
    split; [subst b2; cbn [buf with_lock]; exact Hb1|].
    subst b2. unfold locked. cbn [lock with_lock]. apply locked_after_set.
  - assert (Hpre' : forall b', b' ∈ pre -> buf b' <> buf b2).
    { intros b' Hb' Heq. rewrite Hbufs, fmap_app, fmap_cons in Hnd.
      apply NoDup_app in Hnd as (_ & Hdis & _).
      apply (Hdis (buf b')); [apply list_elem_of_fmap; exists b'; auto|].
      subst b2. cbn [buf with_lock] in Heq. rewrite Heq, Hb1. left. }
    assert (Hnn2 : buf b2 <> NULL).
    { subst b2. cbn [buf with_lock]. rewrite Hb1.
      rewrite Hbufs in Hnn. apply Forall_app in Hnn as [_ Hnn].
      apply Forall_cons in Hnn as [Hnn _]. exact Hnn. }
    replace (buf b) with (buf b2) by (subst b2; cbn [buf with_lock]; exact Hb1).
    rewrite (s10_unlock_bufs_first_match
               (with_svc_bufs (pre ++ b2 :: suf) p) pre suf b2 eq_refl Hnn2 Hpre').
    autorewrite with run. cbn [svc_bufs with_svc_bufs].
    rewrite Hbufs, !fmap_app, !fmap_cons. do 2 f_equal.
    subst b2. cbn [lock with_lock].
    apply clear_set_free_bit, Hb.
Qed.

Lemma s10_send_buf_release_round_trip_witness :
  let r := s10_send_buf quiet 0x9000 7 priv_busy in
  exists k,
    sends (calls_of r) = [(COMMAND_RECONFIG_DATA_SUBMIT, PBuf k, 7)] /\
    (exists b', b' ∈ svc_bufs (priv_of r) /\ buf b' = k /\ locked b') /\
    lock <$> svc_bufs (priv_of (s10_unlock_bufs k (priv_of r))) = [1; 1; 0; 0].
Proof.
  apply (s10_send_buf_release_round_trip quiet 0x9000 7 priv_busy).
  - reflexivity.
  - apply (bool_decide_unpack _). vm_compute. exact I.
  - repeat constructor; discriminate.
  - intros H. apply Forall_inv_tail, Forall_inv_tail, Forall_inv in H.
    vm_compute in H. discriminate.
  - vm_compute. discriminate.
Defined.

Lemma unlock_scan_twice (smmu : bool) (k : Z) (bufs : list s10_svc_buf) :
  match unlock_scan smmu k bufs with
  | Some (bufs', _) =>
      exists t', unlock_scan smmu k bufs' = Some (bufs', t')
  | None => True
  end.
Proof.
  induction bufs as [|b bufs IH]; cbn [unlock_scan]; [exact I|].
  destruct (buf b =? k) eqn:E.
  - cbn [unlock_scan buf with_lock]. rewrite E. cbn [lock with_lock].
    rewrite clear_bit_twice. eexists. destruct b; reflexivity.
  - destruct (unlock_scan smmu k bufs) as [[bufs' t]|]; [|exact I].
    destruct IH as [t' Ht']. cbn [unlock_scan]. rewrite E, Ht'.
    eexists. reflexivity.
Qed.

(** X6: a second release of the same address leaves the private data as
    the first release left it: a buffer that is returned twice stays
    unlocked and no other buffer is touched. *)
Theorem s10_unlock_bufs_twice (k : Z) (p : s10_priv) :
  let p1 := priv_of (s10_unlock_bufs k p) in
  priv_of (s10_unlock_bufs k p1) = p1.
Proof.
  cbv zeta. unfold s10_unlock_bufs.
  destruct (Z.eqb_spec k NULL) as [Hk|Hk]; [reflexivity|].
  pose proof (unlock_scan_twice (is_smmu_enabled p) k (svc_bufs p)) as H2.
  destruct (unlock_scan (is_smmu_enabled p) k (svc_bufs p)) as [[bufs' t]|] eqn:Hscan;
    autorewrite with run.
  - destruct H2 as [t' Ht'].
    cbn [is_smmu_enabled svc_bufs with_svc_bufs]. rewrite Ht'.
    autorewrite with run. reflexivity.
  - rewrite Hscan. reflexivity.
Qed.

(** ** What a successful write has done *)

Lemma total_app (l1 l2 : list Z) : total (l1 ++ l2) = total l1 + total l2.
Proof.
  induction l1 as [|x l1 IH]; cbn [app total foldr]; [reflexivity|].
  fold (total (l1 ++ l2)). fold (total l1). rewrite IH. lia.
Qed.

Lemma total_replicate (n : nat) (x : Z) : total (replicate n x) = Z.of_nat n * x.
Proof.
  induction n as [|n IH]; cbn [replicate total foldr]; [reflexivity|].
  fold (total (replicate n x)). rewrite IH. lia.
Qed.

Lemma chunking_total (count : Z) : 0 <= count -> total (chunking count) = count.
Proof.
  intros Hc. unfold chunking. rewrite total_app, total_replicate.
  assert (Hsz : 0 < SVC_BUF_SIZE) by (unfold SVC_BUF_SIZE, SZ_512K; lia).
  rewrite Z2Nat.id by (apply Z.div_pos; lia).
  pose proof (Z.div_mod count SVC_BUF_SIZE ltac:(lia)) as Hdm.
  destruct (Z.eqb_spec (count mod SVC_BUF_SIZE) 0) as [H0|_];
    cbn [total foldr]; lia.
Qed.

Section Success.
Context {hdr : kernel_headers}.

Lemma s10_ops_write_body_success (e : turn) (src count : Z) (p : s10_priv) :
  result_of (s10_ops_write_body e src count p) = Return 0 ->
  unlocked_count (svc_bufs (priv_of (s10_ops_write_body e src count p))) =
    NUM_SVC_BUFS.
Proof.
  rewrite s10_ops_write_body_run. cbv zeta.
  destruct (0 <? count).
  - destruct (_ <? 0); autorewrite with run; [discriminate|].
    intros H. exfalso.
    match type of H with
    | result_of (s10_ops_write_wait ?e ?s ?c ?q) = _ =>
        destruct (s10_ops_write_wait_cases e s c q) as [[Hr|[Hr|Hr]] _];
          rewrite Hr in H; discriminate
    end.
  - destruct (Nat.eqb_spec
                (unlocked_count (svc_bufs (priv_of (deliver (irq e) p))))
                NUM_SVC_BUFS) as [Hall|_];
      autorewrite with run; [intros _; exact Hall|].
    destruct (Z.ltb_spec (send_ret e) 0) as [Hneg|_]; autorewrite with run.
    + intros [= H0]. lia.
    + intros H. exfalso.
      destruct (s10_ops_write_wait_cases e src count (priv_of (deliver (irq e) p)))
        as [[Hr|[Hr|Hr]] _]; rewrite Hr in H; discriminate.
Qed.

Lemma s10_ops_write_loop_results (script : list turn) (src count : Z)
    (p : s10_priv) (r : Z) :
  result_of (s10_ops_write_loop script src count p) = Some r ->
  (r = 0 /\
   unlocked_count (svc_bufs (priv_of (s10_ops_write_loop script src count p))) =
     NUM_SVC_BUFS) \/
  r = - EFAULT \/ r = - ETIMEDOUT \/ (r < 0 /\ r ∈ send_ret <$> script).
Proof.
  revert src count p. induction script as [|e script IH]; intros src count p;
    cbn [s10_ops_write_loop]; [discriminate|].
  rewrite result_bind, priv_bind.
  destruct (result_of (s10_ops_write_body e src count p)) as [[s c]|r'] eqn:E.
  - intros H. destruct (IH _ _ _ H) as [H0|[H1|[H2|[H3 H4]]]]; auto.
    right. right. right. split; [exact H3|]. rewrite fmap_cons. right. exact H4.
  - autorewrite with run. intros [= <-].
    destruct (s10_ops_write_body_returns e src count p r' E) as [H0|[[H1 H2]|[H3|H4]]];
      auto.
    + left. split; [exact H0|]. subst r'. apply s10_ops_write_body_success, E.
    + right. right. right. split; [lia|]. rewrite fmap_cons, H1. left.
Qed.

(** X8: [s10_ops_write] returns 0 only when every buffer is unlocked and the
    submissions that were accepted add up to the whole image; its other
    results are [-EFAULT], [-ETIMEDOUT], and the negative answer of the
    service layer to a message. *)
Theorem s10_ops_write_results (script : list turn) (src count : Z) (p : s10_priv) :
  pool_wf p -> 0 <= count < 2 ^ 64 ->
  let w := s10_ops_write script src count p in
  match result_of w with
  | Some r =>
      (r = 0 /\ unlocked_count (svc_bufs (priv_of w)) = NUM_SVC_BUFS /\
       total (submissions (calls_of w)) = count) \/
      r = - EFAULT \/ r = - ETIMEDOUT \/ (r < 0 /\ r ∈ send_ret <$> script)
  | None => True
  end.
Proof.
  intros Hwf Hc. cbv zeta. unfold s10_ops_write.
  destruct (result_of (s10_ops_write_loop script src count p)) as [r|] eqn:E;
    [|exact I].
  destruct (s10_ops_write_loop_results script src count p r E)
    as [[H0 Hu]|H]; [|right; exact H].
  left. split; [exact H0|]. split; [exact Hu|].
  subst r. rewrite (s10_ops_write_loop_submissions script src count p Hwf Hc E).
  apply chunking_total. lia.
Qed.

(** What [s10_send_buf] does when the service layer accepts the
    message. *)
Lemma s10_send_buf_accepted (e : turn) (src count : Z) (p : s10_priv) :
  pool_wf p -> 0 < count -> 0 <= send_ret e ->
  let r := s10_send_buf e src count p in
  r = (- ENOBUFS, p, []) \/
  (result_of r = Z.min count SVC_BUF_SIZE /\
   read_of <$> copies (calls_of r) = [(src, Z.min count SVC_BUF_SIZE)]).
Proof.
  intros Hwf Hc Hok r. subst r.
  destruct (first_free_or_all_locked (svc_bufs p))
    as [Hall|(pre & b & suf & Hbufs & Hpre & Hb)].
  - left. apply s10_send_buf_exhausted; assumption.
  - right. rewrite (s10_send_buf_acquired e src count p pre suf b) by assumption.
    assert (Hge : (send_ret e <? 0) = false) by (apply Z.ltb_ge; exact Hok).
    assert (Hx : xfer_size count = Z.min count SVC_BUF_SIZE).
    { unfold xfer_size. destruct (Z.ltb_spec count SVC_BUF_SIZE); lia. }
    rewrite Hge, Hx. autorewrite with run.
    split.
    + apply to_int_small. unfold SVC_BUF_SIZE, SZ_512K in *. lia.
    + destruct (is_smmu_enabled p); reflexivity.
Qed.

Lemma copies_app (t1 t2 : list extern_call) :
  copies (t1 ++ t2) = copies t1 ++ copies t2.
Proof. apply omap_app. Qed.

Lemma copies_callback (t : list extern_call) :
  Forall from_callback t -> copies t = [].
Proof.
  intros H. apply omap_from_callback; [|exact H].
  intros [] Hc; try reflexivity; destruct Hc.
Qed.

Lemma s10_ops_write_wait_copies (e : turn) (src count : Z) (p : s10_priv) :
  copies (calls_of (s10_ops_write_wait e src count p)) = [].
Proof.
  rewrite s10_ops_write_wait_run. cbv zeta.
  pose proof (deliver_calls (wake e) p) as Hcb.
  assert (H : copies (calls_of (deliver (wake e) p)
                      ++ [Wait S10_BUFFER_TIMEOUT (left e)]) = []).
  { rewrite copies_app, (copies_callback _ Hcb). reflexivity. }
  destruct (Z.testbit _ SVC_STATUS_BUFFER_DONE); autorewrite with run; [exact H|].
  destruct (Z.testbit _ SVC_STATUS_BUFFER_SUBMITTED); autorewrite with run; [exact H|].
  destruct (Z.testbit _ SVC_STATUS_ERROR); autorewrite with run; [exact H|].
  destruct (left e =? 0); autorewrite with run; exact H.
Qed.

Lemma s10_ops_write_drain_copies (script : list turn) (src : Z) (p : s10_priv) :
  copies (calls_of (s10_ops_write_loop script src 0 p)) = [].
Proof.
  revert p. induction script as [|e script IH]; intros p;
    cbn [s10_ops_write_loop]; [reflexivity|].
  rewrite calls_bind, copies_app.
  rewrite s10_ops_write_body_run. cbv zeta. cbn [Z.ltb Z.compare].
  pose proof (deliver_calls (irq e) p) as Hcb.
  set (p0 := priv_of (deliver (irq e) p)).
  destruct (unlocked_count (svc_bufs p0) =? NUM_SVC_BUFS)%nat; autorewrite with run.
  { rewrite copies_app, (copies_callback _ Hcb). reflexivity. }
  destruct (send_ret e <? 0); autorewrite with run.
  { rewrite !copies_app, (copies_callback _ Hcb). reflexivity. }
  rewrite !copies_app, (copies_callback _ Hcb).
  change (copies (Send COMMAND_RECONFIG_DATA_CLAIM PNull 0 (send_ret e)
                  :: calls_of (s10_ops_write_wait e src 0 p0)))
    with (copies (calls_of (s10_ops_write_wait e src 0 p0))).
  rewrite s10_ops_write_wait_copies. cbn [app].
  destruct (s10_ops_write_wait_cases e src 0 p0) as ([Hr|[Hr|Hr]] & _);
    rewrite Hr; autorewrite with run; [apply IH | reflexivity | reflexivity].
Qed.

(** X9: when the service layer accepts every message, a run of
    [s10_ops_write] that succeeds has read the image in order, without a
    gap and without an overlap: its copies read the pieces of the image
    one after the other from [src], each as long as a buffer but the
    last. *)
Theorem s10_ops_write_reads_in_order (script : list turn) (src count : Z)
    (p : s10_priv) :
  pool_wf p -> 0 <= count < 2 ^ 64 ->
  Forall (fun e => 0 <= send_ret e) script ->
  result_of (s10_ops_write script src count p) = Some 0 ->
  read_of <$> copies (calls_of (s10_ops_write script src count p)) =
    pieces src (chunking count).
Proof.
  unfold s10_ops_write. intros Hwf Hc Hs. revert src count p Hwf Hc.
  induction Hs as [|e script He _ IH]; intros src count p Hwf Hc.
  - discriminate.
  - destruct (Z.ltb_spec 0 count) as [Hpos|Hzero].
    2:{ assert (count = 0) as -> by lia. intros _.
        rewrite s10_ops_write_drain_copies. reflexivity. }
    cbn [s10_ops_write_loop].
    rewrite result_bind, calls_bind, copies_app, fmap_app.
    rewrite s10_ops_write_body_run. cbv zeta.
    apply Z.ltb_lt in Hpos. rewrite Hpos. apply Z.ltb_lt in Hpos.
    pose proof (deliver_calls (irq e) p) as Hcb.
    pose proof (deliver_wf (irq e) p Hwf) as Hwf0.
    set (p0 := priv_of (deliver (irq e) p)) in *.
    pose proof (s10_send_buf_wf e src count p0 Hwf0) as Hwf1.
    destruct (s10_send_buf_accepted e src count p0 Hwf0 Hpos He)
      as [Hex|[Hres Hcp]].
    + rewrite Hex. autorewrite with run.
      change (- ENOBUFS <? 0) with true. cbv iota. autorewrite with run.
      rewrite !copies_app, (copies_callback _ Hcb). cbn [app copies omap list_omap fmap list_fmap].
      rewrite Hex in Hwf1. apply IH; assumption.
    + assert (Hmin : 0 < Z.min count SVC_BUF_SIZE <= count).
      { unfold SVC_BUF_SIZE, SZ_512K. lia. }
      assert (Hge : (result_of (s10_send_buf e src count p0) <? 0) = false).
      { apply Z.ltb_ge. lia. }
      rewrite Hge, Hres, to_ulong_small by lia.
      set (s := s10_send_buf e src count p0) in *.
      destruct (s10_ops_write_wait_cases e (src + Z.min count SVC_BUF_SIZE)
                  (count - Z.min count SVC_BUF_SIZE) (priv_of s))
        as ([Hr|[Hr|Hr]] & _ & _ & Hwf2);
        autorewrite with run; rewrite Hr; autorewrite with run;
        [|discriminate|discriminate].
      intros Hz.
      rewrite !copies_app, (copies_callback _ Hcb), s10_ops_write_wait_copies.
      cbn [app copies omap list_omap]. rewrite app_nil_r, Hcp.
      assert (Hrange : 0 <= count - Z.min count SVC_BUF_SIZE < 2 ^ 64) by lia.
      rewrite (IH _ _ _ (Hwf2 Hwf1) Hrange Hz).
      rewrite (chunking_step count Hpos). reflexivity.
Qed.

End Success.

(** ** Outcomes of the begin and of the finish operation *)

Lemma chained_slept (budget : Z) (ws : list (Z * Z)) :
  0 <= budget ->
  chained budget ws ->
  Forall (fun w => 0 <= w.2 <= w.1) ws ->
  slept ws <= budget.
Proof.
  intros Hb Hch Hws. revert budget Hb Hch.
  induction Hws as [|[t r] ws Hw _ IH]; intros budget Hb Hch; cbn [slept foldr].
  - exact Hb.
  - cbn [chained] in Hch. destruct Hch as [-> Hch]. cbn [fst snd] in *.
    specialize (IH r ltac:(lia) Hch). unfold slept in IH. lia.
Qed.

Section Outcomes.
Context {hdr : kernel_headers}.

(** The request of [s10_ops_write_init], run. *)
Lemma s10_ops_write_init_request_run (e : turn) (c : Z) (p : s10_priv) :
  let t0 := [Reinit; Send COMMAND_RECONFIG (PConfig c) sizeof_config_type (send_ret e)] in
  let p1 := priv_of (deliver (wake e) p) in
  let t1 := t0 ++ calls_of (deliver (wake e) p)
               ++ [Wait S10_RECONFIG_TIMEOUT (left e)] in
  s10_ops_write_init_request e c p =
    if send_ret e <? 0 then (send_ret e, p, t0 ++ [Done])
    else if to_int (left e) =? 0 then (- ETIMEDOUT, p1, t1 ++ [Done])
    else if Z.testbit (status p1) SVC_STATUS_OK
    then (0,
          with_svc_bufs (with_lock 0 <$> svc_bufs p1)
            (with_status (clear_bit_unlock SVC_STATUS_OK (status p1)) p1),
          t1 ++ [Done])
    else (- ETIMEDOUT, p1, t1 ++ [Done]).
Proof.
  intros t0 p1 t1.
  rewrite (run_eta (s10_ops_write_init_request e c p)).
  unfold s10_ops_write_init_request, s10_svc_send_msg.
  autorewrite with run.
  destruct (send_ret e <? 0); autorewrite with run; [subst t0; log_eq|].
  rewrite wait_for_completion_timeout_run. autorewrite with run. fold p1.
  destruct (to_int (left e) =? 0); autorewrite with run; [subst t1 t0; log_eq|].
  rewrite test_and_clear_status_run. autorewrite with run.
  destruct (Z.testbit (status p1) SVC_STATUS_OK) eqn:Eok; cbn [negb];
    autorewrite with run.
  - subst t1 t0. log_eq.
  - rewrite (clear_bit_unset _ _ Eok), with_status_same. subst t1 t0. log_eq.
Qed.

(** X11: when [s10_ops_write_init] contacts the service layer, it succeeds
    exactly when the message is accepted, the wait does not time out and
    the OK bit is pending after the wait; it then consumes the OK bit and
    resets the lock word of every buffer to 0, also of a buffer that was
    in use.  In every other case it fails with the answer of the service
    layer to the message or with [-ETIMEDOUT], also when the firmware
    answered with an error. *)
Theorem s10_ops_write_init_outcome (e : turn) (flags : Z) (p : s10_priv) :
  returns_early flags p = false ->
  0 <= SVC_STATUS_OK ->
  let r := s10_ops_write_init e flags p in
  let p1 := priv_of (deliver (wake e) p) in
  (result_of r = 0 <->
     0 <= send_ret e /\ to_int (left e) <> 0 /\
     Z.testbit (status p1) SVC_STATUS_OK = true) /\
  (result_of r = 0 ->
     svc_bufs (priv_of r) = with_lock 0 <$> svc_bufs p1 /\
     Z.testbit (status (priv_of r)) SVC_STATUS_OK = false) /\
  (result_of r <> 0 ->
     (result_of r = send_ret e /\ send_ret e < 0) \/ result_of r = - ETIMEDOUT).
Proof.
  intros Hearly Hok. cbv zeta.
  rewrite s10_ops_write_init_cases, Hearly, s10_ops_write_init_request_run.
  cbv zeta.
  destruct (Z.ltb_spec (send_ret e) 0) as [Hneg|Hacc]; autorewrite with run.
  { split; [split; [lia | intros (H & _); lia]|]. split; [lia|]. auto. }
  destruct (Z.eqb_spec (to_int (left e)) 0) as [Hto|Hto]; autorewrite with run.
  { unfold ETIMEDOUT. split; [split; [lia | intros (_ & H & _); lia]|].
    split; [lia|]. auto. }
  destruct (Z.testbit _ SVC_STATUS_OK) eqn:Eok; autorewrite with run.
  - split; [split; auto|]. split; [|intros H; contradiction].
    intros _. cbn [svc_bufs status with_svc_bufs with_status].
    split; [reflexivity|].
    rewrite testbit_clear_bit, Z.eqb_refl by exact Hok. apply andb_false_r.
  - unfold ETIMEDOUT. split; [split; [lia | intros (_ & _ & H); discriminate]|].
    split; [lia|]. auto.
Qed.

(** X12: the waits of the poll of [s10_ops_write_complete] share one budget:
    when [S10_RECONFIG_TIMEOUT] is not negative, what the waits leave
    fits an [int], and each wait leaves a time between 0 and its timeout,
    the time slept in all the waits together is at most
    [S10_RECONFIG_TIMEOUT]. *)
Theorem s10_ops_write_complete_time_bound (script : list turn) (p : s10_priv) :
  0 <= S10_RECONFIG_TIMEOUT ->
  Forall (fun e => 0 <= left e < 2 ^ 31) script ->
  let ws := waits (calls_of (s10_ops_write_complete script p)) in
  Forall (fun w => 0 <= w.2 <= w.1) ws ->
  slept ws <= S10_RECONFIG_TIMEOUT.
Proof.
  intros Hb Hs ws Hws. apply chained_slept; [exact Hb | | exact Hws].
  subst ws. unfold s10_ops_write_complete. rewrite calls_bind, waits_app.
  pose proof (s10_ops_write_complete_loop_chained script S10_RECONFIG_TIMEOUT p Hs)
    as Hch.
  destruct (result_of (s10_ops_write_complete_loop script S10_RECONFIG_TIMEOUT p));
    autorewrite with run; cbn [waits omap list_omap app];
    rewrite app_nil_r; exact Hch.
Qed.

Lemma s10_ops_write_complete_loop_messages (script : list turn) (timeout : Z)
    (p : s10_priv) :
  let w := s10_ops_write_complete_loop script timeout p in
  Forall (eq (COMMAND_RECONFIG_STATUS, PNull, 0)) (sends (calls_of w)) /\
  match result_of w with
  | Some r =>
      r = 0 \/ r = - EFAULT \/ r = - ETIMEDOUT \/ (r < 0 /\ r ∈ send_ret <$> script)
  | None => True
  end.
Proof.
  cbv zeta. revert timeout p. induction script as [|e script IH]; intros timeout p;
    cbn [s10_ops_write_complete_loop].
  - split; [constructor | exact I].
  - rewrite calls_bind, result_bind, sends_app.
    rewrite s10_ops_write_complete_body_run. cbv zeta.
    pose proof (deliver_calls (wake e) p) as Hcb.
    assert (Hs : sends
      ([Reinit; Send COMMAND_RECONFIG_STATUS PNull 0 (send_ret e)] ++
       calls_of (deliver (wake e) p) ++ [Wait timeout (left e)]) =
      [(COMMAND_RECONFIG_STATUS, PNull, 0)]).
    { rewrite !sends_app, (sends_callback _ Hcb). reflexivity. }
    destruct (Z.ltb_spec (send_ret e) 0) as [Hneg|_]; autorewrite with run.
    { split; [repeat constructor|]. right. right. right.
      split; [exact Hneg|]. rewrite fmap_cons. left. }
    destruct (to_int (left e) =? 0); autorewrite with run;
      [rewrite Hs; split; [repeat constructor | auto]|].
    destruct (Z.testbit _ SVC_STATUS_COMPLETED); autorewrite with run;
      [rewrite Hs; split; [repeat constructor | auto]|].
    destruct (Z.testbit _ SVC_STATUS_ERROR); autorewrite with run;
      [rewrite Hs; split; [repeat constructor | auto]|].
    rewrite Hs. cbn [app].
    destruct (IH (to_ulong (to_int (left e))) (priv_of (deliver (wake e) p)))
      as [Hf Hr].
    split; [constructor; [reflexivity | exact Hf]|].
    destruct (result_of _) as [r|]; [|exact I].
    destruct Hr as [H|[H|[H|[H1 H2]]]]; auto.
    right. right. right. split; [exact H1|]. rewrite fmap_cons. right. exact H2.
Qed.

(** X13: [s10_ops_write_complete] sends nothing but RECONFIG_STATUS requests
    without payload; it returns 0, [-EFAULT], [-ETIMEDOUT], or the negative
    answer of the service layer to one of its requests. *)
Theorem s10_ops_write_complete_results (script : list turn) (p : s10_priv) :
  let w := s10_ops_write_complete script p in
  Forall (eq (COMMAND_RECONFIG_STATUS, PNull, 0)) (sends (calls_of w)) /\
  match result_of w with
  | Some r =>
      r = 0 \/ r = - EFAULT \/ r = - ETIMEDOUT \/ (r < 0 /\ r ∈ send_ret <$> script)
  | None => True
  end.
Proof.
  cbv zeta. unfold s10_ops_write_complete.
  rewrite calls_bind, result_bind, sends_app.
  destruct (s10_ops_write_complete_loop_messages script S10_RECONFIG_TIMEOUT p)
    as [Hf Hr].
  destruct (result_of (s10_ops_write_complete_loop script S10_RECONFIG_TIMEOUT p))
    as [r|]; autorewrite with run; cbn [sends omap list_omap app];
    rewrite app_nil_r; split; assumption.
Qed.

(** X14: in the poll of [s10_ops_write_complete] the COMPLETED bit is tested
    before the ERROR bit: when both are pending after a wait, the
    operation succeeds and the ERROR bit stays pending. *)
Theorem s10_ops_write_complete_completed_first (e : turn) (timeout : Z)
    (p : s10_priv) :
  0 <= SVC_STATUS_COMPLETED -> 0 <= SVC_STATUS_ERROR ->
  SVC_STATUS_COMPLETED <> SVC_STATUS_ERROR ->
  0 <= send_ret e -> to_int (left e) <> 0 ->
  let st := status (priv_of (deliver (wake e) p)) in
  Z.testbit st SVC_STATUS_COMPLETED = true ->
  Z.testbit st SVC_STATUS_ERROR = true ->
  let r := s10_ops_write_complete_body e timeout p in
  result_of r = Return 0 /\
  Z.testbit (status (priv_of r)) SVC_STATUS_COMPLETED = false /\
  Z.testbit (status (priv_of r)) SVC_STATUS_ERROR = true.
Proof.
  intros Hc He Hne Hacc Hto st Hcompleted Herror r. subst r st.
  rewrite s10_ops_write_complete_body_run. cbv zeta.
  destruct (Z.ltb_spec (send_ret e) 0); [lia|].
  destruct (Z.eqb_spec (to_int (left e)) 0); [contradiction|].
  rewrite Hcompleted. autorewrite with run. cbn [status with_status].
  split; [reflexivity|].
  rewrite !testbit_clear_bit by exact Hc. rewrite Z.eqb_refl, Hcompleted, Herror.
  destruct (Z.eqb_spec SVC_STATUS_COMPLETED SVC_STATUS_ERROR); [contradiction|].
  split; reflexivity.
Qed.

(** X10: in the loop of [s10_ops_write] the BUFFER_DONE and BUFFER_SUBMITTED
    bits are tested before the ERROR bit and before the result of the
    wait: when one of them is pending the loop goes on with the same
    cursor, also when the wait timed out or the ERROR bit is pending, and
    the ERROR bit stays pending; when BUFFER_DONE is pending,
    BUFFER_SUBMITTED is not consumed. *)
Theorem s10_ops_write_wait_buffer_bits_first (e : turn) (src count : Z)
    (p : s10_priv) :
  0 <= SVC_STATUS_BUFFER_DONE -> 0 <= SVC_STATUS_BUFFER_SUBMITTED ->
  SVC_STATUS_BUFFER_DONE <> SVC_STATUS_BUFFER_SUBMITTED ->
  SVC_STATUS_BUFFER_DONE <> SVC_STATUS_ERROR ->
  SVC_STATUS_BUFFER_SUBMITTED <> SVC_STATUS_ERROR ->
  let st := status (priv_of (deliver (wake e) p)) in
  Z.testbit st SVC_STATUS_BUFFER_DONE || Z.testbit st SVC_STATUS_BUFFER_SUBMITTED
    = true ->
  let r := s10_ops_write_wait e src count p in
  result_of r = Again (src, count) /\
  Z.testbit (status (priv_of r)) SVC_STATUS_ERROR = Z.testbit st SVC_STATUS_ERROR /\
  (Z.testbit st SVC_STATUS_BUFFER_DONE = true ->
   Z.testbit (status (priv_of r)) SVC_STATUS_BUFFER_SUBMITTED =
   Z.testbit st SVC_STATUS_BUFFER_SUBMITTED).
Proof.
  intros Hd Hs Hds Hde Hse st Hbits r. subst r st.
  rewrite s10_ops_write_wait_run. cbv zeta.
  destruct (Z.testbit _ SVC_STATUS_BUFFER_DONE) eqn:Ed; autorewrite with run.
  - cbn [status with_status]. split; [reflexivity|].
    rewrite !testbit_clear_bit by exact Hd.
    destruct (Z.eqb_spec SVC_STATUS_BUFFER_DONE SVC_STATUS_ERROR); [contradiction|].
    destruct (Z.eqb_spec SVC_STATUS_BUFFER_DONE SVC_STATUS_BUFFER_SUBMITTED);
      [contradiction|].
    rewrite !andb_true_r. split; [reflexivity | intros _; reflexivity].
  - cbn [orb] in Hbits. rewrite Hbits. autorewrite with run.
    cbn [status with_status]. split; [reflexivity|].
    rewrite !testbit_clear_bit by exact Hs.
    destruct (Z.eqb_spec SVC_STATUS_BUFFER_SUBMITTED SVC_STATUS_ERROR);
      [contradiction|].
    rewrite andb_true_r. split; [reflexivity | intros H; discriminate].
Qed.

End Outcomes.

(** ** The life cycle: the buffers at probe and at remove *)

Lemma free_scan_cons (b : s10_svc_buf) (bufs : list s10_svc_buf) :
  free_scan (b :: bufs) =
    let r := free_scan bufs in
    let w := Z.lor (lock b) (BIT SVC_BUF_LOCK) in
    if buf b =? NULL then (S r.1.1, b :: r.1.2, r.2)
    else if Z.testbit (lock b) SVC_BUF_LOCK
    then (r.1.1, with_lock w b :: r.1.2, r.2)
    else (S r.1.1, with_buf NULL (with_lock w b) :: r.1.2, buf b :: r.2).
Proof.
  cbn [free_scan]. destruct (free_scan bufs) as [[n bs] fr].
  unfold test_and_set_bit_lock. cbn [fst snd].
  destruct (buf b =? NULL); [reflexivity|].
  destruct (Z.testbit (lock b) SVC_BUF_LOCK); reflexivity.
Qed.

Lemma s10_free_buffers_eq (p : s10_priv) :
  s10_free_buffers p =
    (((free_scan (svc_bufs p)).1.1 =? NUM_SVC_BUFS)%nat,
     with_svc_bufs (free_scan (svc_bufs p)).1.2 p,
     FreeMemory <$> (free_scan (svc_bufs p)).2).
Proof.
  unfold s10_free_buffers. destruct (free_scan (svc_bufs p)) as [[n bs] fr].
  reflexivity.
Qed.

Lemma frees_app (t1 t2 : list platform_call) :
  frees (t1 ++ t2) = frees t1 ++ frees t2.
Proof. apply omap_app. Qed.
Lemma allocations_app (t1 t2 : list platform_call) :
  allocations (t1 ++ t2) = allocations t1 ++ allocations t2.
Proof. apply omap_app. Qed.
Lemma svc_calls_app (t1 t2 : list platform_call) :
  svc_calls (t1 ++ t2) = svc_calls t1 ++ svc_calls t2.
Proof. apply omap_app. Qed.
Lemma free_channel_calls_app (t1 t2 : list platform_call) :
  free_channel_calls (t1 ++ t2) = (free_channel_calls t1 + free_channel_calls t2)%nat.
Proof. unfold free_channel_calls. rewrite omap_app. apply length_app. Qed.
Lemma channels_app (t1 t2 : list platform_call) :
  channels (t1 ++ t2) = (channels t1 + channels t2)%nat.
Proof. unfold channels. rewrite omap_app. apply length_app. Qed.

Lemma frees_fmap (ks : list Z) : frees (FreeMemory <$> ks) = ks.
Proof. induction ks as [|k ks IH]; [reflexivity|]. cbn. f_equal. exact IH. Qed.
Lemma allocations_frees (ks : list Z) : allocations (FreeMemory <$> ks) = [].
Proof. induction ks as [|k ks IH]; [reflexivity | exact IH]. Qed.
Lemma free_channel_calls_frees (ks : list Z) :
  free_channel_calls (FreeMemory <$> ks) = O.
Proof. induction ks as [|k ks IH]; [reflexivity | exact IH]. Qed.
Lemma svc_calls_frees (ks : list Z) : svc_calls (FreeMemory <$> ks) = [].
Proof. induction ks as [|k ks IH]; [reflexivity | exact IH]. Qed.
Lemma channels_frees (ks : list Z) : channels (FreeMemory <$> ks) = O.
Proof. induction ks as [|k ks IH]; [reflexivity | exact IH]. Qed.

Lemma frees_svc (t : list extern_call) : frees (Svc <$> t) = [].
Proof. induction t as [|c t IH]; [reflexivity | exact IH]. Qed.
Lemma allocations_svc (t : list extern_call) : allocations (Svc <$> t) = [].
Proof. induction t as [|c t IH]; [reflexivity | exact IH]. Qed.
Lemma free_channel_calls_svc (t : list extern_call) :
  free_channel_calls (Svc <$> t) = O.
Proof. induction t as [|c t IH]; [reflexivity | exact IH]. Qed.
Lemma channels_svc (t : list extern_call) : channels (Svc <$> t) = O.
Proof. induction t as [|c t IH]; [reflexivity | exact IH]. Qed.
Lemma svc_calls_svc (t : list extern_call) : svc_calls (Svc <$> t) = t.
Proof. induction t as [|c t IH]; [reflexivity|]. cbn. f_equal. exact IH. Qed.

(** What [s10_free_buffers] does to each buffer. *)
Lemma free_scan_buffers (bufs : list s10_svc_buf) :
  let r := free_scan bufs in
  (forall k, k ∈ r.2 ->
     k <> NULL /\ exists b, b ∈ bufs /\ buf b = k /\ ~ locked b) /\
  (forall i b, bufs !! i = Some b ->
     if buf b =? NULL then r.1.2 !! i = Some b
     else if Z.testbit (lock b) SVC_BUF_LOCK then r.1.2 !! i = Some b
     else buf b ∈ r.2 /\
          exists b', r.1.2 !! i = Some b' /\ buf b' = NULL /\ locked b').
Proof.
  cbv zeta. induction bufs as [|b bufs [IH1 IH2]].
  - split; [intros k Hk; inversion Hk | intros i b Hi; discriminate].
  - rewrite free_scan_cons. cbv zeta.
    destruct (Z.eqb_spec (buf b) NULL) as [Hn|Hn];
      [|destruct (Z.testbit (lock b) SVC_BUF_LOCK) eqn:El]; cbn [fst snd].
    + split.
      * intros k Hk. destruct (IH1 k Hk) as (Hk0 & b0 & Hb0 & Hrest).
        split; [exact Hk0|]. exists b0. split; [right; exact Hb0 | exact Hrest].
      * intros [|i] b0 Hi; cbn [lookup list_lookup] in *.
        -- injection Hi as <-. rewrite (proj2 (Z.eqb_eq _ _) Hn). reflexivity.
        -- specialize (IH2 i b0 Hi). destruct (buf b0 =? NULL); [exact IH2|].
           destruct (Z.testbit (lock b0) SVC_BUF_LOCK); exact IH2.
    + split.
      * intros k Hk. destruct (IH1 k Hk) as (Hk0 & b0 & Hb0 & Hrest).
        split; [exact Hk0|]. exists b0. split; [right; exact Hb0 | exact Hrest].
      * intros [|i] b0 Hi; cbn [lookup list_lookup] in *.
        -- injection Hi as <-. rewrite (proj2 (Z.eqb_neq _ _) Hn), El.
           rewrite (set_locked_bit _ El), with_lock_same. reflexivity.
        -- specialize (IH2 i b0 Hi). destruct (buf b0 =? NULL); [exact IH2|].
           destruct (Z.testbit (lock b0) SVC_BUF_LOCK); exact IH2.
    + split.
      * intros k Hk. apply elem_of_cons in Hk as [->|Hk].
        -- split; [exact Hn|]. exists b. split; [left|]. split; [reflexivity|].
           unfold locked. rewrite El. discriminate.
        -- destruct (IH1 k Hk) as (Hk0 & b0 & Hb0 & Hrest).
           split; [exact Hk0|]. exists b0. split; [right; exact Hb0 | exact Hrest].
      * intros [|i] b0 Hi; cbn [lookup list_lookup] in *.
        -- injection Hi as <-. rewrite (proj2 (Z.eqb_neq _ _) Hn), El.
           split; [left|]. eexists. split; [reflexivity|].
           split; [reflexivity|]. unfold locked. cbn [lock with_buf with_lock].
           rewrite Z.lor_spec, testbit_BIT by (unfold SVC_BUF_LOCK; lia).
           rewrite Z.eqb_refl. apply orb_true_r.
        -- specialize (IH2 i b0 Hi). destruct (buf b0 =? NULL); [exact IH2|].
           destruct (Z.testbit (lock b0) SVC_BUF_LOCK); [exact IH2|].
           destruct IH2 as [H1 H2]. split; [right; exact H1 | exact H2].
Qed.

(** X15: [s10_free_buffers] frees only memory that is allocated and not in
    use: every address it hands to [stratix10_svc_free_memory] is the
    non-NULL address of a buffer that is not locked.  It leaves a buffer
    that is in use as it is, and it leaves a buffer that it frees with the
    address NULL and locked. *)
Theorem s10_free_buffers_only_idle (p : s10_priv) :
  let r := s10_free_buffers p in
  (forall k, k ∈ frees r.2 ->
     k <> NULL /\ exists b, b ∈ svc_bufs p /\ buf b = k /\ ~ locked b) /\
  (forall i b, svc_bufs p !! i = Some b -> buf b <> NULL -> locked b ->
     svc_bufs r.1.2 !! i = Some b) /\
  (forall i b, svc_bufs p !! i = Some b -> buf b <> NULL -> ~ locked b ->
     buf b ∈ frees r.2 /\
     exists b', svc_bufs r.1.2 !! i = Some b' /\ buf b' = NULL /\ locked b').
Proof.
  cbv zeta. rewrite s10_free_buffers_eq. cbn [fst snd]. rewrite frees_fmap.
  change (svc_bufs (with_svc_bufs ?l p)) with l.
  destruct (free_scan_buffers (svc_bufs p)) as [H1 H2].
  split; [exact H1|]. split.
  - intros i b Hi Hn Hl. specialize (H2 i b Hi).
    rewrite (proj2 (Z.eqb_neq _ _) Hn) in H2. unfold locked in Hl.
    rewrite Hl in H2. exact H2.
  - intros i b Hi Hn Hl. specialize (H2 i b Hi).
    rewrite (proj2 (Z.eqb_neq _ _) Hn) in H2. unfold locked in Hl.
    destruct (Z.testbit (lock b) SVC_BUF_LOCK); [contradiction | exact H2].
Qed.

Lemma free_scan_count (bufs : list s10_svc_buf) :
  let r := free_scan bufs in
  length r.1.2 = length bufs /\
  (r.1.1 <= length bufs)%nat /\
  (r.1.1 = length bufs <-> Forall (fun b => buf b = NULL \/ ~ locked b) bufs) /\
  (r.1.1 = length bufs <-> Forall (fun b => buf b = NULL) r.1.2).
Proof.
  cbv zeta. induction bufs as [|b bufs (IHl & IHle & IH1 & IH2)].
  - cbn. repeat split; auto.
  - rewrite free_scan_cons. cbv zeta. cbn [length].
    destruct (Z.eqb_spec (buf b) NULL) as [Hn|Hn];
      [|destruct (Z.testbit (lock b) SVC_BUF_LOCK) eqn:El]; cbn [fst snd length].
    + split; [lia|]. split; [lia|]. rewrite !Forall_cons. split.
      * split; [intros H; split; [left; exact Hn | apply IH1; lia]
               | intros [_ H]; apply IH1 in H; lia].
      * split; [intros H; split; [exact Hn | apply IH2; lia]
               | intros [_ H]; apply IH2 in H; lia].
    + split; [lia|]. split; [lia|]. rewrite !Forall_cons. split.
      * split; [lia|]. intros [[H|H] _]; [contradiction|].
        exfalso. apply H. exact El.
      * split; [lia|]. intros [H _]. contradiction.
    + split; [lia|]. split; [lia|]. rewrite !Forall_cons. split.
      * split; [intros H; split; [| apply IH1; lia]
               | intros [_ H]; apply IH1 in H; lia].
        right. unfold locked. rewrite El. discriminate.
      * split; [intros H; split; [reflexivity | apply IH2; lia]
               | intros [_ H]; apply IH2 in H; lia].
Qed.

(** X16: on an array of [NUM_SVC_BUFS] buffers, [s10_free_buffers] returns
    true exactly when no buffer with allocated memory is in use, and
    exactly when every buffer has the address NULL afterwards. *)
Theorem s10_free_buffers_all_freed (p : s10_priv) :
  pool_wf p ->
  let r := s10_free_buffers p in
  (r.1.1 = true <-> Forall (fun b => buf b = NULL \/ ~ locked b) (svc_bufs p)) /\
  (r.1.1 = true <-> Forall (fun b => buf b = NULL) (svc_bufs r.1.2)).
Proof.
  intros Hwf. cbv zeta. rewrite s10_free_buffers_eq. cbn [fst snd].
  change (svc_bufs (with_svc_bufs ?l p)) with l.
  destruct (free_scan_count (svc_bufs p)) as (_ & _ & H1 & H2).
  unfold pool_wf in Hwf. rewrite Hwf in H1, H2.
  rewrite Nat.eqb_eq. split; assumption.
Qed.

Lemma s10_free_buffers_all_freed_witness :
  pool_wf priv_busy /\
  ((s10_free_buffers priv_busy).1.1 = true <->
   Forall (fun b => buf b = NULL \/ ~ locked b) (svc_bufs priv_busy)) /\
  ((s10_free_buffers priv_busy).1.1 = true <->
   Forall (fun b => buf b = NULL) (svc_bufs (s10_free_buffers priv_busy).1.2)).
Proof.
  split; [reflexivity|].
  apply (s10_free_buffers_all_freed priv_busy). reflexivity.
Defined.

Lemma free_scan_twice (bufs : list s10_svc_buf) :
  free_scan (free_scan bufs).1.2 = ((free_scan bufs).1.1, (free_scan bufs).1.2, []).
Proof.
  induction bufs as [|b bufs IH]; [reflexivity|].
  rewrite (free_scan_cons b bufs). cbv zeta.
  destruct (Z.eqb_spec (buf b) NULL) as [Hn|Hn];
    [|destruct (Z.testbit (lock b) SVC_BUF_LOCK) eqn:El]; cbn [fst snd].
  - rewrite free_scan_cons, IH. cbv zeta. cbn [fst snd].
    rewrite (proj2 (Z.eqb_eq _ _) Hn). reflexivity.
  - rewrite free_scan_cons, IH. cbv zeta. cbn [fst snd buf lock with_lock].
    rewrite (proj2 (Z.eqb_neq _ _) Hn).
    rewrite (set_locked_bit _ El), El, with_lock_same, (set_locked_bit _ El),
      with_lock_same.
    reflexivity.
  - rewrite free_scan_cons, IH. cbv zeta. cbn [fst snd buf with_buf].
    reflexivity.
Qed.

(** X17: a second call of [s10_free_buffers] frees nothing: it leaves the
    private data as the first call left it and returns what the first
    call returned. *)
Theorem s10_free_buffers_twice (p : s10_priv) :
  let r := s10_free_buffers p in
  s10_free_buffers r.1.2 = (r.1.1, r.1.2, []).
Proof.
  cbv zeta. rewrite (s10_free_buffers_eq p). cbn [fst snd].
  rewrite s10_free_buffers_eq.
  change (svc_bufs (with_svc_bufs ?l p)) with l.
  rewrite free_scan_twice. cbn [fst snd]. reflexivity.
Qed.

(** ** The life cycle: probe and remove *)

Section Probe.
Context {hdr : kernel_headers}.

(** The notifications of the firmware-version request, run. *)
Lemma s10_fw_version_callbacks_run (mem : Z -> Z) (ds : list stratix10_svc_cb_data)
    (p : s10_priv) :
  let r := for_each ds (s10_fw_version_callback mem) p in
  svc_bufs (priv_of r) = svc_bufs p /\
  status (priv_of r) = status p /\
  is_smmu_enabled (priv_of r) = is_smmu_enabled p /\
  (Forall (fun d => cb_status d <> BIT SVC_STATUS_OK) ds ->
   fw_version (priv_of r) = fw_version p) /\
  (forall ds1 d ds2,
     ds = ds1 ++ d :: ds2 ->
     cb_status d = BIT SVC_STATUS_OK ->
     Forall (fun d' => cb_status d' <> BIT SVC_STATUS_OK) ds2 ->
     fw_version (priv_of r) = mem (kaddr1 d)).
Proof.
  cbv zeta. revert p. induction ds as [|d0 ds IH]; intros p.
  - cbn [for_each]. autorewrite with run.
    do 3 (split; [reflexivity|]). split; [reflexivity|].
    intros [|? ?] d ds2 H; discriminate.
  - cbn [for_each]. rewrite priv_bind.
    set (p1 := priv_of (s10_fw_version_callback mem d0 p)).
    assert (Hp1 : svc_bufs p1 = svc_bufs p /\ status p1 = status p /\
                  is_smmu_enabled p1 = is_smmu_enabled p /\
                  fw_version p1 = if cb_status d0 =? BIT SVC_STATUS_OK
                                  then mem (kaddr1 d0) else fw_version p).
    { subst p1. unfold s10_fw_version_callback. rewrite priv_bind.
      destruct (cb_status d0 =? BIT SVC_STATUS_OK); autorewrite with run.
      - repeat split.
      - destruct (cb_status d0 =? BIT SVC_STATUS_NO_SUPPORT); autorewrite with run;
          repeat split. }
    destruct Hp1 as (Hb & Hs & Hm & Hv).
    destruct (IH p1) as (IHb & IHs & IHm & IHv & IHl).
    split; [congruence|]. split; [congruence|]. split; [congruence|]. split.
    + intros Hall. apply Forall_cons in Hall as [Hd0 Hall].
      rewrite (IHv Hall), Hv. destruct (Z.eqb_spec (cb_status d0) (BIT SVC_STATUS_OK));
        [contradiction | reflexivity].
    + intros [|d1 ds1] d ds2 Heq Hd Hrest; cbn [app] in Heq;
        injection Heq as -> ->.
      * rewrite (IHv Hrest), Hv, Hd, Z.eqb_refl. reflexivity.
      * exact (IHl ds1 d ds2 eq_refl Hd Hrest).
Qed.

Lemma s10_fw_version_callbacks_calls (mem : Z -> Z)
    (ds : list stratix10_svc_cb_data) (p : s10_priv) :
  calls_of (for_each ds (s10_fw_version_callback mem) p) =
    replicate (length ds) Complete.
Proof.
  revert p. induction ds as [|d ds IH]; intros p; [reflexivity|].
  cbn [for_each length replicate]. rewrite calls_bind, IH.
  unfold s10_fw_version_callback. rewrite calls_bind.
  destruct (cb_status d =? BIT SVC_STATUS_OK); autorewrite with run;
    [reflexivity|].
  destruct (cb_status d =? BIT SVC_STATUS_NO_SUPPORT); autorewrite with run;
    reflexivity.
Qed.

Lemma done_calls_complete (n : nat) : done_calls (replicate n Complete) = O.
Proof. induction n as [|n IH]; [reflexivity | exact IH]. Qed.

(** The loop of [s10_probe] that allocates the buffers, on the array
    that [devm_kzalloc] zeroed. *)
Lemma allocate_bufs_spec (alloc : nat -> ptr_or_err) (i : nat)
    (bufs : list s10_svc_buf) :
  Forall (fun b => buf b = NULL) bufs ->
  (forall j k, alloc j = Ptr k -> k <> NULL) ->
  let a := allocate_bufs alloc i bufs in
  Forall (fun c => exists s r, c = AllocateMemory s r) a.2 /\
  Forall (fun k => k <> NULL) (allocations a.2) /\
  (free_scan a.1.2).2 = allocations a.2 /\
  Forall (fun b => buf b = NULL) (free_scan a.1.2).1.2 /\
  match a.1.1 with
  | None =>
      buf <$> a.1.2 = allocations a.2 /\ Forall free a.1.2 /\
      Forall (fun c => exists s k, c = AllocateMemory s (Ptr k)) a.2
  | Some err => exists s, AllocateMemory s (ErrPtr err) ∈ a.2
  end.
Proof.
  intros Hnull Halloc. cbv zeta. revert i.
  induction Hnull as [|b bufs Hb Hbufs IH]; intros i.
  - cbn. repeat split; constructor.
  - cbn [allocate_bufs]. destruct (alloc i) as [k|err] eqn:Ei.
    + specialize (IH (S i)).
      destruct (allocate_bufs alloc (S i) bufs) as [[r bufs'] t]. cbn [fst snd] in *.
      destruct IH as (IH1 & IH2 & IH3 & IH4 & IH5).
      pose proof (Halloc i k Ei) as Hk.
      split; [constructor; [eauto | exact IH1]|].
      split; [cbn; constructor; [exact Hk | exact IH2]|].
      rewrite free_scan_cons. cbv zeta. cbn [buf lock with_lock with_buf].
      rewrite (proj2 (Z.eqb_neq _ _) Hk).
      change (Z.testbit 0 SVC_BUF_LOCK) with false. cbv iota. cbn [fst snd].
      split; [cbn; f_equal; exact IH3|].
      split; [constructor; [reflexivity | exact IH4]|].
      destruct r as [err|].
      * destruct IH5 as [s Hs]. exists s. right. exact Hs.
      * destruct IH5 as (H1 & H2 & H3).
        split; [cbn; f_equal; exact H1|].
        split; [constructor; [reflexivity | exact H2]|].
        constructor; [eauto | exact H3].
    + cbn [fst snd]. split; [constructor; [eauto | constructor]|].
      split; [constructor|].
      assert (Hscan : forall l, Forall (fun b => buf b = NULL) l ->
                (free_scan l).2 = [] /\ (free_scan l).1.2 = l).
      { induction 1 as [|b0 l Hb0 _ [IHa IHb]]; [split; reflexivity|].
        rewrite free_scan_cons. cbv zeta.
        rewrite (proj2 (Z.eqb_eq _ _) Hb0). cbn [fst snd].
        split; [exact IHa | f_equal; exact IHb]. }
      destruct (Hscan (b :: bufs)) as [Ha Hb']; [constructor; assumption|].
      rewrite Ha, Hb'. split; [reflexivity|].
      split; [constructor; assumption|].
      exists SVC_BUF_SIZE. left.
Qed.

Lemma allocate_bufs_log (alloc : nat -> ptr_or_err) (i : nat)
    (bufs : list s10_svc_buf) :
  let a := allocate_bufs alloc i bufs in
  Forall (fun c => exists s r, c = AllocateMemory s r) a.2 /\
  match a.1.1 with
  | None => Forall (fun c => exists s k, c = AllocateMemory s (Ptr k)) a.2
  | Some err => exists s, AllocateMemory s (ErrPtr err) ∈ a.2
  end.
Proof.
  cbv zeta. revert i. induction bufs as [|b bufs IH]; intros i.
  - cbn. split; constructor.
  - cbn [allocate_bufs]. destruct (alloc i) as [k|err] eqn:Ei.
    + specialize (IH (S i)).
      destruct (allocate_bufs alloc (S i) bufs) as [[r bufs'] t]. cbn [fst snd] in *.
      destruct IH as (IH1 & IH2).
      split; [constructor; [eauto | exact IH1]|].
      destruct r as [err|].
      * destruct IH2 as [s Hs]. exists s. right. exact Hs.
      * constructor; [eauto | exact IH2].
    + cbn [fst snd]. split; [constructor; [eauto | constructor]|].
      exists SVC_BUF_SIZE. left.
Qed.

Lemma allocation_log_frees (t : list platform_call) :
  Forall (fun c => exists s r, c = AllocateMemory s r) t ->
  frees t = [] /\ svc_calls t = [] /\ free_channel_calls t = O /\ channels t = O /\
  forall c, (forall s r, c <> AllocateMemory s r) -> c ∉ t.
Proof.
  induction 1 as [|c t (s & r & ->) _ (H1 & H2 & H3 & H4 & H5)].
  - repeat split; auto. intros c _ Hc. inversion Hc.
  - repeat split; auto. intros c Hc Hin. apply elem_of_cons in Hin as [->|Hin].
    + exact (Hc s r eq_refl).
    + exact (H5 c Hc Hin).
Qed.

Lemma allocation_log_no_error (t : list platform_call) :
  Forall (fun c => exists s k, c = AllocateMemory s (Ptr k)) t ->
  forall s err, AllocateMemory s (ErrPtr err) ∉ t.
Proof.
  induction 1 as [|c t (s0 & k & ->) _ IH]; intros s err Hin.
  - inversion Hin.
  - apply elem_of_cons in Hin as [Hin|Hin]; [discriminate | exact (IH s err Hin)].
Qed.

Lemma not_elem_of_svc (c : platform_call) (t : list extern_call) :
  (forall x, c <> Svc x) -> c ∉ Svc <$> t.
Proof.
  intros Hc Hin. apply list_elem_of_fmap in Hin as (x & -> & _).
  exact (Hc x eq_refl).
Qed.

Lemma not_elem_of_frees (c : platform_call) (ks : list Z) :
  (forall k, c <> FreeMemory k) -> c ∉ FreeMemory <$> ks.
Proof.
  intros Hc Hin. apply list_elem_of_fmap in Hin as (x & -> & _).
  exact (Hc x eq_refl).
Qed.

Lemma remove_scan_nonnull (bufs : list s10_svc_buf) :
  Forall (fun k => k <> NULL) (buf <$> bufs) ->
  remove_scan bufs = buf <$> bufs.
Proof.
  induction bufs as [|b bufs IH]; [reflexivity|].
  rewrite fmap_cons. intros H. apply Forall_cons in H as [Hb H].
  cbn [remove_scan]. rewrite (proj2 (Z.eqb_neq _ _) Hb). f_equal. exact (IH H).
Qed.

(** The paths through [s10_probe], with what is known on each. *)
Ltac probe_cases env :=
  unfold s10_probe;
  destruct (kzalloc_ok env); cbn [negb];
  [ destruct (request_channel env) as [?c|?err] eqn:?Hc;
    [ destruct (mgr_register env) as [?m|?err] eqn:?Hm;
      [ destruct (Z.eqb_spec (send_ret (version_turn env)) 0) as [?Hsend|?Hsend];
        cbn [negb];
        [ match goal with
          | |- context [for_each ?ds ?f ?p0] =>
              let Hrun := fresh "Hrun" in
              let Htw := fresh "Htw" in
              pose proof (s10_fw_version_callbacks_run (memory env) ds p0) as Hrun;
              pose proof (s10_fw_version_callbacks_calls (memory env) ds p0) as Htw;
              cbv zeta in Hrun;
              destruct (for_each ds f p0) as [[?u ?p1] ?tw];
              cbn [priv_of calls_of fst snd svc_bufs status fw_version
                   is_smmu_enabled] in Hrun, Htw
          end;
          destruct (Z.eqb_spec (to_int (left (version_turn env))) 0) as [?Hto|?Hto];
          [ | match goal with
              | |- context [allocate_bufs ?al ?i ?bs] =>
                  let Ha := fresh "Ha" in
                  let Hal := fresh "Hal" in
                  pose proof (allocate_bufs_spec al i bs) as Ha;
                  pose proof (allocate_bufs_log al i bs) as Hal;
                  cbv zeta in Ha, Hal;
                  destruct (allocate_bufs al i bs) as [[[?err|] ?bufs] ?ta];
                  cbn [fst snd] in Ha, Hal;
                  [ rewrite s10_free_buffers_eq | ]
              end ]
        | ]
      | ]
    | ]
  | ].

(** X18: when every call of [s10_probe] into its collaborators succeeds, the
    probe returns 0 with the private data holding the [NUM_SVC_BUFS]
    buffers in the order in which they were allocated, all of them free,
    and no status bit pending; it has freed no buffer and no channel, has
    ended its transaction with one call of [stratix10_svc_done], and its
    last call is [platform_set_drvdata]. *)
Theorem s10_probe_success (env : probe_env) (chan mgr : Z) (a : nat -> Z) :
  kzalloc_ok env = true ->
  request_channel env = Ptr chan ->
  mgr_register env = Ptr mgr ->
  send_ret (version_turn env) = 0 ->
  to_int (left (version_turn env)) <> 0 ->
  (forall i, (i < NUM_SVC_BUFS)%nat -> allocate env i = Ptr (a i)) ->
  exists p t,
    s10_probe env = (0, Some p, t) /\
    svc_bufs p = (fun i => mk_svc_buf (a i) 0 0) <$> seq 0 NUM_SVC_BUFS /\
    status p = 0 /\
    allocations t = a <$> seq 0 NUM_SVC_BUFS /\
    frees t = [] /\
    free_channel_calls t = O /\
    done_calls (svc_calls t) = 1%nat /\
    last t = Some SetDrvdata.
Proof.
  intros Hk Hc Hm Hsend Hto Halloc.
  unfold s10_probe. rewrite Hk, Hc, Hm, Hsend. cbn [negb Z.eqb].
  match goal with
  | |- context [for_each ?ds ?f ?p0] =>
      pose proof (s10_fw_version_callbacks_run (memory env) ds p0) as Hrun;
      pose proof (s10_fw_version_callbacks_calls (memory env) ds p0) as Htw;
      cbv zeta in Hrun;
      destruct (for_each ds f p0) as [[u p1] tw]
  end.
  cbn [priv_of calls_of fst snd svc_bufs status] in Hrun, Htw.
  destruct Hrun as (Hb & Hs & _).
  destruct (Z.eqb_spec (to_int (left (version_turn env))) 0); [contradiction|].
  rewrite Hb. cbn [replicate NUM_SVC_BUFS allocate_bufs].
  rewrite (Halloc 0%nat), (Halloc 1%nat), (Halloc 2%nat), (Halloc 3%nat)
    by (unfold NUM_SVC_BUFS; lia).
  eexists _, _. split; [reflexivity|].
  split; [reflexivity|]. split; [exact Hs|].
  rewrite !allocations_app, !frees_app, !free_channel_calls_app, !svc_calls_app,
    allocations_svc, frees_svc, free_channel_calls_svc, svc_calls_svc.
  split; [reflexivity|]. split; [reflexivity|]. split; [reflexivity|].
  split.
  - rewrite !done_calls_app, Htw, done_calls_complete. reflexivity.
  - rewrite !app_assoc, last_app. reflexivity.
Qed.

Lemma zeroed_bufs (n : nat) :
  Forall (fun b => buf b = NULL) (replicate n (mk_svc_buf NULL 0 0)).
Proof. apply Forall_replicate. reflexivity. Qed.

(** The observations of a log, piece by piece. *)
Ltac observe :=
  rewrite ?frees_app, ?allocations_app, ?free_channel_calls_app, ?channels_app,
    ?svc_calls_app, ?frees_svc, ?allocations_svc, ?free_channel_calls_svc,
    ?channels_svc, ?svc_calls_svc, ?frees_fmap, ?allocations_frees,
    ?free_channel_calls_frees, ?channels_frees, ?svc_calls_frees.

(** A call that is in no piece of a log. *)
Ltac absent H :=
  repeat match type of H with
  | _ ∈ _ ++ _ => apply elem_of_app in H as [H|H]
  | _ ∈ _ :: _ => apply elem_of_cons in H as [H|H]; [discriminate H|]
  | _ ∈ [] => inversion H
  | _ ∈ Svc <$> _ =>
      revert H; apply not_elem_of_svc; intros; discriminate
  | _ ∈ FreeMemory <$> _ =>
      revert H; apply not_elem_of_frees; intros; discriminate
  | ?c ∈ ?t =>
      match goal with
      | Hlog : forall c', (forall s r, c' <> AllocateMemory s r) -> c' ∉ t |- _ =>
          revert H; apply Hlog; intros; discriminate
      | Hptr : forall s err, AllocateMemory s (ErrPtr err) ∉ t |- _ =>
          exact (Hptr _ _ H)
      end
  end.

(** X19: when [s10_probe] does not reach [platform_set_drvdata], it has
    freed every buffer it allocated, in the order of the allocations, and
    every channel it was given, and no buffer address is left in the
    private data; it never unregisters the manager, also when it had
    registered it. *)
Theorem s10_probe_failure_cleanup (env : probe_env) :
  (forall i k, allocate env i = Ptr k -> k <> NULL) ->
  let r := s10_probe env in
  SetDrvdata ∉ r.2 ->
  frees r.2 = allocations r.2 /\
  free_channel_calls r.2 = channels r.2 /\
  (forall p, r.1.2 = Some p -> Forall (fun b => buf b = NULL) (svc_bufs p)) /\
  MgrUnregister ∉ r.2.
Proof.
  intros Hnn. cbv zeta. probe_cases env; cbn [fst snd]; intros Hset.
  - destruct Hrun as (Hb & _). observe.
    split; [reflexivity|]. split; [reflexivity|]. split.
    + intros p [= <-]. rewrite Hb. apply zeroed_bufs.
    + intros H. absent H.
  - destruct Hrun as (Hb & _).
    destruct Ha as (Hlog & _ & Hfr & Hnull & _); [rewrite Hb; apply zeroed_bufs | exact Hnn |].
    destruct (allocation_log_frees _ Hlog) as (H1 & H2 & H3 & H4 & H5).
    observe. rewrite H1, H3, H4.
    change (svc_bufs (with_svc_bufs ?l p1)) with l. rewrite Hfr.
    split; [reflexivity|]. split; [reflexivity|]. split.
    + intros p [= <-]. exact Hnull.
    + intros H. absent H.
  - exfalso. apply Hset. rewrite !elem_of_app. right. right. right. left.
  - observe. split; [reflexivity|]. split; [reflexivity|]. split.
    + intros p [= <-]. exact (zeroed_bufs NUM_SVC_BUFS).
    + intros H. absent H.
  - observe. split; [reflexivity|]. split; [reflexivity|]. split.
    + intros p [= <-]. exact (zeroed_bufs NUM_SVC_BUFS).
    + intros H. absent H.
  - split; [reflexivity|]. split; [reflexivity|]. split.
    + intros p [= <-]. exact (zeroed_bufs NUM_SVC_BUFS).
    + intros H. absent H.
  - split; [reflexivity|]. split; [reflexivity|]. split.
    + intros p [=].
    + intros H. absent H.
Qed.

(** X20: [s10_probe] calls [stratix10_svc_done] at most once: once when it
    sent the firmware-version request and no allocation failed, and not at
    all when an allocation failed or the request was not sent. *)
Theorem s10_probe_done_calls (env : probe_env) :
  let t := (s10_probe env).2 in
  (done_calls (svc_calls t) <= 1)%nat /\
  (done_calls (svc_calls t) = 1%nat <->
   (exists x, SendFirmwareVersion x ∈ t) /\
   forall s err, AllocateMemory s (ErrPtr err) ∉ t).
Proof.
  cbv zeta. probe_cases env; cbn [fst snd]; observe;
    rewrite ?done_calls_app, ?Htw, ?done_calls_complete.
  - split; [cbn; lia|]. split; [intros _ | reflexivity].
    split; [exists (send_ret (version_turn env)); rewrite !elem_of_app;
            left; left; right; left|].
    intros s err H. absent H.
  - destruct Hal as (Hlog & s & Hs).
    destruct (allocation_log_frees _ Hlog) as (_ & H2 & _).
    rewrite H2. split; [cbn; lia|]. split; [discriminate|].
    intros [_ H]. exfalso. apply (H s err). rewrite !elem_of_app.
    right. left. exact Hs.
  - destruct Hal as (Hlog & Hptr).
    destruct (allocation_log_frees _ Hlog) as (_ & H2 & _).
    pose proof (allocation_log_no_error _ Hptr) as Hno.
    rewrite H2. split; [cbn; lia|]. split; [intros _ | reflexivity].
    split; [exists (send_ret (version_turn env)); rewrite !elem_of_app;
            left; left; right; left|].
    intros s err H. absent H.
  - split; [cbn; lia|]. split; [intros _ | reflexivity].
    split; [exists (send_ret (version_turn env)); rewrite !elem_of_app;
            left; right; left|].
    intros s err H. absent H.
  - split; [cbn; lia|]. split; [discriminate|].
    intros [[x H] _]. absent H.
  - split; [cbn; lia|]. split; [discriminate|].
    intros [[x H] _]. absent H.
  - split; [cbn; lia|]. split; [discriminate|].
    intros [[x H] _]. absent H.
Qed.

(** X21: when no notification of the firmware-version request has exactly
    the OK status, [s10_probe] leaves the firmware version invalid, and
    [s10_ops_write_init] then refuses a full reconfiguration with
    authentication with [-EINVAL], without a call. *)
Theorem s10_probe_without_version (env : probe_env) (r : Z) (p : s10_priv)
    (t : list platform_call) (e : turn) (flags : Z) :
  s10_probe env = (r, Some p, t) ->
  Forall (fun d => cb_status d <> BIT SVC_STATUS_OK) (wake (version_turn env)) ->
  Z.land flags FPGA_MGR_PARTIAL_RECONFIG = 0 ->
  Z.land flags FPGA_MGR_BITSTREAM_AUTHENTICATE <> 0 ->
  fw_version p = INVALID_FIRMWARE_VERSION /\
  s10_ops_write_init e flags p = (- EINVAL, p, []).
Proof.
  intros Hp Hwake Hpartial Hauth.
  assert (Hv : fw_version p = INVALID_FIRMWARE_VERSION).
  { revert Hp. probe_cases env; intros [= <- <- <-];
      try reflexivity; destruct Hrun as (_ & _ & _ & Hv & _); exact (Hv Hwake). }
  split; [exact Hv|].
  rewrite s10_ops_write_init_cases. unfold returns_early.
  rewrite Hpartial, Hv, !Z.eqb_refl.
  rewrite (proj2 (Z.eqb_neq _ _) Hauth). reflexivity.
Qed.

(** X22: when [s10_probe] waited for the firmware version, the version it
    keeps is the one that the last notification with exactly the OK status
    points to. *)
Theorem s10_probe_last_version (env : probe_env) (r : Z) (p : s10_priv)
    (t : list platform_call) (ds1 ds2 : list stratix10_svc_cb_data)
    (d : stratix10_svc_cb_data) :
  s10_probe env = (r, Some p, t) ->
  (exists timeout left, Svc (Wait timeout left) ∈ t) ->
  wake (version_turn env) = ds1 ++ d :: ds2 ->
  cb_status d = BIT SVC_STATUS_OK ->
  Forall (fun d' => cb_status d' <> BIT SVC_STATUS_OK) ds2 ->
  fw_version p = memory env (kaddr1 d).
Proof.
  intros Hp (timeout & left & Hwait) Hwake Hd Hds2. revert Hp Hwait.
  probe_cases env; intros [= <- <- <-] Hwait;
    try (destruct Hrun as (_ & _ & _ & _ & Hv); exact (Hv _ _ _ Hwake Hd Hds2)).
  - exfalso. absent Hwait.
  - exfalso. absent Hwait.
  - exfalso. absent Hwait.
Qed.

Lemma s10_remove_after_probe (env : probe_env) (p' : s10_priv) :
  (forall i k, allocate env i = Ptr k -> k <> NULL) ->
  let r := s10_probe env in
  let t' := (s10_remove p').2 in
  SetDrvdata ∈ r.2 ->
  forall p, r.1.2 = Some p ->
  buf <$> svc_bufs p' = buf <$> svc_bufs p ->
  frees t' = allocations r.2 /\
  frees r.2 = [] /\
  free_channel_calls (r.2 ++ t') = 1%nat /\
  channels r.2 = 1%nat /\
  exists t0, t' = t0 ++ [MgrUnregister; FreeChannel] /\ (MgrUnregister ∉ t0) /\
             (FreeChannel ∉ t0).
Proof.
  intros Hnn. cbv zeta. unfold s10_remove. cbn [fst snd].
  probe_cases env; cbn [fst snd]; intros Hset p [= <-] Hbufs;
    try (exfalso; absent Hset; fail).
  - exfalso. destruct Hal as (Hlog & _).
    destruct (allocation_log_frees _ Hlog) as (_ & _ & _ & _ & H5).
    absent Hset.
  - destruct Hrun as (Hb & _).
    destruct Ha as (Hlog & Hne & _ & _ & Hbuf & _);
      [rewrite Hb; apply zeroed_bufs | exact Hnn |].
    destruct (allocation_log_frees _ Hlog) as (H1 & H2 & H3 & H4 & H5).
    change (svc_bufs (with_svc_bufs ?l p1)) with l in Hbufs.
    rewrite remove_scan_nonnull by (rewrite Hbufs, Hbuf; exact Hne).
    observe. rewrite H1, H3, H4, Hbufs, Hbuf.
    split; [reflexivity|]. split; [reflexivity|]. split; [reflexivity|].
    split; [reflexivity|].
    eexists. split; [reflexivity|].
    split; intros H; absent H.
Qed.

(** X23: [s10_remove] after a successful [s10_probe] frees exactly the
    buffers that the probe allocated, in the same order, whatever their
    lock words are by then, and then unregisters the manager and frees the
    channel: probe and remove together free the channel once. *)
Theorem s10_remove_frees_allocated (env : probe_env) (r : Z) (p p' : s10_priv)
    (t : list platform_call) :
  (forall i k, allocate env i = Ptr k -> k <> NULL) ->
  s10_probe env = (r, Some p, t) ->
  SetDrvdata ∈ t ->
  buf <$> svc_bufs p' = buf <$> svc_bufs p ->
  let t' := (s10_remove p').2 in
  frees t' = allocations t /\
  frees t = [] /\
  free_channel_calls (t ++ t') = 1%nat /\
  channels t = 1%nat /\
  exists t0, t' = t0 ++ [MgrUnregister; FreeChannel] /\ (MgrUnregister ∉ t0) /\
             (FreeChannel ∉ t0).
Proof.
  intros Hnn Hp Hset Hbufs.
  pose proof (s10_remove_after_probe env p' Hnn) as H. cbv zeta in H.
  rewrite Hp in H. exact (H Hset p eq_refl Hbufs).
Qed.

End Probe.

(** ** The theorems at work *)

Lemma s10_probe_failure_cleanup_witness :
  let r := @s10_probe mainline probe_enomem in
  r.1.1 = - ENOMEM /\
  frees r.2 = allocations r.2 /\
  free_channel_calls r.2 = channels r.2 /\
  (forall p, r.1.2 = Some p -> Forall (fun b => buf b = NULL) (svc_bufs p)) /\
  MgrUnregister ∉ r.2.
Proof.
  split; [reflexivity|].
  apply (@s10_probe_failure_cleanup mainline probe_enomem).
  - intros i k. cbn [allocate probe_enomem].
    destruct (i =? 2)%nat; [discriminate|]. intros [= <-]. unfold NULL. lia.
  - intros H. vm_compute in H.
    repeat (apply elem_of_cons in H as [H|H]; [discriminate H|]).
    inversion H.
Defined.


Lemma operations_keep_lock_words_witness :
  let ok q :=
    Forall (fun b => lock_word_ok b /\ (free b <-> ~ locked b)) (svc_bufs q) in
  Forall lock_word_ok (svc_bufs priv_busy) /\
  ok (priv_of (@s10_ops_write_init mainline (notified 1 NULL 50) 0 priv_busy)) /\
  ok (priv_of (@s10_ops_write mainline [notified 4 0x1000 100; quiet] 0x9000 7
                 priv_busy)) /\
  ok (priv_of (@s10_ops_write_complete mainline [notified 4 0x1000 100; quiet]
                 priv_busy)).
Proof.
  assert (H : Forall lock_word_ok (svc_bufs priv_busy)).
  { repeat constructor; unfold lock_word_ok; cbn; lia. }
  split; [exact H|].
  exact (@operations_keep_lock_words mainline (notified 1 NULL 50) 0
           [notified 4 0x1000 100; quiet] 0x9000 7 priv_busy H).
Defined.

Lemma s10_ops_write_calls_ok_witness :
  pool_wf priv_busy /\
  Forall (write_call_ok [0x1000; 0x2000; 0x3000; 0x4000])
    (calls_of (@s10_ops_write mainline [notified 4 0x1000 100; quiet] 0x9000 7
                 priv_busy)).
Proof.
  split; [reflexivity|].
  apply (@s10_ops_write_calls_ok mainline [notified 4 0x1000 100; quiet] 0x9000 7
           priv_busy).
  reflexivity.
Defined.

Lemma operations_no_dma_without_smmu_witness :
  is_smmu_enabled priv_busy = false /\
  dma_calls (calls_of (@s10_ops_write_init mainline (notified 1 NULL 50) 0
                         priv_busy)) = [] /\
  dma_calls (calls_of (@s10_ops_write mainline [notified 4 0x1000 100; quiet]
                         0x9000 7 priv_busy)) = [] /\
  dma_calls (calls_of (@s10_ops_write_complete mainline
                         [notified 4 0x1000 100; quiet] priv_busy)) = [].
Proof.
  split; [reflexivity|].
  apply (@operations_no_dma_without_smmu mainline (notified 1 NULL 50) 0
           [notified 4 0x1000 100; quiet] 0x9000 7 priv_busy).
  reflexivity.
Defined.

Lemma s10_ops_write_results_witness :
  let w := @s10_ops_write mainline [notified 4 0x1000 100; quiet] 0x9000 7 priv0 in
  result_of w = Some 0 /\
  match result_of w with
  | Some r =>
      (r = 0 /\ unlocked_count (svc_bufs (priv_of w)) = NUM_SVC_BUFS /\
       total (submissions (calls_of w)) = 7) \/
      r = - EFAULT \/ r = - ETIMEDOUT \/
      (r < 0 /\ r ∈ send_ret <$> [notified 4 0x1000 100; quiet])
  | None => True
  end.
Proof.
  split; [reflexivity|].
  apply (@s10_ops_write_results mainline [notified 4 0x1000 100; quiet] 0x9000 7
           priv0).
  - reflexivity.
  - lia.
Defined.

Lemma s10_ops_write_reads_in_order_witness :
  read_of <$> copies (calls_of (@s10_ops_write mainline
                                  [notified 4 0x1000 100; quiet] 0x9000 7 priv0)) =
    pieces 0x9000 (chunking 7).
Proof.
  apply (@s10_ops_write_reads_in_order mainline [notified 4 0x1000 100; quiet]
           0x9000 7 priv0).
  - reflexivity.
  - lia.
  - repeat constructor; cbn; lia.
  - reflexivity.
Defined.

Lemma s10_ops_write_init_outcome_witness :
  let e := notified 32 NULL 50 in
  let r := @s10_ops_write_init mainline e 0 priv_busy in
  let p1 := priv_of (@deliver mainline (wake e) priv_busy) in
  result_of r = - ETIMEDOUT /\
  (result_of r = 0 <->
     0 <= send_ret e /\ to_int (left e) <> 0 /\
     Z.testbit (status p1) (@SVC_STATUS_OK mainline) = true) /\
  (result_of r = 0 ->
     svc_bufs (priv_of r) = with_lock 0 <$> svc_bufs p1 /\
     Z.testbit (status (priv_of r)) (@SVC_STATUS_OK mainline) = false) /\
  (result_of r <> 0 ->
     (result_of r = send_ret e /\ send_ret e < 0) \/ result_of r = - ETIMEDOUT).
Proof.
  split; [reflexivity|].
  apply (@s10_ops_write_init_outcome mainline (notified 32 NULL 50) 0 priv_busy).
  - reflexivity.
  - cbn. lia.
Defined.

Lemma s10_ops_write_complete_time_bound_witness :
  let script := [mk_turn [] 0 0 [] 50; mk_turn [] 0 0 [] 20; notified 8 NULL 10] in
  let ws := waits (calls_of (@s10_ops_write_complete mainline script priv0)) in
  ws = [(75, 50); (50, 20); (20, 10)] /\
  slept ws <= @S10_RECONFIG_TIMEOUT mainline.
Proof.
  split; [reflexivity|].
  apply (@s10_ops_write_complete_time_bound mainline
           [mk_turn [] 0 0 [] 50; mk_turn [] 0 0 [] 20; notified 8 NULL 10] priv0).
  - vm_compute. discriminate.
  - repeat constructor; cbn; lia.
  - change (Forall (fun w : Z * Z => 0 <= w.2 <= w.1) [(75, 50); (50, 20); (20, 10)]).
    repeat constructor; cbn; lia.
Defined.

Lemma s10_ops_write_complete_completed_first_witness :
  let r := @s10_ops_write_complete_body mainline (notified 40 NULL 10) 75 priv0 in
  result_of r = Return 0 /\
  Z.testbit (status (priv_of r)) (@SVC_STATUS_COMPLETED mainline) = false /\
  Z.testbit (status (priv_of r)) (@SVC_STATUS_ERROR mainline) = true.
Proof.
  apply (@s10_ops_write_complete_completed_first mainline (notified 40 NULL 10) 75
           priv0).
  - cbn. lia.
  - cbn. lia.
  - cbn. lia.
  - cbn. lia.
  - vm_compute. discriminate.
  - reflexivity.
  - reflexivity.
Defined.

Lemma s10_ops_write_wait_buffer_bits_first_witness :
  let e := notified 36 0x1000 0 in
  let st := status (priv_of (@deliver mainline (wake e) priv_busy)) in
  let r := @s10_ops_write_wait mainline e 0x9000 7 priv_busy in
  result_of r = Again (0x9000, 7) /\
  Z.testbit (status (priv_of r)) (@SVC_STATUS_ERROR mainline) =
    Z.testbit st (@SVC_STATUS_ERROR mainline) /\
  (Z.testbit st (@SVC_STATUS_BUFFER_DONE mainline) = true ->
   Z.testbit (status (priv_of r)) (@SVC_STATUS_BUFFER_SUBMITTED mainline) =
   Z.testbit st (@SVC_STATUS_BUFFER_SUBMITTED mainline)).
Proof.
  apply (@s10_ops_write_wait_buffer_bits_first mainline (notified 36 0x1000 0)
           0x9000 7 priv_busy).
  - cbn. lia.
  - cbn. lia.
  - cbn. lia.
  - cbn. lia.
  - cbn. lia.
  - reflexivity.
Defined.

Lemma s10_probe_success_witness :
  exists p t,
    @s10_probe mainline probe_ok = (0, Some p, t) /\
    svc_bufs p = pool0 /\
    status p = 0 /\
    allocations t = [0x1000; 0x2000; 0x3000; 0x4000] /\
    frees t = [] /\
    free_channel_calls t = O /\
    done_calls (svc_calls t) = 1%nat /\
    last t = Some SetDrvdata.
Proof.
  apply (@s10_probe_success mainline probe_ok 0xc000 0xd000
           (fun i => 0x1000 * (Z.of_nat i + 1))).
  - reflexivity.
  - reflexivity.
  - reflexivity.
  - reflexivity.
  - vm_compute. discriminate.
  - intros i _. reflexivity.
Defined.

Lemma s10_probe_without_version_witness :
  fw_version priv0 = INVALID_FIRMWARE_VERSION /\
  @s10_ops_write_init mainline quiet 32 priv0 = (- EINVAL, priv0, []).
Proof.
  apply (@s10_probe_without_version mainline probe_no_support 0 priv0
           (@s10_probe mainline probe_no_support).2 quiet 32).
  - reflexivity.
  - repeat constructor. vm_compute. discriminate.
  - reflexivity.
  - vm_compute. discriminate.
Defined.

Lemma s10_probe_last_version_witness :
  fw_version (mk_priv pool0 0 0x0203 false) = 0x0203.
Proof.
  apply (@s10_probe_last_version mainline probe_ok 0
           (mk_priv pool0 0 0x0203 false) (@s10_probe mainline probe_ok).2
           [] [] (mk_cb_data 1 0xe000 NULL NULL NULL)).
  - reflexivity.
  - exists 75, 50. vm_compute. do 5 right. left.
  - reflexivity.
  - reflexivity.
  - constructor.
Defined.

Lemma s10_remove_frees_allocated_witness :
  let t := (@s10_probe mainline probe_ok).2 in
  let t' := (s10_remove priv_busy).2 in
  frees t' = allocations t /\
  frees t = [] /\
  free_channel_calls (t ++ t') = 1%nat /\
  channels t = 1%nat /\
  exists t0, t' = t0 ++ [MgrUnregister; FreeChannel] /\ (MgrUnregister ∉ t0) /\
             (FreeChannel ∉ t0).
Proof.
  apply (@s10_remove_frees_allocated mainline probe_ok 0
           (mk_priv pool0 0 0x0203 false) priv_busy).
  - intros i k [= <-]. unfold NULL. lia.
  - reflexivity.
  - vm_compute. do 11 right. left.
  - reflexivity.
Defined.
